(** * Healthcare assistant: symptom ranking, precaution lookup, facility ranking

    A shallow embedding of the pure logic of [app.py], [utils.py] and
    [location_service.py], with the properties the specification states
    about it.

    Conventions of the embedding.
    - Text read from the data files and typed into the forms is taken to
      be ASCII: such a Python [str] is a [string], and the case and
      whitespace classes of [PyStr] are Python's on that range.  The
      symptom normalisation [clean_symptom_text] is stated for every
      text: there a [str] is a sequence of Unicode code points, and the
      interpreter's Unicode database is an interface ([PyUnicode]).
    - A Python exception is a value of [exn]; code that can raise returns
      [result A = exn + A] and is sequenced with [x <- c ;; k].
    - A [float] is the real number it stands for in the distance
      computations (rounding of the arithmetic is not modelled), and a
      rational number in the probability computations.
    - Library calls (pandas, scikit-learn, numpy, the HTTP providers) are
      not part of the repository: their results enter as data (a parsed
      table, a fitted classifier, a provider response) or as an interface
      with the laws their documentation gives. *)

From Stdlib Require Import Bool Arith List Lia.
From Stdlib Require Import NArith ZArith QArith Qround.
From Stdlib Require Import Ascii String.
From Stdlib Require Import Sorting.Sorted Sorting.Permutation.
From Stdlib Require Import Reals Lra Machin.
From Stdlib Require OrderedTypeEx.
Import ListNotations.

Close Scope Q_scope.
Close Scope R_scope.

(** ** Exceptions *)

Inductive exn : Type :=
| FileNotFoundError
| EmptyDataError
| KeyError
| IndexError
| AttributeError
| ValueError
| NotFittedError
| TypeError
| ReError
| ConnectionError.

Definition result (A : Type) : Type := (exn + A)%type.

Definition raise {A : Type} (e : exn) : result A := inl e.
Definition ret {A : Type} (a : A) : result A := inr a.

Definition bind {A B : Type} (c : result A) (k : A -> result B) : result B :=
  match c with
  | inl e => inl e
  | inr a => k a
  end.

Notation "x <- c ;; k" := (bind c (fun x => k))
  (at level 61, c at next level, right associativity).

Definition exn_eqb (a b : exn) : bool :=
  match a, b with
  | FileNotFoundError, FileNotFoundError
  | EmptyDataError, EmptyDataError
  | KeyError, KeyError
  | IndexError, IndexError
  | AttributeError, AttributeError
  | ValueError, ValueError
  | NotFittedError, NotFittedError
  | TypeError, TypeError
  | ReError, ReError
  | ConnectionError, ConnectionError => true
  | _, _ => false
  end.

(** ** Python string built-ins (ASCII) *)

Module PyStr.

Open Scope string_scope.

Definition code (c : ascii) : N := N_of_ascii c.

Definition in_range (lo hi : N) (c : ascii) : bool :=
  (lo <=? code c)%N && (code c <=? hi)%N.

(** [str.isspace] on one ASCII character: TAB, LF, VT, FF, CR, the four
    separators 0x1c-0x1f, and the space. *)
Definition isspace (c : ascii) : bool := in_range 9 13 c || in_range 28 32 c.

Definition isupper (c : ascii) : bool := in_range 65 90 c.
Definition islower (c : ascii) : bool := in_range 97 122 c.
Definition iscased (c : ascii) : bool := isupper c || islower c.

Definition to_lower (c : ascii) : ascii :=
  if isupper c then ascii_of_N (code c + 32) else c.

Fixpoint smap (f : ascii -> ascii) (s : string) : string :=
  match s with
  | EmptyString => EmptyString
  | String c r => String (f c) (smap f r)
  end.

Fixpoint sall (p : ascii -> bool) (s : string) : bool :=
  match s with
  | EmptyString => true
  | String c r => p c && sall p r
  end.

Definition is_empty (s : string) : bool :=
  match s with
  | EmptyString => true
  | String _ _ => false
  end.

(** [s.lower()] *)
Definition lower (s : string) : string := smap to_lower s.

(** [s.lstrip()], [s.rstrip()], [s.strip()] *)
Fixpoint lstrip (s : string) : string :=
  match s with
  | EmptyString => EmptyString
  | String c r => if isspace c then lstrip r else s
  end.

Fixpoint rstrip (s : string) : string :=
  match s with
  | EmptyString => EmptyString
  | String c r =>
      match rstrip r with
      | EmptyString => if isspace c then EmptyString else String c EmptyString
      | r' => String c r'
      end
  end.

Definition strip (s : string) : string := rstrip (lstrip s).

(** [s.replace(a, b)] for one-character [a] and [b]. *)
Definition replace_char (a b : ascii) (s : string) : string :=
  smap (fun c => if Ascii.eqb c a then b else c) s.

(** The fields of [s] between whitespace characters, empty ones included:
    a string with [n] whitespace characters has [n + 1] fields. *)
Fixpoint fields (s : string) : list string :=
  match s with
  | EmptyString => [EmptyString]
  | String c r =>
      if isspace c then EmptyString :: fields r
      else match fields r with
           | [] => [String c EmptyString]
           | w :: ws => String c w :: ws
           end
  end.

(** [s.split()]: the maximal runs of non-whitespace characters. *)
Definition split (s : string) : list string :=
  filter (fun w => negb (is_empty w)) (fields s).

(** [sep.join(ws)] *)
Definition join (sep : string) (ws : list string) : string := String.concat sep ws.

(** [sub in s] *)
Fixpoint contains (sub s : string) : bool :=
  String.prefix sub s ||
  match s with
  | EmptyString => false
  | String _ r => contains sub r
  end.

(** [s.startswith(p)] *)
Definition startswith (p s : string) : bool := String.prefix p s.

Definition not_underscore (c : ascii) : bool := negb (Ascii.eqb c "_").

End PyStr.

(** ** pandas cells *)

(** A cell of an object-dtype column: missing ([NaN]/[None]) or a string. *)
Inductive cell : Type :=
| NaN
| Str (s : string).

(** ** Python string built-ins (Unicode) *)

Module PyUnicode.

Open Scope N_scope.

(** A [str]: its code points, in order. *)
Definition text : Type := list N.

(** The code points of an ASCII literal. *)
Definition of_string (s : string) : text :=
  map N_of_ascii (list_ascii_of_string s).

(** [s.isascii()] *)
Definition isascii (s : text) : bool := forallb (fun c => c <? 128) s.

(** [Py_UNICODE_ISSPACE], the whitespace of [str.strip] and [str.split]:
    U+0009-000D, U+001C-0020, U+0085, U+00A0, U+1680, U+2000-200A, U+2028,
    U+2029, U+202F, U+205F and U+3000. *)
Definition whitespace (c : N) : bool :=
  ((9 <=? c) && (c <=? 13)) || ((28 <=? c) && (c <=? 32))
  || (c =? 133) || (c =? 160) || (c =? 5760)
  || ((8192 <=? c) && (c <=? 8202))
  || (c =? 8232) || (c =? 8233) || (c =? 8239) || (c =? 8287)
  || (c =? 12288).

(** The case of the ASCII letters. *)
Definition ascii_upper (c : N) : bool := (65 <=? c) && (c <=? 90).
Definition ascii_lower (c : N) : bool := (97 <=? c) && (c <=? 122).
Definition ascii_to_lower (c : N) : N := if ascii_upper c then c + 32 else c.
Definition ascii_to_title (c : N) : N := if ascii_lower c then c - 32 else c.

(** The interpreter's Unicode database, as the case operations consult
    it: the full lower-case and title-case mappings of a code point (up
    to three code points each) and the properties Cased and
    Case_Ignorable.  The embedding fixes the entries of the ASCII range;
    the other entries are the database's. *)
Class UnicodeData : Type := {
  to_lower_full : N -> list N;
  to_title_full : N -> list N;
  is_cased : N -> bool;
  is_case_ignorable : N -> bool;
  to_lower_full_ascii : forall c, c < 128 -> to_lower_full c = [ascii_to_lower c];
  to_title_full_ascii : forall c, c < 128 -> to_title_full c = [ascii_to_title c];
  is_cased_ascii : forall c, c < 128 -> is_cased c = ascii_upper c || ascii_lower c
}.

(** [s.lstrip()], [s.rstrip()], [s.strip()] *)
Fixpoint lstrip (s : text) : text :=
  match s with
  | [] => []
  | c :: r => if whitespace c then lstrip r else s
  end.

Fixpoint rstrip (s : text) : text :=
  match s with
  | [] => []
  | c :: r =>
      match rstrip r with
      | [] => if whitespace c then [] else [c]
      | r' => c :: r'
      end
  end.

Definition strip (s : text) : text := rstrip (lstrip s).

(** [s.replace(a, b)] for one-character [a] and [b]. *)
Definition replace (a b : N) (s : text) : text :=
  map (fun c => if c =? a then b else c) s.

(** The fields of [s] between whitespace characters, empty ones included. *)
Fixpoint fields (s : text) : list text :=
  match s with
  | [] => [[]]
  | c :: r =>
      if whitespace c then [] :: fields r
      else match fields r with
           | [] => [[c]]
           | w :: ws => (c :: w) :: ws
           end
  end.

Definition nonempty (w : text) : bool :=
  match w with
  | [] => false
  | _ :: _ => true
  end.

(** [s.split()]: the maximal runs of non-whitespace characters. *)
Definition split (s : text) : list text := filter nonempty (fields s).

(** [sep.join(ws)] *)
Fixpoint join (sep : text) (ws : list text) : text :=
  match ws with
  | [] => []
  | w :: rest =>
      match rest with
      | [] => w
      | _ :: _ => w ++ sep ++ join sep rest
      end
  end.

(** The lower-casing of one character inside a string.  U+03A3, capital
    sigma, becomes the final sigma U+03C2 when a cased character comes
    before it and none after it, case-ignorable characters aside, and
    U+03C3 otherwise; [before] holds the preceding characters, nearest
    first. *)
Fixpoint skip_ignorable `{UnicodeData} (s : text) : text :=
  match s with
  | [] => []
  | c :: r => if is_case_ignorable c then skip_ignorable r else s
  end.

Definition final_sigma `{UnicodeData} (before after : text) : bool :=
  match skip_ignorable before with
  | [] => false
  | c :: _ =>
      is_cased c &&
      match skip_ignorable after with
      | [] => true
      | c' :: _ => negb (is_cased c')
      end
  end.

Definition lower_ucs4 `{UnicodeData} (before after : text) (c : N) : list N :=
  if c =? 931 then [if final_sigma before after then 962 else 963]
  else to_lower_full c.

(** [s.title()]: a character is lower-cased when the character before it
    is cased, and title-cased otherwise. *)
Fixpoint do_title `{UnicodeData} (before : text) (previous_is_cased : bool)
  (s : text) : text :=
  match s with
  | [] => []
  | c :: r =>
      (if previous_is_cased then lower_ucs4 before r c else to_title_full c)
      ++ do_title (c :: before) (is_cased c) r
  end.

Definition title `{UnicodeData} (s : text) : text := do_title [] false s.

(** *** Words *)

(** A character that is neither whitespace nor an underscore. *)
Definition wordchar (c : N) : bool := negb (whitespace c) && negb (c =? 95).

(** A word as [split] yields them from underscore-free text. *)
Definition word (w : text) : Prop :=
  nonempty w = true /\ forallb wordchar w = true.

(** A character with regular case forms: it is not capital sigma; its
    lower-case and title-case forms are single characters, the first one
    fixed by lower-casing and the second one by title-casing; both are
    cased exactly when the character is, and are a whitespace character
    or an underscore exactly when the character is. *)
Definition regular `{UnicodeData} (c : N) : Prop :=
  c <> 931 /\
  exists l t,
    to_lower_full c = [l] /\ to_title_full c = [t] /\
    l <> 931 /\ to_lower_full l = [l] /\ to_title_full t = [t] /\
    is_cased l = is_cased c /\ is_cased t = is_cased c /\
    wordchar l = wordchar c /\ wordchar t = wordchar c.

(** *** An excerpt of the Unicode database *)

(** The entries of the ASCII range, of U+0130 (capital I with dot above:
    cased, its own title case, lower-cased to [i] followed by U+0307) and
    of U+0307 (combining dot above: caseless and case-ignorable).  The
    other code points are left caseless. *)
Definition excerpt_lower (c : N) : list N :=
  if c <? 128 then [ascii_to_lower c]
  else if c =? 304 then [105; 775]
  else [c].

Definition excerpt_title (c : N) : list N :=
  if c <? 128 then [ascii_to_title c] else [c].

Definition excerpt_cased (c : N) : bool :=
  if c <? 128 then ascii_upper c || ascii_lower c else c =? 304.

Definition excerpt_case_ignorable (c : N) : bool :=
  (c =? 39) || (c =? 46) || (c =? 58) || (c =? 94) || (c =? 96) || (c =? 775).

End PyUnicode.

(** ** utils.py *)

Module Utils.

Import PyUnicode.
Open Scope N_scope.

(** [clean_symptom_text(symptom)]; the argument is a missing value
    ([None]: [pd.isna] holds) or a text. *)
Definition clean_symptom_text `{UnicodeData} (symptom : option text) : text :=
  match symptom with
  | None => []
  | Some s =>
      match s with
      | [] => []
      | _ :: _ =>
          let symptom := strip s in
          let symptom := replace 95 32 symptom in
          let symptom := join [32] (split symptom) in
          title symptom
      end
  end.

(** A missing value, or a text of ASCII characters. *)
Definition ascii_value (symptom : option text) : bool :=
  match symptom with
  | None => true
  | Some s => isascii s
  end.

(** A missing value, or a text of characters with regular case forms. *)
Definition regular_value `{UnicodeData} (symptom : option text) : Prop :=
  match symptom with
  | None => True
  | Some s => Forall regular s
  end.

End Utils.

(** ** pandas tables *)

Module Pandas.

Import PyStr.
Open Scope string_scope.

(** A parsed CSV file: the header and the rows, each row a list of cells
    in header order. *)
Record DataFrame : Type := {
  columns : list string;
  rows : list (list cell)
}.

(** Position of a column in the header. *)
Fixpoint index_of (name : string) (cols : list string) : option nat :=
  match cols with
  | [] => None
  | c :: cs => if String.eqb c name then Some 0
               else option_map S (index_of name cs)
  end.

(** [df[name]]: raises [KeyError] when the table has no such column. *)
Definition column (df : DataFrame) (name : string) : result nat :=
  match index_of name (columns df) with
  | Some i => ret i
  | None => raise KeyError
  end.

(** [row[i]]; a short row reads as missing cells. *)
Definition cell_at (i : nat) (row : list cell) : cell := nth i row NaN.

(** [pd.notna(c)] *)
Definition notna (c : cell) : bool :=
  match c with
  | NaN => false
  | Str _ => true
  end.

(** [df.empty] *)
Definition empty (df : DataFrame) : bool :=
  match rows df with
  | [] => true
  | _ :: _ => false
  end.

(** The characters Python's [re] reads as operators. *)
Definition regex_special (c : ascii) : bool :=
  existsb (Ascii.eqb c)
    ["."; "^"; "$"; "*"; "+"; "?"; "{"; "}"; "["; "]"; "\"; "|"; "("; ")"]%char.

Definition regex_literal (pat : string) : bool :=
  sall (fun c => negb (regex_special c)) pat.

(** [re.search(pat, s) is not None], which is what
    [Series.str.contains(pat)] computes per cell: pandas reads [pat] as a
    regular expression ([regex=True] is the default).  The regular
    expression engine is the library's; the embedding fixes its behaviour
    on patterns without operators, where searching is substring
    containment. *)
Class PyRe : Type := {
  re_search : string -> string -> result bool;
  re_search_literal : forall pat s,
    regex_literal pat = true -> re_search pat s = ret (contains pat s)
}.

(** [series.str.contains(pat, na=False)] on one cell. *)
Definition str_contains `{PyRe} (pat : string) (c : cell) : result bool :=
  match c with
  | NaN => ret false
  | Str s => re_search pat s
  end.

(** Rows selected by a mask whose computation can raise. *)
Fixpoint select {A : Type} (mask : A -> result bool) (l : list A)
  : result (list A) :=
  match l with
  | [] => ret []
  | x :: r =>
      b <- mask x ;;
      r' <- select mask r ;;
      ret (if b then x :: r' else r')
  end.

End Pandas.

(** ** app.py: precaution lookup *)

Module Precautions.

Import PyStr Pandas.
Open Scope string_scope.

Definition generic_advice : list string :=
  [ "Consult with a healthcare professional for proper diagnosis";
    "Rest and stay hydrated";
    "Monitor your symptoms closely";
    "Seek immediate medical attention if symptoms worsen" ].

Definition precaution_columns : list string :=
  ["Precaution_1"; "Precaution_2"; "Precaution_3"; "Precaution_4"].

(** [series.str.lower()] on one cell: a missing value stays missing. *)
Definition str_lower (c : cell) : cell :=
  match c with
  | NaN => NaN
  | Str s => Str (lower s)
  end.

(** [series == q] on one cell. *)
Definition equals (q : string) (c : cell) : bool :=
  match c with
  | NaN => false
  | Str s => String.eqb s q
  end.

(** The body of the loop over the four precaution columns, for the row
    [precautions.iloc[0]]. *)
Definition precaution_of (df : DataFrame) (row : list cell) (col : string)
  : list string :=
  match index_of col (columns df) with
  | None => []
  | Some i =>
      match cell_at i row with
      | NaN => []
      | Str p => if is_empty (strip p) then [] else [strip p]
      end
  end.

Definition precaution_list (df : DataFrame) (row : list cell) : list string :=
  flat_map (precaution_of df row) precaution_columns.

(** [disease.lower().split()[0]] *)
Definition first_token (disease : string) : result string :=
  match split (lower disease) with
  | [] => raise IndexError
  | tok :: _ => ret tok
  end.

Section Lookup.

Context {re : PyRe}.

(** The [try] block of [get_precautions]. *)
Definition get_precautions_try (df : DataFrame) (disease : string)
  : result (list string) :=
  i <- column df "Disease" ;;
  let precautions :=
    filter (fun row => equals (lower disease) (str_lower (cell_at i row)))
           (rows df) in
  precautions <-
    match precautions with
    | [] =>
        tok <- first_token disease ;;
        select (fun row => str_contains tok (str_lower (cell_at i row)))
               (rows df)
    | _ :: _ => ret precautions
    end ;;
  match precautions with
  | row :: _ => ret (precaution_list df row)
  | [] => ret generic_advice
  end.

(** [HealthcareAssistant.get_precautions]: an exception inside the [try]
    is reported and control falls through to the final [return]. *)
Definition get_precautions (precautions_df : option DataFrame)
  (disease : string) : list string :=
  match precautions_df with
  | Some df =>
      match get_precautions_try df disease with
      | inr l => l
      | inl _ => generic_advice
      end
  | None => generic_advice
  end.

End Lookup.

(** *** The lookup as the specification words it *)

(** Name of the disease a row is about, lower-cased. *)
Definition disease_name (df : DataFrame) (row : list cell) : option string :=
  match index_of "Disease" (columns df) with
  | None => None
  | Some i =>
      match cell_at i row with
      | NaN => None
      | Str s => Some (lower s)
      end
  end.

Definition name_is (df : DataFrame) (q : string) (row : list cell) : bool :=
  match disease_name df row with
  | Some n => String.eqb n q
  | None => false
  end.

Definition name_contains (df : DataFrame) (tok : string) (row : list cell) : bool :=
  match disease_name df row with
  | Some n => contains tok n
  | None => false
  end.

(** Exact case-insensitive match first; otherwise substring match on the
    first whitespace-delimited token of the lower-cased query. *)
Definition matched_row (df : DataFrame) (disease : string)
  : option (list cell) :=
  match filter (name_is df (lower disease)) (rows df) with
  | row :: _ => Some row
  | [] =>
      match split (lower disease) with
      | [] => None
      | tok :: _ => hd_error (filter (name_contains df tok) (rows df))
      end
  end.

Definition lookup_spec (df : DataFrame) (disease : string) : list string :=
  match matched_row df disease with
  | Some row => precaution_list df row
  | None => generic_advice
  end.

(** Whether the query's first token, if any, is free of regular
    expression operators. *)
Definition plain_query (disease : string) : bool :=
  match split (lower disease) with
  | [] => true
  | tok :: _ => regex_literal tok
  end.

(** *** A regular expression engine for literals and [.] *)

(** Matching at the start of [s], for a pattern of literal characters and
    [.] (any character but a newline). *)
Fixpoint match_here (pat s : string) : bool :=
  match pat, s with
  | EmptyString, _ => true
  | String _ _, EmptyString => false
  | String p pr, String c sr =>
      (if Ascii.eqb p "." then negb (Ascii.eqb c "010") else Ascii.eqb p c)
      && match_here pr sr
  end.

Fixpoint search (pat s : string) : bool :=
  match_here pat s ||
  match s with
  | EmptyString => false
  | String _ r => search pat r
  end.

(** Patterns with any other operator are outside this engine, which
    rejects them. *)
Definition dot_search (pat s : string) : result bool :=
  if sall (fun c => negb (regex_special c) || Ascii.eqb c ".") pat
  then ret (search pat s)
  else raise ReError.

(** *** Sample tables *)

Definition precaution_header : list string :=
  "Disease" :: precaution_columns.

(** One disease, its third precaution missing and its fourth padded. *)
Definition influenza_table : DataFrame := {|
  columns := precaution_header;
  rows := [ [Str "Influenza"; Str "rest"; Str "drink fluids"; NaN; Str " isolate "] ]
|}.

(** A disease whose name starts with a parenthesis, as the precaution
    file has one. *)
Definition vertigo_table : DataFrame := {|
  columns := precaution_header;
  rows := [ [Str "(vertigo) Paroymsal  Positional Vertigo"; Str "lie down";
             Str "avoid sudden change in body";
             Str "avoid abrupt head movment"; Str "relax"] ]
|}.

(** A disease listed with no precaution filled in. *)
Definition blank_table : DataFrame := {|
  columns := precaution_header;
  rows := [ [Str "Flu"; NaN; Str "  "; NaN; NaN] ]
|}.

End Precautions.

(** ** numpy and scikit-learn, as [app.py] uses them *)

Module Sklearn.

Open Scope Q_scope.

(** [probabilities[idx]] *)
Definition at_index (v : list Q) (i : nat) : Q := nth i v 0.

(** [np.argsort(v)]: the indices of [v], ordered so that the values they
    select ascend.  The order among equal values is the sorting
    algorithm's. *)
Class Argsort : Type := {
  argsort : list Q -> list nat;
  argsort_perm : forall v, Permutation (argsort v) (seq 0 (List.length v));
  argsort_sorted : forall v, Sorted Qle (map (at_index v) (argsort v))
}.

(** The pipeline after [fit]: the label of each class (scikit-learn keeps
    them sorted and without repeats), the fitted vectoriser, the class
    priors, and the classifier's posterior for a row vector. *)
Record Fitted : Type := {
  classes_ : list string;
  tfidf_transform : string -> list Q;
  class_prior : list Q;
  nb_predict_proba : list Q -> result (list Q)
}.

(** [Pipeline([('tfidf', ...), ('classifier', MultinomialNB())])], before
    and after [fit]. *)
Inductive Pipeline : Type :=
| Unfitted
| FittedPipeline (f : Fitted).

(** [model.predict_proba([text])[0]] *)
Definition predict_proba (model : Pipeline) (text : string) : result (list Q) :=
  match model with
  | Unfitted => raise NotFittedError
  | FittedPipeline f => nb_predict_proba f (tfidf_transform f text)
  end.

(** [model.classes_] *)
Definition classes (model : Pipeline) : result (list string) :=
  match model with
  | Unfitted => raise AttributeError
  | FittedPipeline f => ret (classes_ f)
  end.

(** The posterior of a multinomial naive Bayes classifier on the zero
    vector is the vector of class priors. *)
Definition prior_on_zero (f : Fitted) : Prop :=
  forall v, Forall (fun x => x == 0) v ->
            nb_predict_proba f v = ret (class_prior f).

(** Insertion sort of the indices by value, equal values kept in index
    order; numpy's default sort handles arrays of at most 16 elements
    this way. *)
Fixpoint insert_by (v : list Q) (i : nat) (l : list nat) : list nat :=
  match l with
  | [] => [i]
  | j :: r =>
      if Qle_bool (at_index v i) (at_index v j) then i :: l
      else j :: insert_by v i r
  end.

Definition insertion_argsort (v : list Q) : list nat :=
  fold_right (insert_by v) [] (seq 0 (List.length v)).

End Sklearn.

(** ** app.py: disease prediction *)

Module Predict.

Import Sklearn.
Open Scope Q_scope.

(** [a[-n:]] *)
Definition last_n {A : Type} (n : nat) (l : list A) : list A :=
  skipn (List.length l - n) l.

Definition top_k : nat := 5.
Definition min_confidence : Q := 1 # 100.

(** The test [probabilities[idx] > 0.01]. *)
Definition shown (v : list Q) (idx : nat) : bool :=
  negb (Qle_bool (at_index v idx) min_confidence).

Section Ranking.

Context {np : Argsort}.

(** [np.argsort(probabilities)[-5:][::-1]] *)
Definition top_indices (probabilities : list Q) : list nat :=
  rev (last_n top_k (argsort probabilities)).

(** The loop over [top_indices], appending to [predictions] and
    [confidences]. *)
Fixpoint collect (classes : list string) (probabilities : list Q)
  (indices : list nat) : result (list string * list Q) :=
  match indices with
  | [] => ret ([], [])
  | idx :: rest =>
      if shown probabilities idx then
        match nth_error classes idx with
        | None => raise IndexError
        | Some c =>
            r <- collect classes probabilities rest ;;
            ret (c :: fst r, (at_index probabilities idx * 100) :: snd r)
        end
      else collect classes probabilities rest
  end.

(** What the [try] block does with the posterior once it has it. *)
Definition rank (classes : list string) (probabilities : list Q)
  : result (list string * list Q) :=
  collect classes probabilities (top_indices probabilities).

(** The [try] block of [predict_disease]. *)
Definition predict_disease_try (model : Pipeline) (symptoms_text : string)
  : result (list string * list Q) :=
  probabilities <- predict_proba model symptoms_text ;;
  classes <- classes model ;;
  rank classes probabilities.

(** [HealthcareAssistant.predict_disease] *)
Definition predict_disease (model : option Pipeline) (symptoms_text : string)
  : list string * list Q :=
  match model with
  | None => ([], [])
  | Some m =>
      match predict_disease_try m symptoms_text with
      | inr r => r
      | inl _ => ([], [])
      end
  end.

End Ranking.

(** *** Orderings the specification speaks of *)

Fixpoint strictly_descending (l : list Q) : bool :=
  match l with
  | [] => true
  | a :: r =>
      match r with
      | [] => true
      | b :: _ => negb (Qle_bool a b) && strictly_descending r
      end
  end.

(** Position of the first row of the training data labelled [d]. *)
Fixpoint first_seen (y_train : list string) (d : string) : nat :=
  match y_train with
  | [] => 0
  | y :: r => if String.eqb y d then 0 else S (first_seen r d)
  end.

(** Among the entries after [(d, c)], those with the same confidence were
    first seen later than [d]. *)
Definition ties_after (y_train : list string) (d : string) (c : Q)
  (rest : list (string * Q)) : bool :=
  forallb (fun e => negb (Qeq_bool (snd e) c)
                    || (first_seen y_train d <? first_seen y_train (fst e))%nat)
          rest.

Fixpoint ties_first_seen (y_train : list string) (l : list (string * Q)) : bool :=
  match l with
  | [] => true
  | (d, c) :: r => ties_after y_train d c r && ties_first_seen y_train r
  end.

End Predict.

(** ** A small fitted pipeline *)

(** The classifier for the two-row knowledge base
    [("Cold", cough sneezing)], [("Flu", fever cough)]: a multinomial
    naive Bayes model with add-one smoothing.  Term counts stand in for
    the tf-idf weights, so that every quantity is a rational number. *)
Module Sample.

Import PyStr Sklearn.
Open Scope string_scope.

Definition y_train : list string := ["Cold"; "Flu"].

Definition vocabulary : list string := ["cough"; "fever"; "sneezing"].

Definition term_counts (text : string) : list Q :=
  map (fun t => inject_Z (Z.of_nat (count_occ string_dec (split (lower text)) t)))
      vocabulary.

(** Smoothed term probabilities of each class, in vocabulary order. *)
Definition theta : list (list Q) :=
  [ [2 # 5; 1 # 5; 2 # 5];
    [2 # 5; 2 # 5; 1 # 5] ]%Q.

Definition priors : list Q := [1 # 2; 1 # 2]%Q.

Definition likelihood (th v : list Q) : Q :=
  fold_right (fun tx acc => (Qpower (fst tx) (Qfloor (snd tx)) * acc)%Q) 1%Q
             (combine th v).

Definition joint (v : list Q) : list Q :=
  map (fun pt => (fst pt * likelihood (snd pt) v)%Q) (combine priors theta).

Definition posterior (v : list Q) : list Q :=
  let js := joint v in
  let total := fold_right Qplus 0%Q js in
  map (fun j => Qred (j / total)%Q) js.

Definition cold_flu : Fitted := {|
  classes_ := ["Cold"; "Flu"];
  tfidf_transform := term_counts;
  class_prior := priors;
  nb_predict_proba := fun v => ret (posterior v)
|}.

End Sample.

(** ** app.py: start-up *)

Module Assistant.

Import PyStr Pandas Sklearn.
Open Scope string_scope.

(** What [pd.read_csv] finds at a path: no file, a file it cannot parse
    (it raises [e]), or a table, possibly with zero rows. *)
Inductive csv_file : Type :=
| Missing
| Malformed (e : exn)
| Parsed (df : DataFrame).

(** The two files [load_data] reads. *)
Record Files : Type := {
  diseases_csv : csv_file;      (* DiseaseAndSymptoms.csv *)
  precautions_csv : csv_file    (* Disease precaution.csv *)
}.

Definition read_csv (f : csv_file) : result DataFrame :=
  match f with
  | Missing => raise FileNotFoundError
  | Malformed e => raise e
  | Parsed df => ret df
  end.

(** The attributes of a [HealthcareAssistant] the core logic uses. *)
Record HealthcareAssistant : Type := {
  diseases_df : option DataFrame;
  precautions_df : option DataFrame;
  model : option Pipeline;
  symptoms_list : list string;
  diseases_list : list cell
}.

(** The attributes as [__init__] sets them before loading. *)
Definition blank : HealthcareAssistant := {|
  diseases_df := None;
  precautions_df := None;
  model := None;
  symptoms_list := [];
  diseases_list := []
|}.

Definition cell_eqb (a b : cell) : bool :=
  match a, b with
  | NaN, NaN => true
  | Str s, Str t => String.eqb s t
  | _, _ => false
  end.

(** [series.unique().tolist()]: first occurrences, in order. *)
Fixpoint unique (seen l : list cell) : list cell :=
  match l with
  | [] => []
  | c :: r =>
      if existsb (cell_eqb c) seen then unique seen r
      else c :: unique (c :: seen) r
  end.

(** [sorted(set(l))] on strings. *)
Fixpoint insert_sorted (s : string) (l : list string) : list string :=
  match l with
  | [] => [s]
  | t :: r =>
      match String.compare s t with
      | Lt => s :: l
      | Eq => l
      | Gt => t :: insert_sorted s r
      end
  end.

Definition sorted_set (l : list string) : list string :=
  fold_right insert_sorted [] l.

(** Positions of the columns whose name starts with [Symptom_]. *)
Fixpoint symptom_positions (i : nat) (cols : list string) : list nat :=
  match cols with
  | [] => []
  | c :: cs =>
      if startswith "Symptom_" c then i :: symptom_positions (S i) cs
      else symptom_positions (S i) cs
  end.

(** [df[col].dropna().str.strip()]: the [.str] accessor needs a column of
    strings; a column with rows but no string in it is numeric and the
    accessor raises. *)
Definition stripped_column (df : DataFrame) (i : nat) : result (list string) :=
  let cells := map (cell_at i) (rows df) in
  match cells with
  | [] => ret []
  | _ :: _ =>
      if existsb notna cells then
        ret (flat_map (fun c => match c with NaN => [] | Str s => [strip s] end)
                      cells)
      else raise AttributeError
  end.

Fixpoint all_columns (df : DataFrame) (positions : list nat)
  : result (list string) :=
  match positions with
  | [] => ret []
  | i :: r =>
      here <- stripped_column df i ;;
      rest <- all_columns df r ;;
      ret (here ++ rest)%list
  end.

(** [clean_data]: the list of diseases, then the sorted list of distinct
    symptoms. *)
Definition clean_data (self : HealthcareAssistant) : result HealthcareAssistant :=
  match diseases_df self with
  | None => raise AttributeError
  | Some df =>
      d <- column df "Disease" ;;
      let diseases := unique [] (map (cell_at d) (rows df)) in
      all_symptoms <- all_columns df (symptom_positions 0 (columns df)) ;;
      let symptoms :=
        map (fun s => replace_char "_" " " (strip s))
            (filter (fun s => negb (is_empty s) && negb (is_empty (strip s)))
                    all_symptoms) in
      ret {| diseases_df := diseases_df self;
             precautions_df := precautions_df self;
             model := model self;
             symptoms_list := sorted_set symptoms;
             diseases_list := diseases |}
  end.

(** The [except FileNotFoundError] clause of [load_data]: that exception
    is reported and swallowed, any other one propagates. *)
Definition handled (e : exn) (self : HealthcareAssistant)
  : result HealthcareAssistant :=
  if exn_eqb e FileNotFoundError then ret self else raise e.

(** [load_data]: the attributes assigned before an exception keep their
    values. *)
Definition load_data (fs : Files) (self : HealthcareAssistant)
  : result HealthcareAssistant :=
  match read_csv (diseases_csv fs) with
  | inl e => handled e self
  | inr d =>
      let self := {| diseases_df := Some d;
                     precautions_df := precautions_df self;
                     model := model self;
                     symptoms_list := symptoms_list self;
                     diseases_list := diseases_list self |} in
      match read_csv (precautions_csv fs) with
      | inl e => handled e self
      | inr p =>
          let self := {| diseases_df := diseases_df self;
                         precautions_df := Some p;
                         model := model self;
                         symptoms_list := symptoms_list self;
                         diseases_list := diseases_list self |} in
          match clean_data self with
          | inl e => handled e self
          | inr self' => ret self'
          end
      end
  end.

(** The symptoms of one row, in column order. *)
Definition row_symptoms (df : DataFrame) (row : list cell) : list string :=
  flat_map (fun i => match cell_at i row with
                     | NaN => []
                     | Str s =>
                         let symptom := replace_char "_" " " (strip s) in
                         if is_empty symptom then [] else [symptom]
                     end)
           (symptom_positions 0 (columns df)).

(** The loop of [prepare_model] over the rows: documents and labels. *)
Fixpoint training_data (df : DataFrame) (rs : list (list cell))
  : result (list string * list cell) :=
  match rs with
  | [] => ret ([], [])
  | row :: rest =>
      d <- column df "Disease" ;;
      let disease := cell_at d row in
      let symptoms := row_symptoms df row in
      xy <- training_data df rest ;;
      ret (match symptoms with
           | [] => xy
           | _ :: _ => (join " " symptoms :: fst xy, disease :: snd xy)
           end)
  end.

Section Startup.

(** [Pipeline.fit(X_train, y_train)] *)
Variable fit : list string -> list cell -> result Fitted.

(** The pipeline [prepare_model] builds from a table: fitted when there
    is at least one training document. *)
Definition train (df : DataFrame) : result Pipeline :=
  xy <- training_data df (rows df) ;;
  match fst xy, snd xy with
  | _ :: _, _ :: _ =>
      f <- fit (fst xy) (snd xy) ;;
      ret (FittedPipeline f)
  | _, _ => ret Unfitted
  end.

(** [prepare_model] *)
Definition prepare_model (self : HealthcareAssistant)
  : result HealthcareAssistant :=
  match diseases_df self with
  | None => ret self
  | Some df =>
      m <- train df ;;
      ret {| diseases_df := diseases_df self;
             precautions_df := precautions_df self;
             model := Some m;
             symptoms_list := symptoms_list self;
             diseases_list := diseases_list self |}
  end.

(** [HealthcareAssistant()]: an exception that leaves [load_data] or
    [prepare_model] leaves the constructor, and start-up fails. *)
Definition init (fs : Files) : result HealthcareAssistant :=
  self <- load_data fs blank ;;
  prepare_model self.

End Startup.


(** *** Sample files *)

Definition cold_flu_table : DataFrame := {|
  columns := ["Disease"; "Symptom_1"; "Symptom_2"];
  rows := [ [Str "Cold"; Str " cough"; Str " sneezing"];
            [Str "Flu"; Str " fever"; Str " cough"] ]
|}.


(** [fit] on the documents of [cold_flu_table]; other training sets are
    outside the sample. *)
Definition sample_fit (X_train : list string) (y_train : list cell)
  : result Fitted :=
  if list_eq_dec string_dec X_train ["cough sneezing"; "fever cough"]
  then ret Sample.cold_flu
  else raise ValueError.

End Assistant.

(** ** location_service.py *)

Module Location.

Import PyStr.
Open Scope string_scope.
Open Scope R_scope.

(** *** JSON values, as the providers return them *)

#[local] Unset Elimination Schemes.

Inductive json : Type :=
| JNull
| JBool (b : bool)
| JNum (x : R)
| JStr (s : string)
| JList (l : list json)
| JObj (fields : list (string * json)).

#[local] Set Elimination Schemes.

Fixpoint assoc (k : string) (fields : list (string * json)) : option json :=
  match fields with
  | [] => None
  | (k', v) :: r => if String.eqb k' k then Some v else assoc k r
  end.

(** [d[k]] *)
Definition getitem (d : json) (k : string) : result json :=
  match d with
  | JObj fields =>
      match assoc k fields with
      | Some v => ret v
      | None => raise KeyError
      end
  | _ => raise TypeError
  end.

(** [d.get(k, default)] *)
Definition get (d : json) (k : string) (default : json) : result json :=
  match d with
  | JObj fields =>
      match assoc k fields with
      | Some v => ret v
      | None => ret default
      end
  | _ => raise AttributeError
  end.

(** [k in d], for a string [k]. *)
Definition has (k : string) (d : json) : result bool :=
  match d with
  | JObj fields =>
      ret (match assoc k fields with Some _ => true | None => false end)
  | JList l =>
      ret (existsb (fun v => match v with
                             | JStr s => String.eqb s k
                             | _ => false
                             end) l)
  | JStr s => ret (contains k s)
  | _ => raise TypeError
  end.

(** The values a [for] loop over [v] visits. *)
Definition iterate (v : json) : result (list json) :=
  match v with
  | JList l => ret l
  | JObj fields => ret (map (fun kv => JStr (fst kv)) fields)
  | JStr s => ret (map (fun c => JStr (String c EmptyString))
                       (list_ascii_of_string s))
  | _ => raise TypeError
  end.

(** A value used in float arithmetic. *)
Definition number (v : json) : result R :=
  match v with
  | JNum x => ret x
  | JBool b => ret (if b then 1 else 0)
  | _ => raise TypeError
  end.

(** Truth value of [v] in a condition. *)
Definition truthy (v : json) : bool :=
  match v with
  | JNull => false
  | JBool b => b
  | JNum x => if Req_dec_T x 0 then false else true
  | JStr s => negb (is_empty s)
  | JList l => match l with [] => false | _ :: _ => true end
  | JObj fields => match fields with [] => false | _ :: _ => true end
  end.

(** *** Distance *)

(** [math.radians] *)
Definition radians (x : R) : R := x * PI / 180.

(** [LocationService._calculate_distance] *)
Definition _calculate_distance (lat1 lon1 lat2 lon2 : R) : R :=
  let R := 6371 in
  let lat1_rad := radians lat1 in
  let lon1_rad := radians lon1 in
  let lat2_rad := radians lat2 in
  let lon2_rad := radians lon2 in
  let dlat := lat2_rad - lat1_rad in
  let dlon := lon2_rad - lon1_rad in
  let a := sin (dlat / 2) ^ 2
           + cos lat1_rad * cos lat2_rad * sin (dlon / 2) ^ 2 in
  let c := 2 * asin (sqrt a) in
  R * c.

(** Rounding to the nearest integer, halves to the even neighbour. *)
Definition round_half_even (y : R) : Z :=
  let f := Zfloor y in
  if Rlt_dec (y - IZR f) (1 / 2) then f
  else if Rlt_dec (1 / 2) (y - IZR f) then (f + 1)%Z
  else if Z.even f then f else (f + 1)%Z.

(** [round(x, 1)] *)
Definition round1 (x : R) : R := IZR (round_half_even (x * 10)) / 10.

(** The haversine of an angle, and the great-circle distance between two
    points given in degrees on a sphere of radius [r], as the haversine
    formula states it. *)
Definition hav (theta : R) : R := (1 - cos theta) / 2.

Definition great_circle (r lat1 lon1 lat2 lon2 : R) : R :=
  let phi1 := lat1 * PI / 180 in
  let phi2 := lat2 * PI / 180 in
  let dphi := (lat2 - lat1) * PI / 180 in
  let dlambda := (lon2 - lon1) * PI / 180 in
  2 * r * asin (sqrt (hav dphi + cos phi1 * cos phi2 * hav dlambda)).

(** *** Facility records *)

(** The dictionary [hospital_info]. *)
Record Facility : Type := {
  name : json;
  type : string;
  distance : R;
  rating : json;
  address : json;
  lat : R;
  lon : R;
  place_id : option json;
  phone : option json;
  website : option json;
  hours : option string;
  specialties : list string
}.

(** The Google Maps client: [places_nearby(location, radius, type)] and
    [place(place_id, fields)], here [place_details]. *)
Record GoogleMaps : Type := {
  places_nearby : R -> R -> R -> string -> result json;
  place_details : json -> result json
}.

(** What [requests.post] to the Overpass API gives: an exception, or a
    response with its status code and the outcome of [response.json()]. *)
Inductive http_response : Type :=
| Failed (e : exn)
| Response (status_code : nat) (body : result json).

(** The collaborators of a [LocationService]. *)
Record Providers : Type := {
  gmaps_client : option GoogleMaps;
  overpass : R -> R -> R -> http_response
}.

(** [_get_fallback_hospitals] *)
Definition _get_fallback_hospitals (lat lon radius_km : R) : list Facility :=
  [ {| name := JStr "General Hospital";
       type := "Hospital";
       distance := 2.5;
       rating := JNum 4.2;
       address := JStr "Near your location";
       lat := lat + 0.01;
       lon := lon + 0.01;
       place_id := None;
       phone := Some (JStr "Call for information");
       website := None;
       hours := None;
       specialties := ["Emergency Medicine"; "General Medicine"] |};
    {| name := JStr "Community Health Center";
       type := "Clinic";
       distance := 1.8;
       rating := JNum 4.0;
       address := JStr "Near your location";
       lat := lat - 0.01;
       lon := lon - 0.01;
       place_id := None;
       phone := Some (JStr "Call for information");
       website := None;
       hours := None;
       specialties := ["Primary Care"; "Family Medicine"] |} ].

(** [hospitals.sort(key=lambda x: x['distance'])]: a stable sort,
    ascending in the distance. *)
Definition closer (a b : Facility) : bool :=
  if Rle_dec (distance a) (distance b) then true else false.

Fixpoint insert_facility (x : Facility) (l : list Facility) : list Facility :=
  match l with
  | [] => [x]
  | y :: r => if closer x y then x :: l else y :: insert_facility x r
  end.

Definition sort_by_distance (l : list Facility) : list Facility :=
  fold_right insert_facility [] l.

Definition max_results : nat := 15.

(** [v == s] for a string literal [s]. *)
Definition is_str (v : json) (s : string) : bool :=
  match v with
  | JStr t => String.eqb t s
  | _ => false
  end.

(** [sep.join(items)]: every item has to be a string. *)
Fixpoint strings (items : list json) : result (list string) :=
  match items with
  | [] => ret []
  | JStr s :: r => ss <- strings r ;; ret (s :: ss)
  | _ :: _ => raise TypeError
  end.

Definition join_json (sep : string) (items : list json) : result string :=
  ss <- strings items ;;
  ret (join sep ss).

(** [v[:2]] *)
Definition first_two (v : json) : result (list json) :=
  match v with
  | JList l => ret (firstn 2 l)
  | JStr s => ret (map (fun c => JStr (String c EmptyString))
                       (firstn 2 (list_ascii_of_string s)))
  | _ => raise TypeError
  end.

(** [d[k] if k in d], for the optional entries of [hospital_info]. *)
Definition optional (d : json) (k : string) : result (option json) :=
  present <- has k d ;;
  if present then v <- getitem d k ;; ret (Some v) else ret None.

(** The entry [hours], from the first two lines of the opening hours. *)
Definition opening_hours (details : json) : result (option string) :=
  present <- has "opening_hours" details ;;
  if present then
    oh <- getitem details "opening_hours" ;;
    listed <- has "weekday_text" oh ;;
    if listed then
      wt <- getitem oh "weekday_text" ;;
      lines <- first_two wt ;;
      s <- join_json "; " lines ;;
      ret (Some s)
    else ret None
  else ret None.

(** [place['geometry']['location']['lat']] and [...['lng']], as the
    numbers the distance is computed from. *)
Definition place_location (place : json) : result (R * R) :=
  geometry <- getitem place "geometry" ;;
  location <- getitem geometry "location" ;;
  lat_value <- getitem location "lat" ;;
  lng_value <- getitem location "lng" ;;
  place_lat <- number lat_value ;;
  place_lon <- number lng_value ;;
  ret (place_lat, place_lon).

(** The [try] block of [_extract_place_info]. *)
Definition _extract_place_info_try (client : option GoogleMaps) (place : json)
  (user_lat user_lon : R) (facility_type : string) : result Facility :=
  location <- place_location place ;;
  let place_lat := fst location in
  let place_lon := snd location in
  let distance := _calculate_distance user_lat user_lon place_lat place_lon in
  place_id <- getitem place "place_id" ;;
  let details :=
    match client with
    | None => JNull
    | Some g =>
        match (r <- place_details g place_id ;; getitem r "result") with
        | inr d => d
        | inl _ => JNull
        end
    end in
  name <- get place "name" (JStr "Unknown Hospital") ;;
  place_rating <- get place "rating" (JNum 0) ;;
  rating <- (if truthy place_rating then ret place_rating
             else if truthy details then get details "rating" (JNum 0)
                  else ret (JNum 0)) ;;
  address <- get place "vicinity" (JStr "Address not available") ;;
  phone <- (if truthy details then optional details "formatted_phone_number"
            else ret None) ;;
  website <- (if truthy details then optional details "website"
              else ret None) ;;
  hours <- (if truthy details then opening_hours details else ret None) ;;
  types <- get place "types" (JList []) ;;
  is_hospital <- has "hospital" types ;;
  ret {| name := name;
         type := facility_type;
         distance := round1 distance;
         rating := rating;
         address := address;
         lat := place_lat;
         lon := place_lon;
         place_id := Some place_id;
         phone := phone;
         website := website;
         hours := hours;
         specialties :=
           if is_hospital
           then ["Emergency Medicine"; "Internal Medicine"; "Surgery"]
           else ["General Practice"; "Primary Care"] |}.

(** [_extract_place_info]: [None] when anything in the block raises. *)
Definition _extract_place_info (client : option GoogleMaps) (place : json)
  (user_lat user_lon : R) (facility_type : string) : option Facility :=
  match _extract_place_info_try client place user_lat user_lon facility_type with
  | inr info => Some info
  | inl _ => None
  end.

(** One of the two loops of [find_nearby_hospitals_real] over the places
    of a result. *)
Definition extract_all (client : option GoogleMaps) (places : list json)
  (user_lat user_lon : R) (facility_type : string) : list Facility :=
  flat_map (fun p =>
              match _extract_place_info client p user_lat user_lon
                      facility_type with
              | Some info => [info]
              | None => []
              end)
           places.

(** [_format_osm_address] *)
Fixpoint address_parts (tags : json) (keys : list string) : result (list json) :=
  match keys with
  | [] => ret []
  | key :: r =>
      present <- has key tags ;;
      here <- (if present then v <- getitem tags key ;; ret [v] else ret []) ;;
      rest <- address_parts tags r ;;
      ret (here ++ rest)%list
  end.

Definition _format_osm_address (tags : json) : result string :=
  parts <- address_parts tags
             ["addr:housenumber"; "addr:street"; "addr:city"; "addr:state"] ;;
  match parts with
  | [] => ret "Address not available"
  | _ :: _ => join_json ", " parts
  end.

(** The body of the loop of [_search_osm_hospitals] for one element: the
    record to append, if any. *)
Definition osm_element (lat lon : R) (element : json)
  : result (option Facility) :=
  tagged <- has "tags" element ;;
  if tagged then
    tags <- getitem element "tags" ;;
    kind <- getitem element "type" ;;
    coordinates <-
      (if is_str kind "node" then
         elem_lat <- getitem element "lat" ;;
         elem_lon <- getitem element "lon" ;;
         ret (Some (elem_lat, elem_lon))
       else
         centred <- has "center" element ;;
         if centred then
           center <- getitem element "center" ;;
           elem_lat <- getitem center "lat" ;;
           elem_lon <- getitem center "lon" ;;
           ret (Some (elem_lat, elem_lon))
         else ret None) ;;
    match coordinates with
    | None => ret None
    | Some (lat_value, lon_value) =>
        elem_lat <- number lat_value ;;
        elem_lon <- number lon_value ;;
        let distance := _calculate_distance lat lon elem_lat elem_lon in
        name <- get tags "name" (JStr "Unknown Medical Facility") ;;
        amenity <- get tags "amenity" JNull ;;
        address <- _format_osm_address tags ;;
        phone <- get tags "phone" (JStr "Not available") ;;
        website <- get tags "website" (JStr "") ;;
        ret (Some {| name := name;
                     type := if is_str amenity "hospital"
                             then "Hospital" else "Clinic";
                     distance := round1 distance;
                     rating := JNum 4.0;
                     address := JStr address;
                     lat := elem_lat;
                     lon := elem_lon;
                     place_id := None;
                     phone := Some phone;
                     website := Some website;
                     hours := None;
                     specialties := ["General Medicine"] |})
    end
  else ret None.

Fixpoint osm_elements (lat lon : R) (elements : list json)
  : result (list Facility) :=
  match elements with
  | [] => ret []
  | element :: r =>
      here <- osm_element lat lon element ;;
      rest <- osm_elements lat lon r ;;
      ret (match here with
           | Some info => info :: rest
           | None => rest
           end)
  end.

(** The [try] block of [_search_osm_hospitals]. *)
Definition _search_osm_hospitals_try (self : Providers)
  (lat lon radius_km : R) : result (list Facility) :=
  match overpass self lat lon (radius_km * 1000) with
  | Failed e => raise e
  | Response status_code body =>
      if Nat.eqb status_code 200 then
        data <- body ;;
        elements <- get data "elements" (JList []) ;;
        elements <- iterate elements ;;
        osm_elements lat lon elements
      else ret []
  end.

(** [_search_osm_hospitals] *)
Definition _search_osm_hospitals (self : Providers) (lat lon radius_km : R)
  : list Facility :=
  match _search_osm_hospitals_try self lat lon radius_km with
  | inl _ => _get_fallback_hospitals lat lon radius_km
  | inr hospitals => firstn max_results (sort_by_distance hospitals)
  end.

(** The [try] block of [find_nearby_hospitals_real], with a client. *)
Definition google_places (g : GoogleMaps) (lat lon radius_km : R)
  : result (list Facility) :=
  places_result <- places_nearby g lat lon (radius_km * 1000) "hospital" ;;
  results <- get places_result "results" (JList []) ;;
  places <- iterate results ;;
  let hospitals := extract_all (Some g) places lat lon "Hospital" in
  clinics_result <- places_nearby g lat lon (radius_km * 1000) "doctor" ;;
  results <- get clinics_result "results" (JList []) ;;
  places <- iterate results ;;
  ret (hospitals ++ extract_all (Some g) places lat lon "Clinic")%list.

(** [find_nearby_hospitals_real] *)
Definition find_nearby_hospitals_real (self : Providers)
  (lat lon radius_km : R) : list Facility :=
  match gmaps_client self with
  | Some g =>
      match google_places g lat lon radius_km with
      | inl _ => _get_fallback_hospitals lat lon radius_km
      | inr hospitals => firstn max_results (sort_by_distance hospitals)
      end
  | None => _search_osm_hospitals self lat lon radius_km
  end.

(** Ascending order of the attached distances. *)
Definition ascending (l : list Facility) : Prop :=
  Sorted Rle (map distance l).

(** *** Sample providers *)

(** A Google Maps client whose every call raises. *)
Definition failing_client : GoogleMaps := {|
  places_nearby := fun _ _ _ _ => raise ConnectionError;
  place_details := fun _ => raise ConnectionError
|}.

(** A service with an API key while the Places API is unreachable. *)
Definition places_down : Providers := {|
  gmaps_client := Some failing_client;
  overpass := fun _ _ _ => Failed ConnectionError
|}.

(** A service without API key while the Overpass API is unreachable. *)
Definition overpass_down : Providers := {|
  gmaps_client := None;
  overpass := fun _ _ _ => Failed ConnectionError
|}.

(** A place as the Places API lists it. *)
Definition place_at (plat plon : R) : json :=
  JObj [ ("name", JStr "City Clinic");
         ("place_id", JStr "p1");
         ("geometry", JObj [("location", JObj [("lat", JNum plat);
                                                ("lng", JNum plon)])]) ].

End Location.

(** ** utils.py: the other helpers *)

Module Helpers.

Import PyStr Pandas.
Open Scope string_scope.

(** [format_disease_name(disease_name)] *)
Definition abbreviations : list (string * string) :=
  [ ("GERD", "GERD (Gastroesophageal Reflux Disease)");
    ("AIDS", "AIDS (Acquired Immunodeficiency Syndrome)");
    ("UTI", "UTI (Urinary Tract Infection)") ].

(** [d.get(k, default)] on a dictionary of strings. *)
Fixpoint dict_get (d : list (string * string)) (k default : string) : string :=
  match d with
  | [] => default
  | (k', v) :: r => if String.eqb k' k then v else dict_get r k default
  end.

Definition format_disease_name (disease_name : cell) : string :=
  match disease_name with
  | NaN => ""
  | Str s =>
      if is_empty s then ""
      else
        let disease_name := strip s in
        dict_get abbreviations disease_name disease_name
  end.

(** [set(xs)], as the list of its distinct members. *)
Definition pyset (xs : list string) : list string := nodup string_dec xs.

Definition mem (x : string) (xs : list string) : bool :=
  if in_dec string_dec x xs then true else false.

(** [calculate_symptom_match_score(user_symptoms, disease_symptoms)]: the
    Jaccard similarity of the two sets of lower-cased, stripped symptoms. *)
Definition calculate_symptom_match_score
  (user_symptoms disease_symptoms : list string) : Q :=
  match user_symptoms, disease_symptoms with
  | [], _ | _, [] => 0%Q
  | _ :: _, _ :: _ =>
      let user_set := pyset (map (fun s => strip (lower s)) user_symptoms) in
      let disease_set :=
        pyset (map (fun s => strip (lower s))
                   (filter (fun s => negb (is_empty s)) disease_symptoms)) in
      let intersection :=
        List.length (filter (fun s => mem s disease_set) user_set) in
      let union := List.length (pyset (user_set ++ disease_set)) in
      if (0 <? union)%nat
      then (inject_Z (Z.of_nat intersection) / inject_Z (Z.of_nat union))%Q
      else 0%Q
  end.

(** [get_severity_color(confidence)] *)
Definition get_severity_color (confidence : Q) : string :=
  if Qle_bool 70 confidence then "red"
  else if Qle_bool 50 confidence then "orange"
  else if Qle_bool 30 confidence then "yellow"
  else "green".

(** How alarming a colour is. *)
Definition severity (color : string) : nat :=
  if String.eqb color "red" then 3
  else if String.eqb color "orange" then 2
  else if String.eqb color "yellow" then 1
  else 0.

(** [get_emergency_keywords()] *)
Definition get_emergency_keywords : list string :=
  [ "chest pain"; "difficulty breathing"; "shortness of breath";
    "severe bleeding"; "unconscious"; "fainting"; "severe headache";
    "stroke"; "heart attack"; "allergic reaction"; "severe pain";
    "cannot breathe"; "choking"; "severe burn"; "overdose"; "suicide";
    "self harm"; "seizure" ].

(** [check_emergency_symptoms(symptom_text)] *)
Definition check_emergency_symptoms (symptom_text : string) : bool :=
  if is_empty symptom_text then false
  else
    let text_lower := lower symptom_text in
    existsb (fun keyword => contains keyword text_lower) get_emergency_keywords.

(** The character class [[a-zA-Z\s,.-]] of [validate_location_input]. *)
Definition location_char (c : ascii) : bool :=
  iscased c || isspace c
  || Ascii.eqb c "," || Ascii.eqb c "." || Ascii.eqb c "-".

Definition isdigit (c : ascii) : bool := in_range 48 57 c.

(** [validate_location_input(location)]: [re.match] with the pattern
    [^[a-zA-Z\s,.-]+$] succeeds when the text is not empty and every
    character is in the class. *)
Definition validate_location_input (location : string) : bool * string :=
  if is_empty location || (String.length (strip location) <? 3)%nat then
    (false, "Please enter a valid location (at least 3 characters)")
  else if negb (is_empty location) && sall location_char location then
    (true, "Location format appears valid")
  else (false, "Location contains invalid characters").

(** [df.empty]: no row or no column. *)
Definition df_empty (df : DataFrame) : bool :=
  match rows df, columns df with
  | _ :: _, _ :: _ => false
  | _, _ => true
  end.

End Helpers.

(** ** utils.py: validation of the data files *)

Module Validation.

Import PyStr Pandas Assistant Helpers.
Open Scope string_scope.

(** The loop of [validate_data_files] over the required files, with the
    names of the files found missing so far. *)
Fixpoint validate_files (files : list (string * csv_file))
  (missing_files : list string) : bool :=
  match files with
  | [] =>
      match missing_files with
      | [] => true
      | _ :: _ => false
      end
  | (file, f) :: rest =>
      match read_csv f with
      | inr df =>
          if df_empty df then false else validate_files rest missing_files
      | inl e =>
          if exn_eqb e FileNotFoundError
          then validate_files rest (missing_files ++ [file])%list
          else false
      end
  end.

(** [validate_data_files()] *)
Definition validate_data_files (fs : Files) : bool :=
  validate_files [ ("DiseaseAndSymptoms.csv", diseases_csv fs);
                   ("Disease precaution.csv", precautions_csv fs) ] [].

End Validation.

(** ** app.py: finding doctors *)

Module Doctors.

Import PyStr Location.
Open Scope string_scope.



End Doctors.

(** Whether a row of the disease table yields a training document. *)
Definition usable (df : Pandas.DataFrame) (row : list cell) : bool :=
  match Assistant.row_symptoms df row with
  | [] => false
  | _ :: _ => true
  end.

(** Strict order of Python strings: code point by code point. *)
Definition str_lt (x y : string) : Prop := String.compare x y = Lt.

(** ** Further sample states *)

Module Samples.

Import Pandas Sklearn Assistant.
Open Scope string_scope.

(** The assistant once [load_data] has read both sample tables, before
    [clean_data]. *)
Definition cold_flu_loaded : HealthcareAssistant := {|
  diseases_df := Some cold_flu_table;
  precautions_df := Some Precautions.influenza_table;
  model := None;
  symptoms_list := [];
  diseases_list := []
|}.

(** The same after [clean_data]. *)
Definition cold_flu_cleaned : HealthcareAssistant := {|
  diseases_df := Some cold_flu_table;
  precautions_df := Some Precautions.influenza_table;
  model := None;
  symptoms_list := ["cough"; "fever"; "sneezing"];
  diseases_list := [Str "Cold"; Str "Flu"]
|}.

(** Both sample files in place. *)
Definition both_files : Files := {|
  diseases_csv := Parsed cold_flu_table;
  precautions_csv := Parsed Precautions.influenza_table
|}.

End Samples.

(** ** location_service.py: auxiliary notions *)

Module LocationNotions.

Import Location.
Open Scope string_scope.
Open Scope R_scope.

(** The value [a] of [_calculate_distance], whose square root is taken. *)
Definition hav_arg (lat1 lon1 lat2 lon2 : R) : R :=
  sin ((radians lat2 - radians lat1) / 2) ^ 2
  + cos (radians lat1) * cos (radians lat2)
    * sin ((radians lon2 - radians lon1) / 2) ^ 2.

(** The records at distance [d]. *)
Definition at_distance (d : R) (f : Facility) : bool :=
  if Req_dec_T (distance f) d then true else false.

(** The two values of the entry [type]. *)
Definition hospital_or_clinic (f : Facility) : Prop :=
  type f = "Hospital" \/ type f = "Clinic".

(** A distance that is a whole, non-negative number of tenths of a
    kilometre. *)
Definition in_tenths (f : Facility) : Prop :=
  exists z : Z, (0 <= z)%Z /\ distance f = IZR z / 10.

(** A service without API key whose Overpass request is answered with
    the given status and an empty JSON object. *)
Definition overpass_status (status_code : nat) : Providers := {|
  gmaps_client := None;
  overpass := fun _ _ _ => Response status_code (ret (JObj []))
|}.

End LocationNotions.

(** * Properties *)

(** ** Characters *)

Module PyStrFacts.

Import PyStr.
Open Scope string_scope.

Ltac by_cases_on_char c :=
  destruct c as [[] [] [] [] [] [] [] []]; vm_compute; try reflexivity; try discriminate; auto.

Lemma to_lower_idem (c : ascii) : to_lower (to_lower c) = to_lower c.
Proof. by_cases_on_char c. Qed.

Lemma isspace_to_lower (c : ascii) : isspace (to_lower c) = isspace c.
Proof. by_cases_on_char c. Qed.

(** ** Replacing underscores *)

Lemma replace_char_not_underscore (s : string) :
  sall not_underscore s = true -> replace_char "_" " " s = s.
Proof.
  unfold replace_char.
  induction s as [|c r IH]; simpl; [reflexivity|].
  intros H. apply andb_prop in H as [Hc Hr].
  rewrite (IH Hr).
  unfold not_underscore in Hc. apply negb_true_iff in Hc. rewrite Hc.
  reflexivity.
Qed.

Lemma not_underscore_replace_char (s : string) :
  sall not_underscore (replace_char "_" " " s) = true.
Proof.
  unfold replace_char.
  induction s as [|c r IH]; simpl; [reflexivity|].
  rewrite IH, andb_true_r.
  destruct (Ascii.eqb c "_") eqn:E; [reflexivity|].
  unfold not_underscore. rewrite E. reflexivity.
Qed.

Lemma sall_app (p : ascii -> bool) (u v : string) :
  sall p (u ++ v) = sall p u && sall p v.
Proof.
  induction u as [|c u IH]; simpl; [reflexivity|].
  rewrite IH, andb_assoc. reflexivity.
Qed.

Lemma sall_weaken (p q : ascii -> bool) (s : string) :
  (forall c, p c = true -> q c = true) -> sall p s = true -> sall q s = true.
Proof.
  intros Hpq. induction s as [|c r IH]; simpl; [reflexivity|].
  intros H. apply andb_prop in H as [Hc Hr].
  rewrite (Hpq _ Hc), (IH Hr). reflexivity.
Qed.

End PyStrFacts.

(** ** Unicode text *)

Module PyUnicodeFacts.

Import PyUnicode.
Open Scope N_scope.

(** *** The ASCII range, case by case *)

Lemma below_128 (P : N -> bool) :
  forallb P (map N.of_nat (seq 0 128)) = true ->
  forall c, c < 128 -> P c = true.
Proof.
  intros H c Hc. rewrite forallb_forall in H. apply H.
  apply in_map_iff. exists (N.to_nat c). split; [apply N2Nat.id|].
  apply in_seq. lia.
Qed.

Section Ascii.

Variable c : N.
Hypothesis Hc : c < 128.

Lemma ascii_to_title_ascii : ascii_to_title c < 128.
Proof.
  apply N.ltb_lt. revert c Hc.
  apply (below_128 (fun c => ascii_to_title c <? 128)). vm_compute. reflexivity.
Qed.

Lemma ascii_to_lower_ascii : ascii_to_lower c < 128.
Proof.
  apply N.ltb_lt. revert c Hc.
  apply (below_128 (fun c => ascii_to_lower c <? 128)). vm_compute. reflexivity.
Qed.

Lemma ascii_to_title_idem : ascii_to_title (ascii_to_title c) = ascii_to_title c.
Proof.
  apply N.eqb_eq. revert c Hc.
  apply (below_128 (fun c => ascii_to_title (ascii_to_title c) =? ascii_to_title c)).
  vm_compute. reflexivity.
Qed.

Lemma ascii_to_lower_idem : ascii_to_lower (ascii_to_lower c) = ascii_to_lower c.
Proof.
  apply N.eqb_eq. revert c Hc.
  apply (below_128 (fun c => ascii_to_lower (ascii_to_lower c) =? ascii_to_lower c)).
  vm_compute. reflexivity.
Qed.

Lemma cased_ascii_to_title :
  ascii_upper (ascii_to_title c) || ascii_lower (ascii_to_title c)
  = ascii_upper c || ascii_lower c.
Proof.
  apply Bool.eqb_prop. revert c Hc.
  apply (below_128 (fun c =>
           Bool.eqb (ascii_upper (ascii_to_title c) || ascii_lower (ascii_to_title c))
                    (ascii_upper c || ascii_lower c))).
  vm_compute. reflexivity.
Qed.

Lemma cased_ascii_to_lower :
  ascii_upper (ascii_to_lower c) || ascii_lower (ascii_to_lower c)
  = ascii_upper c || ascii_lower c.
Proof.
  apply Bool.eqb_prop. revert c Hc.
  apply (below_128 (fun c =>
           Bool.eqb (ascii_upper (ascii_to_lower c) || ascii_lower (ascii_to_lower c))
                    (ascii_upper c || ascii_lower c))).
  vm_compute. reflexivity.
Qed.

Lemma wordchar_ascii_to_title : wordchar (ascii_to_title c) = wordchar c.
Proof.
  apply Bool.eqb_prop. revert c Hc.
  apply (below_128 (fun c => Bool.eqb (wordchar (ascii_to_title c)) (wordchar c))).
  vm_compute. reflexivity.
Qed.

Lemma wordchar_ascii_to_lower : wordchar (ascii_to_lower c) = wordchar c.
Proof.
  apply Bool.eqb_prop. revert c Hc.
  apply (below_128 (fun c => Bool.eqb (wordchar (ascii_to_lower c)) (wordchar c))).
  vm_compute. reflexivity.
Qed.

Lemma ascii_not_sigma : (c =? 931) = false.
Proof. apply N.eqb_neq. lia. Qed.

End Ascii.

(** *** Words *)

Lemma wordchar_not_space (c : N) : wordchar c = true -> whitespace c = false.
Proof.
  unfold wordchar. intros H. apply andb_prop in H as [H _].
  apply negb_true_iff, H.
Qed.

Lemma fields_word (w : text) : forallb wordchar w = true -> fields w = [w].
Proof.
  induction w as [|c r IH]; simpl; [reflexivity|].
  intros H. apply andb_prop in H as [Hc Hr].
  rewrite (wordchar_not_space c Hc), (IH Hr). reflexivity.
Qed.

Lemma fields_word_space (w r : text) :
  forallb wordchar w = true -> fields (w ++ 32 :: r) = w :: fields r.
Proof.
  induction w as [|c w IH]; simpl; [reflexivity|].
  intros H. apply andb_prop in H as [Hc Hw].
  rewrite (wordchar_not_space c Hc), (IH Hw). reflexivity.
Qed.

Lemma fields_wordchars (s : text) :
  forallb (fun c => negb (c =? 95)) s = true ->
  Forall (fun w => forallb wordchar w = true) (fields s).
Proof.
  induction s as [|c r IH]; simpl; intros H.
  - constructor; [reflexivity|constructor].
  - apply andb_prop in H as [Hc Hr]. specialize (IH Hr).
    destruct (whitespace c) eqn:Hsp.
    + constructor; [reflexivity|exact IH].
    + destruct (fields r) as [|w ws].
      * constructor; [|constructor]. simpl. unfold wordchar.
        rewrite Hsp, Hc. reflexivity.
      * inversion IH; subst. constructor; [|assumption].
        simpl. unfold wordchar at 1. rewrite Hsp, Hc. simpl. assumption.
Qed.

Lemma split_words (s : text) :
  forallb (fun c => negb (c =? 95)) s = true -> Forall word (split s).
Proof.
  intros H. apply fields_wordchars in H. unfold split.
  induction H as [|w ws Hw _ IH]; simpl; [constructor|].
  destruct (nonempty w) eqn:He; [|exact IH].
  constructor; [split; assumption|exact IH].
Qed.

Lemma join_cons2 (sep w w' : text) (ws : list text) :
  join sep (w :: w' :: ws) = w ++ sep ++ join sep (w' :: ws).
Proof. reflexivity. Qed.

Lemma split_join (ws : list text) :
  Forall word ws -> split (join [32] ws) = ws.
Proof.
  induction 1 as [|w ws [Hne Hw] Hws IH]; [reflexivity|].
  destruct ws as [|w' ws].
  - unfold split. simpl join. rewrite (fields_word _ Hw). simpl.
    rewrite Hne. reflexivity.
  - rewrite join_cons2. unfold split. simpl app.
    rewrite (fields_word_space _ _ Hw). simpl filter. rewrite Hne.
    f_equal. exact IH.
Qed.

Lemma rstrip_word (w : text) : forallb wordchar w = true -> rstrip w = w.
Proof.
  induction w as [|c w IH]; simpl; [reflexivity|].
  intros H. apply andb_prop in H as [Hc Hw]. rewrite (IH Hw).
  rewrite (wordchar_not_space c Hc). destruct w; reflexivity.
Qed.

Lemma rstrip_app (u t : text) :
  rstrip t = t -> nonempty t = true -> rstrip (u ++ t) = u ++ t.
Proof.
  intros Ht Hne. induction u as [|c u IH]; simpl; [exact Ht|].
  rewrite IH. destruct (u ++ t) eqn:E; [|reflexivity].
  apply app_eq_nil in E as [_ E]. subst t. discriminate.
Qed.

Lemma join_words_nonempty (w : text) (ws : list text) :
  word w -> nonempty (join [32] (w :: ws)) = true.
Proof.
  intros [Hne _]. destruct w; [discriminate|]. destruct ws; reflexivity.
Qed.

Lemma rstrip_join (ws : list text) :
  Forall word ws -> rstrip (join [32] ws) = join [32] ws.
Proof.
  induction 1 as [|w ws [Hne Hw] Hws IH]; [reflexivity|].
  destruct ws as [|w' ws].
  - simpl. apply rstrip_word; assumption.
  - rewrite join_cons2. apply rstrip_app.
    + apply (rstrip_app [32] _ IH). inversion Hws; subst.
      apply join_words_nonempty; assumption.
    + reflexivity.
Qed.

Lemma lstrip_join (ws : list text) :
  Forall word ws -> lstrip (join [32] ws) = join [32] ws.
Proof.
  intros H. destruct H as [|w ws [Hne Hw] _]; [reflexivity|].
  destruct w as [|c w]; [discriminate|].
  simpl in Hw. apply andb_prop in Hw as [Hc _].
  apply wordchar_not_space in Hc.
  destruct ws; simpl; rewrite Hc; reflexivity.
Qed.

Lemma strip_join (ws : list text) :
  Forall word ws -> strip (join [32] ws) = join [32] ws.
Proof.
  intros H. unfold strip. rewrite (lstrip_join _ H). apply rstrip_join, H.
Qed.

Lemma replace_no_underscore (s : text) :
  forallb (fun c => negb (c =? 95)) s = true -> replace 95 32 s = s.
Proof.
  unfold replace. induction s as [|c r IH]; simpl; [reflexivity|].
  intros H. apply andb_prop in H as [Hc Hr]. rewrite (IH Hr).
  apply negb_true_iff in Hc. rewrite Hc. reflexivity.
Qed.

Lemma no_underscore_replace (s : text) :
  forallb (fun c => negb (c =? 95)) (replace 95 32 s) = true.
Proof.
  unfold replace. induction s as [|c r IH]; simpl; [reflexivity|].
  rewrite IH, andb_true_r. destruct (c =? 95) eqn:E; [reflexivity|].
  rewrite E. reflexivity.
Qed.

Lemma no_underscore_join (ws : list text) :
  Forall word ws ->
  forallb (fun c => negb (c =? 95)) (join [32] ws) = true.
Proof.
  assert (Hw : forall w, word w ->
                 forallb (fun c => negb (c =? 95)) w = true).
  { intros w [_ H]. rewrite forallb_forall in *. intros c Hc.
    specialize (H c Hc). unfold wordchar in H.
    apply andb_prop in H as [_ H]. exact H. }
  induction 1 as [|w ws Hword Hws IH]; [reflexivity|].
  destruct ws as [|w' ws].
  - simpl. apply Hw, Hword.
  - rewrite join_cons2, !forallb_app. rewrite (Hw _ Hword). simpl.
    exact IH.
Qed.

(** *** What holds of the characters of a text holds after splitting *)

Section Sublists.

Variable P : N -> Prop.

Lemma Forall_lstrip (s : text) : Forall P s -> Forall P (lstrip s).
Proof.
  induction 1 as [|c r Hc Hr IH]; simpl; [constructor|].
  destruct (whitespace c); [exact IH|constructor; assumption].
Qed.

Lemma Forall_rstrip (s : text) : Forall P s -> Forall P (rstrip s).
Proof.
  induction 1 as [|c r Hc Hr IH]; simpl; [constructor|].
  destruct (rstrip r) as [|c' r'].
  - destruct (whitespace c); constructor; [exact Hc|constructor].
  - constructor; assumption.
Qed.

Lemma Forall_replace (s : text) :
  P 32 -> Forall P s -> Forall P (replace 95 32 s).
Proof.
  intros H32. unfold replace.
  induction 1 as [|c r Hc Hr IH]; simpl; constructor; [|exact IH].
  destruct (c =? 95); assumption.
Qed.

Lemma Forall_fields (s : text) : Forall P s -> Forall (Forall P) (fields s).
Proof.
  induction 1 as [|c r Hc Hr IH]; simpl.
  - constructor; constructor.
  - destruct (whitespace c).
    + constructor; [constructor|exact IH].
    + destruct (fields r) as [|w ws].
      * constructor; [|constructor]. constructor; [exact Hc|constructor].
      * inversion IH; subst. constructor; [|assumption].
        constructor; assumption.
Qed.

Lemma Forall_split (s : text) : Forall P s -> Forall (Forall P) (split s).
Proof.
  intros H. apply Forall_fields in H. unfold split.
  induction H as [|w ws Hw _ IH]; simpl; [constructor|].
  destruct (nonempty w); [constructor; assumption|exact IH].
Qed.

End Sublists.

(** *** Title case *)

Section Title.

Context {U : UnicodeData}.

Lemma ascii_regular (c : N) : c < 128 -> regular c.
Proof.
  intros Hc. split; [lia|].
  pose proof (ascii_to_lower_ascii c Hc) as Hl.
  pose proof (ascii_to_title_ascii c Hc) as Ht.
  exists (ascii_to_lower c), (ascii_to_title c).
  split; [apply to_lower_full_ascii, Hc|].
  split; [apply to_title_full_ascii, Hc|].
  split; [lia|].
  split; [rewrite (to_lower_full_ascii _ Hl), (ascii_to_lower_idem c Hc);
          reflexivity|].
  split; [rewrite (to_title_full_ascii _ Ht), (ascii_to_title_idem c Hc);
          reflexivity|].
  split; [rewrite (is_cased_ascii _ Hl), (is_cased_ascii _ Hc);
          apply cased_ascii_to_lower, Hc|].
  split; [rewrite (is_cased_ascii _ Ht), (is_cased_ascii _ Hc);
          apply cased_ascii_to_title, Hc|].
  split; [apply wordchar_ascii_to_lower, Hc|apply wordchar_ascii_to_title, Hc].
Qed.

Lemma isascii_regular (s : text) : isascii s = true -> Forall regular s.
Proof.
  intros H. apply Forall_forall. intros c Hin. apply ascii_regular.
  unfold isascii in H. rewrite forallb_forall in H.
  apply N.ltb_lt, H, Hin.
Qed.

Lemma do_title_cons (before : text) (b : bool) (c : N) (r : text) :
  c <> 931 ->
  do_title before b (c :: r) =
  (if b then to_lower_full c else to_title_full c)
  ++ do_title (c :: before) (is_cased c) r.
Proof.
  intros Hc. simpl. unfold lower_ucs4.
  apply N.eqb_neq in Hc. rewrite Hc. reflexivity.
Qed.

Lemma do_title_space (before : text) (b : bool) (r : text) :
  do_title before b (32 :: r) = 32 :: do_title (32 :: before) false r.
Proof.
  assert (H32 : 32 < 128) by reflexivity.
  rewrite do_title_cons by discriminate.
  rewrite (to_lower_full_ascii 32 H32), (to_title_full_ascii 32 H32),
    (is_cased_ascii 32 H32).
  destruct b; reflexivity.
Qed.

(** Title-casing a text of regular characters a second time changes
    nothing, whatever stands before it. *)
Lemma do_title_idem (s before before' : text) (b : bool) :
  Forall regular s ->
  do_title before' b (do_title before b s) = do_title before b s.
Proof.
  intros H. revert before before' b.
  induction H as [|c r Hc Hr IH]; intros before before' b; [reflexivity|].
  destruct Hc as (Hsigma & l & t & Hl & Ht & Hlsigma & Hll & Htt & Hcl & Hct & _).
  rewrite (do_title_cons _ _ _ _ Hsigma). destruct b.
  - rewrite Hl. change ([l] ++ ?x) with (l :: x).
    rewrite (do_title_cons _ _ _ _ Hlsigma), Hll, Hcl, IH. reflexivity.
  - rewrite Ht. change ([t] ++ ?x) with (t :: x).
    change (do_title before' false (t :: ?x))
      with (to_title_full t ++ do_title (t :: before') (is_cased t) x).
    rewrite Htt, Hct, IH. reflexivity.
Qed.

Lemma do_title_word_space (w r before : text) (b : bool) :
  Forall regular w ->
  do_title before b (w ++ 32 :: r) =
  do_title before b w ++ 32 :: do_title (32 :: rev w ++ before) false r.
Proof.
  intros H. revert before b.
  induction H as [|c w Hc Hw IH]; intros before b.
  - apply do_title_space.
  - destruct Hc as (Hsigma & _).
    change ((c :: w) ++ 32 :: r) with (c :: (w ++ 32 :: r)).
    rewrite (do_title_cons before b c (w ++ 32 :: r) Hsigma),
      (do_title_cons before b c w Hsigma), IH.
    simpl rev. rewrite <- !app_assoc. reflexivity.
Qed.

Lemma do_title_word (w before : text) (b : bool) :
  Forall regular w -> word w -> word (do_title before b w).
Proof.
  intros Hreg [Hne Hw]. split.
  - destruct Hreg as [|c w (Hsigma & l & t & Hl & Ht & _) _]; [discriminate|].
    rewrite (do_title_cons _ _ _ _ Hsigma).
    destruct b; [rewrite Hl|rewrite Ht]; reflexivity.
  - clear Hne. revert before b Hw.
    induction Hreg as [|c w Hc Hreg IH]; intros before b Hw; [reflexivity|].
    destruct Hc as (Hsigma & l & t & Hl & Ht & _ & _ & _ & _ & _ & Hwl & Hwt).
    simpl in Hw. apply andb_prop in Hw as [Hwc Hw].
    rewrite (do_title_cons _ _ _ _ Hsigma).
    destruct b; [rewrite Hl|rewrite Ht]; simpl;
      rewrite (IH _ _ Hw), andb_true_r; congruence.
Qed.

(** The title case of words joined by single spaces: as many words,
    joined by single spaces. *)
Lemma do_title_join (ws : list text) (before : text) (b : bool) :
  Forall word ws -> Forall (Forall regular) ws ->
  exists ws',
    Forall word ws' /\ List.length ws' = List.length ws /\
    do_title before b (join [32] ws) = join [32] ws'.
Proof.
  intros Hws. revert before b.
  induction Hws as [|w ws Hw Hws IH]; intros before b Hreg.
  - exists []. repeat split. constructor.
  - inversion Hreg as [|? ? Hrw Hrws]; subst.
    destruct ws as [|w' ws].
    + exists [do_title before b w]. repeat split.
      constructor; [apply do_title_word; assumption|constructor].
    + rewrite join_cons2.
      change (w ++ [32] ++ join [32] (w' :: ws))
        with (w ++ 32 :: join [32] (w' :: ws)).
      rewrite (do_title_word_space _ _ _ _ Hrw).
      destruct (IH (32 :: rev w ++ before) false Hrws)
        as (ws' & Hws' & Hlen & E).
      destruct ws' as [|x ws']; [discriminate|].
      exists (do_title before b w :: x :: ws'). split.
      * constructor; [apply do_title_word; assumption|exact Hws'].
      * split; [simpl in *; lia|].
        rewrite E, join_cons2. reflexivity.
Qed.

Lemma join_regular (ws : list text) :
  Forall (Forall regular) ws -> Forall regular (join [32] ws).
Proof.
  induction 1 as [|x l Hx Hl IHl]; [constructor|].
  destruct l as [|y l]; [exact Hx|].
  rewrite join_cons2. apply Forall_app. split; [exact Hx|].
  apply Forall_app. split; [|exact IHl].
  constructor; [apply ascii_regular; reflexivity|constructor].
Qed.

End Title.

End PyUnicodeFacts.

(** ** utils.py: symptom normalisation *)

Module UtilsFacts.

Import PyUnicode PyUnicodeFacts Utils.
Open Scope N_scope.

#[export] Instance Excerpt : UnicodeData := {
  to_lower_full := excerpt_lower;
  to_title_full := excerpt_title;
  is_cased := excerpt_cased;
  is_case_ignorable := excerpt_case_ignorable;
  to_lower_full_ascii := fun c Hc =>
    ltac:(unfold excerpt_lower; apply N.ltb_lt in Hc; rewrite Hc; reflexivity);
  to_title_full_ascii := fun c Hc =>
    ltac:(unfold excerpt_title; apply N.ltb_lt in Hc; rewrite Hc; reflexivity);
  is_cased_ascii := fun c Hc =>
    ltac:(unfold excerpt_cased; apply N.ltb_lt in Hc; rewrite Hc; reflexivity)
}.

(** The shape of every result on text of regular characters: words free
    of whitespace and underscores, joined by single spaces, which title
    case leaves as they are. *)
Lemma clean_symptom_text_shape (U : UnicodeData) (s : text) :
  Forall regular s ->
  exists ws, Forall word ws /\
    title (join [32] (split (replace 95 32 (strip s)))) = join [32] ws /\
    title (join [32] ws) = join [32] ws.
Proof.
  intros Hreg.
  pose proof (split_words _ (no_underscore_replace (strip s))) as Hws.
  assert (Hrs : Forall (Forall regular) (split (replace 95 32 (strip s)))).
  { apply Forall_split, Forall_replace; [apply ascii_regular; reflexivity|].
    unfold strip. apply Forall_rstrip, Forall_lstrip, Hreg. }
  destruct (do_title_join _ [] false Hws Hrs) as (ws' & Hws' & _ & E).
  exists ws'. split; [exact Hws'|]. split; [exact E|].
  rewrite <- E. unfold title. apply do_title_idem, join_regular, Hrs.
Qed.

(** C10 (amended). For a missing value, for every text of ASCII
    characters and, more generally, for every text whose characters have
    regular case forms, normalising an already-normalised symptom token
    returns it unchanged: applying [clean_symptom_text] to the result of
    [clean_symptom_text x] gives that result back, whatever the Unicode
    database holds outside the ASCII range. *)
Theorem clean_symptom_text_idempotent (U : UnicodeData) (x : option text) :
  ascii_value x = true \/ regular_value x ->
  clean_symptom_text (Some (clean_symptom_text x)) = clean_symptom_text x.
Proof.
  intros H.
  assert (Hreg : regular_value x).
  { destruct H as [H|H]; [|exact H].
    destruct x as [s|]; [|exact I]. apply isascii_regular, H. }
  clear H. destruct x as [s|]; [|reflexivity]. simpl in Hreg.
  destruct s as [|c r]; [reflexivity|].
  unfold clean_symptom_text at 2 3.
  destruct (clean_symptom_text_shape U (c :: r) Hreg)
    as (ws & Hws & -> & Htitle).
  unfold clean_symptom_text.
  destruct (join [32] ws) as [|c' r'] eqn:He; [reflexivity|].
  change (title (join [32] (split (replace 95 32 (strip (c' :: r')))))
          = c' :: r').
  rewrite <- He in Htitle |- *.
  rewrite (strip_join _ Hws).
  rewrite (replace_no_underscore _ (no_underscore_join _ Hws)).
  rewrite (split_join _ Hws). exact Htitle.
Qed.

(** The token ["  high__fever  mild "] normalises to ["High Fever Mild"]. *)
Lemma clean_symptom_text_idempotent_witness :
  (ascii_value (Some (of_string "  high__fever  mild ")) = true \/
   regular_value (Some (of_string "  high__fever  mild "))) /\
  clean_symptom_text (Some (of_string "  high__fever  mild "))
  = of_string "High Fever Mild" /\
  clean_symptom_text
    (Some (clean_symptom_text (Some (of_string "  high__fever  mild "))))
  = clean_symptom_text (Some (of_string "  high__fever  mild ")).
Proof.
  split; [left; reflexivity|]. split; [reflexivity|].
  apply (clean_symptom_text_idempotent Excerpt
           (Some (of_string "  high__fever  mild "))).
  left. reflexivity.
Defined.

(** Counterexample to C10 as stated.  The token [a], U+0130, [b]
    normalises to [A], [i], U+0307, [b]: the capital I with dot above is
    lower-cased to [i] followed by the combining dot.  Normalising that
    result again gives [A], [i], U+0307, [B]: the combining dot is not
    cased, so the letter after it is title-cased. *)
Lemma clean_symptom_text_dotted :
  @clean_symptom_text Excerpt (Some [97; 304; 98]) = [65; 105; 775; 98] /\
  @clean_symptom_text Excerpt (Some [65; 105; 775; 98]) = [65; 105; 775; 66] /\
  @clean_symptom_text Excerpt
    (Some (@clean_symptom_text Excerpt (Some [97; 304; 98])))
  <> @clean_symptom_text Excerpt (Some [97; 304; 98]).
Proof.
  split; [reflexivity|]. split; [reflexivity|]. discriminate.
Qed.

End UtilsFacts.

(** ** app.py: precaution lookup *)

Module PrecautionsFacts.

Import PyStr Pandas Precautions.
Open Scope string_scope.

(** *** The literal-and-dot engine satisfies the interface *)

Lemma match_here_literal (pat s : string) :
  regex_literal pat = true -> match_here pat s = String.prefix pat s.
Proof.
  revert s. induction pat as [|p pr IH]; intros s H.
  - destruct s; reflexivity.
  - destruct s as [|c sr]; [reflexivity|].
    unfold regex_literal in H. simpl in H.
    apply andb_prop in H as [Hp Hpr]. simpl.
    assert (Hdot : Ascii.eqb p "." = false).
    { apply negb_true_iff in Hp. unfold regex_special in Hp. simpl in Hp.
      apply orb_false_iff in Hp as [Hp _]. exact Hp. }
    rewrite Hdot, (IH sr Hpr).
    destruct (Ascii.eqb_spec p c) as [->|Hne].
    + destruct (ascii_dec c c); [reflexivity|contradiction].
    + destruct (ascii_dec p c); [contradiction|reflexivity].
Qed.

Lemma search_literal (pat s : string) :
  regex_literal pat = true -> search pat s = contains pat s.
Proof.
  intros H. induction s as [|c r IH]; simpl.
  - rewrite (match_here_literal pat "" H). reflexivity.
  - rewrite (match_here_literal pat (String c r) H), IH. reflexivity.
Qed.

Lemma dot_search_literal (pat s : string) :
  regex_literal pat = true -> dot_search pat s = ret (contains pat s).
Proof.
  intros H. unfold dot_search.
  replace (sall (fun c => negb (regex_special c) || Ascii.eqb c ".") pat)
    with true.
  - rewrite (search_literal pat s H). reflexivity.
  - symmetry. revert H. unfold regex_literal.
    apply PyStrFacts.sall_weaken. intros c Hc. rewrite Hc. reflexivity.
Qed.

#[export] Instance DotRe : PyRe := {
  re_search := dot_search;
  re_search_literal := dot_search_literal
}.

(** *** Auxiliary facts *)

Lemma select_pure {A : Type} (mask : A -> result bool) (f : A -> bool)
  (l : list A) :
  (forall x, In x l -> mask x = ret (f x)) -> select mask l = ret (filter f l).
Proof.
  induction l as [|x r IH]; intros H; simpl; [reflexivity|].
  rewrite (H x (or_introl eq_refl)). simpl.
  rewrite IH by (intros y Hy; apply H; right; exact Hy).
  simpl. destruct (f x); reflexivity.
Qed.

Lemma filter_none {A : Type} (f : A -> bool) (l : list A) :
  (forall x, f x = false) -> filter f l = [].
Proof.
  intros H. induction l as [|x r IH]; simpl; [reflexivity|].
  rewrite (H x). exact IH.
Qed.

Lemma filter_none_in {A : Type} (f : A -> bool) (l : list A) :
  (forall x, In x l -> f x = false) -> filter f l = [].
Proof.
  intros H. induction l as [|x r IH]; simpl; [reflexivity|].
  rewrite (H x (or_introl eq_refl)). apply IH.
  intros y Hy. apply H. right. exact Hy.
Qed.

Lemma precaution_of_length (df : DataFrame) (row : list cell) (col : string) :
  List.length (precaution_of df row col) <= 1.
Proof.
  unfold precaution_of.
  destruct (index_of col (columns df)); [|simpl; lia].
  destruct (cell_at n row); [simpl; lia|].
  destruct (is_empty (strip s)); simpl; lia.
Qed.

Lemma precaution_of_nonblank (df : DataFrame) (row : list cell) (col p : string) :
  In p (precaution_of df row col) ->
  is_empty p = false /\
  exists i raw, index_of col (columns df) = Some i /\
                cell_at i row = Str raw /\ p = strip raw.
Proof.
  unfold precaution_of.
  destruct (index_of col (columns df)) as [i|]; [|intros []].
  destruct (cell_at i row) as [|raw] eqn:Hc; [intros []|].
  destruct (is_empty (strip raw)) eqn:He; [intros []|].
  intros [<-|[]]. split; [exact He|]. exists i, raw. auto.
Qed.

Lemma precaution_list_length (df : DataFrame) (row : list cell) :
  List.length (precaution_list df row) <= 4.
Proof.
  unfold precaution_list, precaution_columns. simpl.
  rewrite !List.length_app. simpl.
  pose proof (precaution_of_length df row "Precaution_1").
  pose proof (precaution_of_length df row "Precaution_2").
  pose proof (precaution_of_length df row "Precaution_3").
  pose proof (precaution_of_length df row "Precaution_4").
  lia.
Qed.

Lemma precaution_list_nonblank (df : DataFrame) (row : list cell) :
  Forall (fun p => is_empty p = false /\
                   exists col i raw, In col precaution_columns /\
                     index_of col (columns df) = Some i /\
                     cell_at i row = Str raw /\ p = strip raw)
         (precaution_list df row).
Proof.
  apply Forall_forall. intros p Hp. unfold precaution_list in Hp.
  apply in_flat_map in Hp as (col & Hcol & Hp).
  apply precaution_of_nonblank in Hp as (Hne & i & raw & Hi & Hc & ->).
  split; [exact Hne|]. exists col, i, raw. auto.
Qed.

(** *** Lookup order *)

Lemma exact_filter_spec (df : DataFrame) (i : nat) (q : string) :
  index_of "Disease" (columns df) = Some i ->
  filter (fun row => equals q (str_lower (cell_at i row))) (rows df) =
  filter (name_is df q) (rows df).
Proof.
  intros Hi. apply filter_ext. intros row.
  unfold name_is, disease_name. rewrite Hi.
  destruct (cell_at i row); reflexivity.
Qed.

Lemma partial_select_spec (re : PyRe) (df : DataFrame) (i : nat) (tok : string) :
  index_of "Disease" (columns df) = Some i ->
  regex_literal tok = true ->
  select (fun row => str_contains tok (str_lower (cell_at i row))) (rows df) =
  ret (filter (name_contains df tok) (rows df)).
Proof.
  intros Hi Htok. apply select_pure. intros row _.
  unfold name_contains, disease_name. rewrite Hi.
  destruct (cell_at i row) as [|s]; simpl; [reflexivity|].
  apply re_search_literal, Htok.
Qed.

(** Where the rows are searched for a substring: the lookup is the one the
    specification words whenever the query has an exact match, or its
    first token holds no regular-expression operator. *)
Lemma lookup_agrees (re : PyRe) (df : DataFrame) (disease : string) :
  filter (name_is df (lower disease)) (rows df) <> [] \/
  plain_query disease = true ->
  get_precautions (Some df) disease = lookup_spec df disease.
Proof.
  intros H.
  unfold get_precautions, get_precautions_try, lookup_spec, matched_row, column.
  destruct (index_of "Disease" (columns df)) as [i|] eqn:Hi.
  - simpl. rewrite (exact_filter_spec df i (lower disease) Hi).
    destruct (filter (name_is df (lower disease)) (rows df)) as [|row rest];
      [|reflexivity].
    destruct H as [H|Hplain]; [contradiction|].
    unfold first_token. unfold plain_query in Hplain.
    destruct (split (lower disease)) as [|tok toks]; [reflexivity|].
    simpl. rewrite (partial_select_spec re df i tok Hi Hplain). simpl.
    destruct (filter (name_contains df tok) (rows df)); reflexivity.
  - simpl.
    assert (Hname : forall q row, name_is df q row = false).
    { intros q row. unfold name_is, disease_name. rewrite Hi. reflexivity. }
    rewrite (filter_none (name_is df (lower disease)) (rows df) (Hname _)).
    destruct (split (lower disease)) as [|tok toks]; [reflexivity|].
    rewrite filter_none; [reflexivity|].
    intros row. unfold name_contains, disease_name. rewrite Hi. reflexivity.
Qed.

(** C3.  The lookup proceeds as stated (exact case-insensitive match
    first, then the first row whose lower-cased name contains the first
    token, then the generic list of 4 entries) for every query that has
    an exact match and for every query whose first token holds no
    regular-expression operator, and it returns the generic list when
    there is no table.  It departs from it when the partial match is
    reached with a token that holds such an operator, because
    [str.contains] reads the token as a regular expression: the query
    ["."] selects the row of [Influenza], whose name holds no full stop;
    the query ["(vertigo"] is a substring of a disease name and yet gives
    the generic list, the token being an invalid pattern. *)
Theorem get_precautions_lookup_order :
  (forall (re : PyRe) (df : DataFrame) (disease : string),
      filter (name_is df (lower disease)) (rows df) <> [] \/
      plain_query disease = true ->
      get_precautions (Some df) disease = lookup_spec df disease) /\
  (forall (re : PyRe) (disease : string),
      get_precautions None disease = generic_advice) /\
  List.length generic_advice = 4 /\
  (lookup_spec influenza_table "." = generic_advice /\
   @get_precautions DotRe (Some influenza_table) "."
   = ["rest"; "drink fluids"; "isolate"]) /\
  (lookup_spec vertigo_table "(vertigo"
   = ["lie down"; "avoid sudden change in body";
      "avoid abrupt head movment"; "relax"] /\
   @get_precautions DotRe (Some vertigo_table) "(vertigo" = generic_advice).
Proof.
  split; [exact lookup_agrees|].
  split; [reflexivity|]. split; [reflexivity|].
  split; split; reflexivity.
Qed.

(** *** Shape of the result *)

Lemma select_incl {A : Type} (mask : A -> result bool) (l sel : list A) :
  select mask l = inr sel -> incl sel l.
Proof.
  revert sel. induction l as [|x l IH]; simpl; intros sel H.
  - inversion H. apply incl_refl.
  - destruct (mask x) as [e|b]; simpl in H; [discriminate|].
    destruct (select mask l) as [e|sel'] eqn:E; simpl in H; [discriminate|].
    inversion H; subst. specialize (IH sel' eq_refl).
    destruct b.
    + apply incl_cons; [left; reflexivity|apply incl_tl, IH].
    + apply incl_tl, IH.
Qed.

Lemma precaution_of_nil (df : DataFrame) (row : list cell) (col : string) :
  precaution_of df row col = [] <->
  (forall i raw, index_of col (columns df) = Some i ->
                 cell_at i row = Str raw -> is_empty (strip raw) = true).
Proof.
  unfold precaution_of. split.
  - intros H i raw Hi Hc. rewrite Hi, Hc in H.
    destruct (is_empty (strip raw)); [reflexivity|discriminate].
  - intros H. destruct (index_of col (columns df)) as [i|]; [|reflexivity].
    destruct (cell_at i row) as [|raw] eqn:Hc; [reflexivity|].
    rewrite (H i raw eq_refl Hc). reflexivity.
Qed.

Lemma precaution_list_nil (df : DataFrame) (row : list cell) :
  precaution_list df row = [] <->
  (forall col i raw, In col precaution_columns ->
                     index_of col (columns df) = Some i ->
                     cell_at i row = Str raw -> is_empty (strip raw) = true).
Proof.
  unfold precaution_list. split.
  - intros H col i raw Hcol.
    apply (proj1 (precaution_of_nil df row col)).
    destruct (precaution_of df row col) as [|p ps] eqn:E; [reflexivity|].
    assert (Hin : In p (flat_map (precaution_of df row) precaution_columns)).
    { apply in_flat_map. exists col. split; [exact Hcol|].
      rewrite E. left. reflexivity. }
    rewrite H in Hin. destruct Hin.
  - intros H.
    destruct (flat_map (precaution_of df row) precaution_columns)
      as [|p ps] eqn:E; [reflexivity|].
    assert (Hin : In p (flat_map (precaution_of df row) precaution_columns))
      by (rewrite E; left; reflexivity).
    apply in_flat_map in Hin as (col & Hcol & Hp).
    assert (Hnil : precaution_of df row col = []).
    { apply precaution_of_nil. intros i raw. apply (H col i raw Hcol). }
    rewrite Hnil in Hp. destruct Hp.
Qed.

(** The precautions of a row, as the lookup lists them. *)
Lemma precaution_list_row (df : DataFrame) (row : list cell) :
  List.length (precaution_list df row) <= 4 /\
  Forall (fun p => is_empty p = false /\
            exists col i raw, In col precaution_columns /\
              index_of col (columns df) = Some i /\
              cell_at i row = Str raw /\ p = strip raw)
         (precaution_list df row) /\
  (precaution_list df row = [] <->
   forall col i raw, In col precaution_columns ->
                     index_of col (columns df) = Some i ->
                     cell_at i row = Str raw -> is_empty (strip raw) = true).
Proof.
  split; [apply precaution_list_length|].
  split; [apply precaution_list_nonblank|apply precaution_list_nil].
Qed.

(** C9 (amended). For every disease-name query the lookup returns either
    exactly the 4-item generic list, when no row is matched, or the
    precautions of the matched row: its non-blank entries in the four
    precaution columns, stripped, in column order, between 0 and 4
    strings, and none exactly when the row has no non-blank entry.  The
    matched row is the first row whose lower-cased name equals the
    lower-cased query or, when there is none, the first row that
    [str.contains] selects for the first token of the lower-cased query.
    No row is matched when there is no table or no Disease column, or
    when no name equals the query and the query has no token, the search
    raises, or it selects no row. *)
Theorem get_precautions_shape (re : PyRe)
  (precautions_df : option DataFrame) (disease : string) :
  let r := get_precautions precautions_df disease in
  let exact := fun i row => equals (lower disease) (str_lower (cell_at i row)) in
  let partial := fun i tok row => str_contains tok (str_lower (cell_at i row)) in
  (r = generic_advice /\ List.length r = 4 /\
   (precautions_df = None \/
    exists df, precautions_df = Some df /\
      (index_of "Disease" (columns df) = None \/
       exists i, index_of "Disease" (columns df) = Some i /\
         filter (exact i) (rows df) = [] /\
         (split (lower disease) = [] \/
          exists tok toks, split (lower disease) = tok :: toks /\
            (select (partial i tok) (rows df) = inr [] \/
             exists e, select (partial i tok) (rows df) = inl e))))) \/
  (exists df i row,
      precautions_df = Some df /\
      index_of "Disease" (columns df) = Some i /\
      (hd_error (filter (exact i) (rows df)) = Some row \/
       (filter (exact i) (rows df) = [] /\
        exists tok toks sel,
          split (lower disease) = tok :: toks /\
          select (partial i tok) (rows df) = inr (row :: sel))) /\
      In row (rows df) /\
      r = precaution_list df row /\
      List.length r <= 4 /\
      Forall (fun p => is_empty p = false /\
                exists col j raw, In col precaution_columns /\
                  index_of col (columns df) = Some j /\
                  cell_at j row = Str raw /\ p = strip raw) r /\
      (r = [] <->
       forall col j raw, In col precaution_columns ->
                         index_of col (columns df) = Some j ->
                         cell_at j row = Str raw ->
                         is_empty (strip raw) = true)).
Proof.
  intros r exact partial. subst r.
  destruct precautions_df as [df|];
    [|left; split; [reflexivity|]; split; [reflexivity|]; left; reflexivity].
  unfold get_precautions, get_precautions_try, column.
  destruct (index_of "Disease" (columns df)) as [i|] eqn:Hi; simpl.
  2:{ left. split; [reflexivity|]. split; [reflexivity|].
      right. exists df. split; [reflexivity|]. left. exact Hi. }
  fold (exact i).
  destruct (filter (exact i) (rows df)) as [|row rest] eqn:Hexact.
  - unfold first_token.
    destruct (split (lower disease)) as [|tok toks] eqn:Htok; simpl.
    { left. split; [reflexivity|]. split; [reflexivity|].
      right. exists df. split; [reflexivity|]. right. exists i.
      split; [exact Hi|]. split; [exact Hexact|]. left. reflexivity. }
    fold (partial i tok).
    destruct (select (partial i tok) (rows df)) as [e|sel] eqn:Hsel; simpl.
    { left. split; [reflexivity|]. split; [reflexivity|].
      right. exists df. split; [reflexivity|]. right. exists i.
      split; [exact Hi|]. split; [exact Hexact|]. right. exists tok, toks.
      split; [reflexivity|]. right. exists e. exact Hsel. }
    destruct sel as [|row rest]; simpl.
    { left. split; [reflexivity|]. split; [reflexivity|].
      right. exists df. split; [reflexivity|]. right. exists i.
      split; [exact Hi|]. split; [exact Hexact|]. right. exists tok, toks.
      split; [reflexivity|]. left. exact Hsel. }
    right. exists df, i, row.
    destruct (precaution_list_row df row) as (Hlen & Hall & Hnil).
    split; [reflexivity|]. split; [exact Hi|]. split.
    { right. split; [exact Hexact|]. exists tok, toks, rest.
      split; [reflexivity|exact Hsel]. }
    split; [apply (select_incl _ _ _ Hsel); left; reflexivity|].
    split; [reflexivity|]. split; [exact Hlen|]. split; [exact Hall|exact Hnil].
  - simpl. right. exists df, i, row.
    destruct (precaution_list_row df row) as (Hlen & Hall & Hnil).
    split; [reflexivity|]. split; [exact Hi|].
    split; [left; rewrite Hexact; reflexivity|].
    split.
    { assert (Hin : In row (row :: rest)) by (left; reflexivity).
      rewrite <- Hexact in Hin. apply filter_In in Hin as [Hin _]. exact Hin. }
    split; [reflexivity|]. split; [exact Hlen|]. split; [exact Hall|exact Hnil].
Qed.

(** Counterexample to C9 as stated: the row for ["Flu"] has no precaution
    filled in, and the lookup returns the empty list. *)
Lemma get_precautions_empty :
  @get_precautions DotRe (Some blank_table) "flu" = [].
Proof. reflexivity. Qed.

End PrecautionsFacts.

(** ** numpy: insertion sort is an [argsort] *)

Module SklearnFacts.

Import Sklearn.
Open Scope Q_scope.

Lemma insert_by_perm (v : list Q) (i : nat) (l : list nat) :
  Permutation (insert_by v i l) (i :: l).
Proof.
  induction l as [|j r IH]; simpl; [reflexivity|].
  destruct (Qle_bool (at_index v i) (at_index v j)); [reflexivity|].
  rewrite IH. apply perm_swap.
Qed.

Lemma insertion_argsort_perm (v : list Q) :
  Permutation (insertion_argsort v) (seq 0 (List.length v)).
Proof.
  unfold insertion_argsort.
  induction (seq 0 (List.length v)) as [|i l IH]; simpl; [reflexivity|].
  rewrite insert_by_perm. constructor. exact IH.
Qed.

Lemma insert_by_sorted (v : list Q) (i : nat) (l : list nat) :
  Sorted Qle (map (at_index v) l) ->
  Sorted Qle (map (at_index v) (insert_by v i l)).
Proof.
  induction l as [|j r IH]; simpl; intros H.
  - repeat constructor.
  - destruct (Qle_bool (at_index v i) (at_index v j)) eqn:E; simpl.
    + constructor; [exact H|]. constructor. apply Qle_bool_iff, E.
    + inversion H as [|? ? Hr Hhd]; subst.
      constructor; [apply IH, Hr|].
      assert (Hji : at_index v j <= at_index v i).
      { apply Qlt_le_weak, Qnot_le_lt. intros Hle.
        apply Qle_bool_iff in Hle. congruence. }
      destruct r as [|k r]; simpl.
      * constructor. exact Hji.
      * destruct (Qle_bool (at_index v i) (at_index v k)); simpl.
        -- constructor. exact Hji.
        -- inversion Hhd; subst. constructor. assumption.
Qed.

Lemma insertion_argsort_sorted (v : list Q) :
  Sorted Qle (map (at_index v) (insertion_argsort v)).
Proof.
  unfold insertion_argsort.
  induction (seq 0 (List.length v)) as [|i l IH]; simpl; [constructor|].
  apply insert_by_sorted, IH.
Qed.

#[export] Instance InsertionArgsort : Argsort := {
  argsort := insertion_argsort;
  argsort_perm := insertion_argsort_perm;
  argsort_sorted := insertion_argsort_sorted
}.

End SklearnFacts.

(** ** Sorted lists under slicing, reversal and filtering *)

Module SortedFacts.

Lemma StronglySorted_skipn {A : Type} (R : A -> A -> Prop) (n : nat) (l : list A) :
  StronglySorted R l -> StronglySorted R (skipn n l).
Proof.
  revert l. induction n as [|n IH]; intros l H; [exact H|].
  destruct l as [|x l]; [constructor|].
  simpl. apply IH. inversion H; assumption.
Qed.

Lemma StronglySorted_firstn {A : Type} (R : A -> A -> Prop) (n : nat) (l : list A) :
  StronglySorted R l -> StronglySorted R (firstn n l).
Proof.
  revert l. induction n as [|n IH]; intros l H; [constructor|].
  destruct l as [|x l]; [constructor|].
  inversion H as [|? ? Hl Hx]; subst. simpl. constructor; [apply IH, Hl|].
  apply Forall_forall. intros y Hy. rewrite Forall_forall in Hx.
  apply Hx. revert Hy. clear. revert l.
  induction n as [|n IH]; intros [|z l]; simpl; try tauto.
  intros [->|H]; [left; reflexivity|right; apply IH, H].
Qed.

Lemma StronglySorted_filter {A : Type} (R : A -> A -> Prop) (f : A -> bool) (l : list A) :
  StronglySorted R l -> StronglySorted R (filter f l).
Proof.
  induction 1 as [|x l Hl IH Hx]; simpl; [constructor|].
  destruct (f x); [|exact IH].
  constructor; [exact IH|].
  apply Forall_forall. intros y Hy. apply filter_In in Hy as [Hy _].
  rewrite Forall_forall in Hx. apply Hx, Hy.
Qed.

Lemma StronglySorted_snoc {A : Type} (R : A -> A -> Prop) (l : list A) (x : A) :
  StronglySorted R l -> Forall (fun y => R y x) l ->
  StronglySorted R (l ++ [x]).
Proof.
  induction 1 as [|y l Hl IH Hy]; intros Hx; simpl.
  - constructor; constructor.
  - inversion Hx; subst. constructor; [apply IH; assumption|].
    apply Forall_app. split; [exact Hy|]. constructor; [assumption|constructor].
Qed.

Lemma StronglySorted_rev {A : Type} (R : A -> A -> Prop) (l : list A) :
  StronglySorted R l -> StronglySorted (fun a b => R b a) (rev l).
Proof.
  induction 1 as [|x l Hl IH Hx]; simpl; [constructor|].
  apply StronglySorted_snoc.
  - exact IH.
  - apply Forall_forall. intros y Hy. apply in_rev in Hy.
    rewrite Forall_forall in Hx. apply Hx, Hy.
Qed.

Lemma StronglySorted_last {A : Type} (R : A -> A -> Prop) (l : list A) (x : A) :
  StronglySorted R (l ++ [x]) -> Forall (fun y => R y x) l.
Proof.
  induction l as [|y l IH]; simpl; intros H; [constructor|].
  inversion H as [|? ? Hl Hy]; subst. constructor.
  - rewrite Forall_forall in Hy. apply Hy, in_or_app. right. left. reflexivity.
  - apply IH, Hl.
Qed.

Lemma StronglySorted_map {A B : Type} (R : B -> B -> Prop) (f : A -> B)
  (l : list A) :
  StronglySorted R (map f l) <-> StronglySorted (fun a b => R (f a) (f b)) l.
Proof.
  induction l as [|x l IH]; simpl.
  - split; constructor.
  - split; intros H; inversion H as [|? ? Hl Hx]; subst; constructor;
      try (apply IH; assumption).
    + rewrite Forall_map in Hx. exact Hx.
    + rewrite Forall_map. exact Hx.
Qed.

Lemma StronglySorted_impl {A : Type} (R S : A -> A -> Prop) (l : list A) :
  (forall a b, R a b -> S a b) -> StronglySorted R l -> StronglySorted S l.
Proof.
  intros HRS. induction 1 as [|x l Hl IH Hx]; constructor; [exact IH|].
  revert Hx. apply Forall_impl. intros y. apply HRS.
Qed.

End SortedFacts.

(** ** app.py: disease prediction *)

Module PredictFacts.

Import Sklearn Predict SortedFacts.
Open Scope Q_scope.

Lemma shown_iff (v : list Q) (idx : nat) :
  shown v idx = true <-> min_confidence < at_index v idx.
Proof.
  unfold shown. rewrite negb_true_iff. split.
  - intros H. apply Qnot_le_lt. intros Hle.
    apply Qle_bool_iff in Hle. congruence.
  - intros H. destruct (Qle_bool (at_index v idx) min_confidence) eqn:E;
      [|reflexivity].
    apply Qle_bool_iff in E. exfalso. exact (Qlt_not_le _ _ H E).
Qed.

Section Ranking.

Context {np : Argsort}.

Lemma collect_confidences (cls : list string) (v : list Q) (idxs : list nat)
  (r : list string * list Q) :
  collect cls v idxs = inr r ->
  snd r = map (fun i => at_index v i * 100) (filter (shown v) idxs).
Proof.
  revert r. induction idxs as [|i rest IH]; simpl; intros r H.
  - inversion H. reflexivity.
  - destruct (shown v i); [|apply IH, H].
    destruct (nth_error cls i) as [c|]; [|discriminate].
    destruct (collect cls v rest) as [e|r'] eqn:E; simpl in H; [discriminate|].
    inversion H; subst. simpl. f_equal. apply IH. reflexivity.
Qed.

Lemma collect_pairs (cls : list string) (v : list Q) (idxs : list nat)
  (r : list string * list Q) :
  collect cls v idxs = inr r ->
  Forall2 (fun d c => exists idx, In idx idxs /\ shown v idx = true /\
                        nth_error cls idx = Some d /\
                        c = at_index v idx * 100)
          (fst r) (snd r).
Proof.
  revert r. induction idxs as [|i rest IH]; simpl; intros r H.
  - inversion H. constructor.
  - destruct (shown v i) eqn:Hi.
    + destruct (nth_error cls i) as [c|] eqn:Hc; [|discriminate].
      destruct (collect cls v rest) as [e|r'] eqn:E; simpl in H; [discriminate|].
      inversion H; subst. simpl. constructor.
      * exists i. auto.
      * specialize (IH r' eq_refl). revert IH. apply Forall2_impl.
        intros d q (idx & Hin & Hrest). exists idx. auto.
    + specialize (IH r H). revert IH. apply Forall2_impl.
      intros d q (idx & Hin & Hrest). exists idx. auto.
Qed.

Lemma collect_total (cls : list string) (v : list Q) (idxs : list nat) :
  Forall (fun i => (i < List.length cls)%nat) idxs ->
  exists r, collect cls v idxs = inr r.
Proof.
  induction 1 as [|i rest Hi _ [r IH]]; simpl; [eexists; reflexivity|].
  destruct (shown v i); [|exists r; exact IH].
  destruct (nth_error cls i) as [c|] eqn:Hc.
  - rewrite IH. simpl. eexists. reflexivity.
  - apply nth_error_None in Hc. lia.
Qed.

Lemma argsort_ascending (v : list Q) :
  StronglySorted (fun i j => at_index v i <= at_index v j) (argsort v).
Proof.
  apply StronglySorted_map. apply Sorted_StronglySorted.
  - intros a b c. apply Qle_trans.
  - apply argsort_sorted.
Qed.

Lemma top_indices_descending (v : list Q) :
  StronglySorted (fun i j => at_index v j <= at_index v i) (top_indices v).
Proof.
  unfold top_indices, last_n.
  apply (StronglySorted_rev (fun i j => at_index v i <= at_index v j)).
  apply StronglySorted_skipn, argsort_ascending.
Qed.

Lemma top_indices_length (v : list Q) :
  (List.length (top_indices v) <= top_k)%nat.
Proof.
  unfold top_indices, last_n, top_k. rewrite length_rev, length_skipn. lia.
Qed.

Lemma top_indices_in_range (v : list Q) (i : nat) :
  In i (top_indices v) -> (i < List.length v)%nat.
Proof.
  unfold top_indices, last_n. intros H. apply in_rev in H.
  assert (Hin : In i (argsort v)).
  { rewrite <- (firstn_skipn (List.length (argsort v) - top_k) (argsort v)).
    apply in_or_app. right. exact H. }
  apply (Permutation_in _ (argsort_perm v)) in Hin.
  apply in_seq in Hin. lia.
Qed.

(** The first of [top_indices] selects a largest value. *)
Lemma top_indices_head (v : list Q) :
  v <> [] ->
  exists i rest, top_indices v = i :: rest /\
    forall j, (j < List.length v)%nat -> at_index v j <= at_index v i.
Proof.
  intros Hv. pose proof (argsort_perm v) as Hperm.
  pose proof (argsort_ascending v) as Hsorted.
  unfold top_indices, last_n.
  destruct (exists_last (l := argsort v)) as (l & m & E).
  { intros Hnil. rewrite Hnil in Hperm. apply Permutation_nil in Hperm.
    destruct v; [contradiction|discriminate]. }
  rewrite E in *. rewrite length_app. simpl List.length.
  rewrite skipn_app. unfold top_k.
  replace (List.length l + 1 - 5 - List.length l)%nat with 0%nat by lia.
  simpl skipn. rewrite rev_app_distr. simpl.
  eexists. eexists. split; [reflexivity|].
  intros j Hj.
  assert (Hin : In j (l ++ [m])).
  { apply (Permutation_in _ (Permutation_sym Hperm)). apply in_seq. lia. }
  apply in_app_or in Hin as [Hin|[<-|[]]]; [|apply Qle_refl].
  apply StronglySorted_last in Hsorted. rewrite Forall_forall in Hsorted.
  apply Hsorted, Hin.
Qed.

Lemma predict_disease_cases (model : option Pipeline) (text : string) :
  predict_disease model text = ([], []) \/
  exists f probs r,
    model = Some (FittedPipeline f) /\
    nb_predict_proba f (tfidf_transform f text) = inr probs /\
    collect (classes_ f) probs (top_indices probs) = inr r /\
    predict_disease model text = r.
Proof.
  destruct model as [[|f]|]; simpl; auto.
  unfold predict_disease_try. simpl.
  destruct (nb_predict_proba f (tfidf_transform f text)) as [e|probs] eqn:Hp;
    simpl; auto.
  unfold rank. destruct (collect (classes_ f) probs (top_indices probs))
    as [e|r] eqn:Hc; auto.
  right. exists f, probs, r. auto.
Qed.

(** C1 (amended). For every query text the confidences returned by
    [predict_disease] are in descending order, ties allowed: each one is
    at least every later one.  The entries are those of
    [argsort(probabilities)[-5:][::-1]] that pass the threshold, in that
    order, so labels with equal posterior probability appear in the
    reverse of the order [argsort] gives their class indices; first-seen
    order in the training data plays no part. *)
Theorem predict_disease_descending (model : option Pipeline) (text : string) :
  StronglySorted (fun a b => b <= a) (snd (predict_disease model text)) /\
  (predict_disease model text = ([], []) \/
   exists f probs,
     model = Some (FittedPipeline f) /\
     predict_proba (FittedPipeline f) text = inr probs /\
     let shown_indices :=
       filter (shown probs) (rev (last_n top_k (argsort probs))) in
     snd (predict_disease model text) =
       map (fun i => at_index probs i * 100) shown_indices /\
     Forall2 (fun d i => nth_error (classes_ f) i = Some d)
             (fst (predict_disease model text)) shown_indices).
Proof.
  destruct (predict_disease_cases model text)
    as [->|(f & probs & r & -> & Hp & Hc & Hr)].
  - split; [constructor|left; reflexivity].
  - rewrite Hr. pose proof (collect_confidences _ _ _ _ Hc) as Hconf.
    split.
    + rewrite Hconf. apply StronglySorted_map, StronglySorted_filter.
      apply (StronglySorted_impl
               (fun i j => at_index probs j <= at_index probs i)).
      * intros i j Hij. apply Qmult_le_compat_r; [exact Hij|discriminate].
      * apply top_indices_descending.
    + right. exists f, probs. repeat split; [exact Hp|exact Hconf|].
      clear Hconf Hr. revert r Hc. unfold top_indices.
      generalize (rev (last_n top_k (argsort probs))) as idxs.
      induction idxs as [|i rest IH]; simpl; intros r Hc.
      * inversion Hc. constructor.
      * destruct (shown probs i); [|apply IH, Hc].
        destruct (nth_error (classes_ f) i) as [c|] eqn:Hi; [|discriminate].
        destruct (collect (classes_ f) probs rest) as [e|r'] eqn:E;
          simpl in Hc; [discriminate|].
        inversion Hc; subst. simpl. constructor; [exact Hi|].
        apply IH. reflexivity.
Qed.

(** C2. For every query text [predict_disease] returns two lists of the
    same length, at most [top_k = 5]; every returned confidence is the
    posterior probability of its label times 100, is strictly above
    [min_confidence * 100 = 1], and is at most 100 (the posterior being a
    probability). *)
Theorem predict_disease_bounds (model : option Pipeline) (text : string) :
  (forall m probs, model = Some m -> predict_proba m text = inr probs ->
                   Forall (fun p => p <= 1) probs) ->
  let (predictions, confidences) := predict_disease model text in
  List.length predictions = List.length confidences /\
  (List.length confidences <= top_k)%nat /\
  Forall2 (fun d c =>
             exists m probs cls idx,
               model = Some m /\ predict_proba m text = inr probs /\
               classes m = inr cls /\ nth_error cls idx = Some d /\
               (idx < List.length probs)%nat /\
               c = at_index probs idx * 100 /\
               min_confidence * 100 < c /\ 1 < c /\ c <= 100)
          predictions confidences.
Proof.
  intros Hprob.
  destruct (predict_disease_cases model text)
    as [->|(f & probs & r & -> & Hp & Hc & ->)].
  - repeat split; [simpl; lia|constructor].
  - pose proof (collect_pairs _ _ _ _ Hc) as Hpairs.
    pose proof (collect_confidences _ _ _ _ Hc) as Hconf.
    specialize (Hprob (FittedPipeline f) probs eq_refl Hp).
    destruct r as [predictions confidences]. simpl in *.
    split; [exact (Forall2_length Hpairs)|]. split.
    + rewrite Hconf, length_map.
      etransitivity; [apply filter_length_le|apply top_indices_length].
    + revert Hpairs. apply Forall2_impl.
      intros d c (idx & Hin & Hshown & Hd & ->).
      apply top_indices_in_range in Hin. apply shown_iff in Hshown.
      exists (FittedPipeline f), probs, (classes_ f), idx.
      assert (Hlow : min_confidence * 100 < at_index probs idx * 100)
        by (apply Qmult_lt_compat_r; [reflexivity|exact Hshown]).
      repeat split; auto.
      * apply Qle_lt_trans with (2 := Hlow). discriminate.
      * rewrite Forall_forall in Hprob.
        apply (Qmult_le_compat_r _ 1 100); [|discriminate].
        apply Hprob, nth_In, Hin.
Qed.

(** C5. For every query text, if no trained matcher exists (the model is
    [None]), or the ranking raises (an unfitted pipeline, an error inside
    the classifier, an index out of range), [predict_disease] returns the
    empty result: the exception does not leave the function. *)
Theorem predict_disease_never_raises (model : option Pipeline) (text : string) :
  (model = None \/
   exists m e, model = Some m /\ predict_disease_try m text = inl e) ->
  predict_disease model text = ([], []).
Proof.
  intros [->|(m & e & -> & He)]; simpl; [reflexivity|].
  rewrite He. reflexivity.
Qed.

Lemma collect_classes (cls : list string) (v : list Q) (idxs : list nat)
  (r : list string * list Q) :
  collect cls v idxs = inr r ->
  Forall2 (fun d i => nth_error cls i = Some d)
          (fst r) (filter (shown v) idxs).
Proof.
  revert r. induction idxs as [|i rest IH]; simpl; intros r Hc.
  - inversion Hc. constructor.
  - destruct (shown v i); [|apply IH, Hc].
    destruct (nth_error cls i) as [c|] eqn:Hi; [|discriminate].
    destruct (collect cls v rest) as [e|r'] eqn:E; simpl in Hc; [discriminate|].
    inversion Hc; subst. simpl. constructor; [exact Hi|].
    apply IH. reflexivity.
Qed.

(** C6. For a query text the vectoriser maps to the zero vector (an empty
    or all-stop-word text), given a trained matcher whose posterior on the
    zero vector is the vector of class priors, one prior per class,
    [predict_disease] returns the ranking of the priors under the normal
    output policy: of the five classes [argsort] puts last, taken from the
    last one backwards, those whose prior exceeds 0.01, each with its
    prior times 100 as confidence.  The confidences descend, and the
    result is not empty as soon as one prior exceeds 0.01. *)
Theorem predict_disease_prior_ranking (f : Fitted) (text : string) :
  prior_on_zero f ->
  Forall (fun x => x == 0) (tfidf_transform f text) ->
  List.length (classes_ f) = List.length (class_prior f) ->
  let priors := class_prior f in
  let ranked :=
    filter (fun i => negb (Qle_bool (at_index priors i) (1 # 100)))
           (rev (last_n 5 (argsort priors))) in
  Forall2 (fun d i => nth_error (classes_ f) i = Some d)
          (fst (predict_disease (Some (FittedPipeline f)) text)) ranked /\
  snd (predict_disease (Some (FittedPipeline f)) text)
  = map (fun i => at_index priors i * 100) ranked /\
  StronglySorted (fun a b => b <= a)
    (snd (predict_disease (Some (FittedPipeline f)) text)) /\
  (Exists (fun p => 1 # 100 < p) priors ->
   fst (predict_disease (Some (FittedPipeline f)) text) <> []).
Proof.
  intros Hprior Hzero Hlen priors ranked.
  destruct (collect_total (classes_ f) priors (top_indices priors)) as [r Hr].
  { apply Forall_forall. intros j Hj. rewrite Hlen.
    apply top_indices_in_range, Hj. }
  assert (E : predict_disease (Some (FittedPipeline f)) text = r).
  { simpl. unfold predict_disease_try. simpl.
    rewrite (Hprior _ Hzero). simpl. unfold rank. fold priors.
    rewrite Hr. reflexivity. }
  rewrite E.
  pose proof (collect_classes _ _ _ _ Hr) as Hcls.
  pose proof (collect_confidences _ _ _ _ Hr) as Hconf.
  split; [exact Hcls|]. split; [exact Hconf|]. split.
  - rewrite Hconf. apply StronglySorted_map, StronglySorted_filter.
    apply (StronglySorted_impl
             (fun i j => at_index priors j <= at_index priors i)).
    + intros i j Hij. apply Qmult_le_compat_r; [exact Hij|discriminate].
    + apply top_indices_descending.
  - intros Hex. apply Exists_exists in Hex as (p & Hin & Hp).
    destruct (top_indices_head priors) as (i & rest & Htop & Hmax).
    { intros Hnil. rewrite Hnil in Hin. exact Hin. }
    assert (Hi : shown priors i = true).
    { apply shown_iff. apply (In_nth _ _ 0) in Hin as (j & Hj & <-).
      apply Qlt_le_trans with (1 := Hp). apply Hmax, Hj. }
    rewrite Htop in Hcls. simpl in Hcls. rewrite Hi in Hcls.
    inversion Hcls. discriminate.
Qed.

End Ranking.

End PredictFacts.

(** ** The sample pipeline *)

Module SampleFacts.

Import Sklearn Predict SklearnFacts PredictFacts Sample.
Open Scope Q_scope.

Lemma likelihood_zero (th v : list Q) :
  Forall (fun x => x == 0) v -> likelihood th v == 1.
Proof.
  unfold likelihood. revert v.
  induction th as [|t th IH]; intros v Hv; simpl; [reflexivity|].
  destruct Hv as [|x v Hx Hv]; simpl; [reflexivity|].
  rewrite (IH v Hv), Hx. reflexivity.
Qed.

Lemma cold_flu_prior_on_zero : prior_on_zero cold_flu.
Proof.
  intros v Hv. simpl. unfold ret. f_equal.
  cbv [posterior joint priors theta combine map fold_right fst snd].
  pose proof (likelihood_zero [2 # 5; 1 # 5; 2 # 5] v Hv) as H1.
  pose proof (likelihood_zero [2 # 5; 2 # 5; 1 # 5] v Hv) as H2.
  f_equal; [|f_equal];
    (transitivity (Qred (1 # 2)); [|reflexivity]); apply Qred_complete;
    rewrite H1, H2; reflexivity.
Qed.

(** The empty query on the sample pipeline: both posteriors are the prior
    [1/2], and both classes are returned with confidence 50. *)
Lemma predict_disease_prior_ranking_witness :
  predict_disease (Some (FittedPipeline cold_flu)) ""
  = (["Flu"; "Cold"]%string, [100 # 2; 100 # 2]) /\
  let priors := class_prior cold_flu in
  let ranked :=
    filter (fun i => negb (Qle_bool (at_index priors i) (1 # 100)))
           (rev (last_n 5 (argsort priors))) in
  Forall2 (fun d i => nth_error (classes_ cold_flu) i = Some d)
          (fst (predict_disease (Some (FittedPipeline cold_flu)) "")) ranked /\
  snd (predict_disease (Some (FittedPipeline cold_flu)) "")
  = map (fun i => at_index priors i * 100) ranked /\
  StronglySorted (fun a b => b <= a)
    (snd (predict_disease (Some (FittedPipeline cold_flu)) "")) /\
  (Exists (fun p => 1 # 100 < p) priors ->
   fst (predict_disease (Some (FittedPipeline cold_flu)) "") <> []).
Proof.
  split; [reflexivity|].
  apply (predict_disease_prior_ranking cold_flu "" cold_flu_prior_on_zero).
  - repeat constructor.
  - reflexivity.
Defined.

(** The query ["fever cough"]: posteriors [1/3] for Cold and [2/3] for
    Flu. *)
Lemma predict_disease_bounds_witness :
  let (predictions, confidences) :=
    predict_disease (Some (FittedPipeline cold_flu)) "fever cough" in
  List.length predictions = List.length confidences /\
  (List.length confidences <= top_k)%nat /\
  Forall2 (fun d c =>
             exists m probs cls idx,
               Some (FittedPipeline cold_flu) = Some m /\
               predict_proba m "fever cough" = inr probs /\
               classes m = inr cls /\ nth_error cls idx = Some d /\
               (idx < List.length probs)%nat /\
               c = at_index probs idx * 100 /\
               min_confidence * 100 < c /\ 1 < c /\ c <= 100)
          predictions confidences.
Proof.
  apply (predict_disease_bounds (Some (FittedPipeline cold_flu)) "fever cough").
  intros m probs Hm Hp. inversion Hm; subst m. simpl in Hp.
  inversion Hp; subst probs.
  repeat constructor; discriminate.
Defined.

(** A pipeline that was never fitted raises [NotFittedError]. *)
Lemma predict_disease_never_raises_witness :
  predict_disease (Some Unfitted) "fever" = ([], []).
Proof.
  apply (predict_disease_never_raises (Some Unfitted) "fever").
  right. exists Unfitted, NotFittedError. split; reflexivity.
Defined.

(** Counterexample to C1 as stated.  On the empty query both classes of
    the sample pipeline have posterior [1/2]: the two confidences are
    equal, so the sequence is not strictly descending; and Flu is listed
    before Cold although Cold is the label seen first in the training
    data. *)
Lemma predict_disease_tie :
  predict_disease (Some (FittedPipeline cold_flu)) "" =
    (["Flu"; "Cold"]%string, [100 # 2; 100 # 2]) /\
  strictly_descending
    (snd (predict_disease (Some (FittedPipeline cold_flu)) "")) = false /\
  ties_first_seen y_train
    (combine (fst (predict_disease (Some (FittedPipeline cold_flu)) ""))
             (snd (predict_disease (Some (FittedPipeline cold_flu)) ""))) = false.
Proof. repeat split; reflexivity. Qed.

End SampleFacts.

(** ** app.py: start-up *)

Module AssistantFacts.

Import PyStr Pandas Sklearn Assistant.
Open Scope string_scope.


(** With the precaution table in place, everything but the attribute
    [precautions_df] is computed from the disease table alone. *)
Lemma init_parsed (fit : list string -> list cell -> result Fitted)
  (d p : DataFrame) :
  init fit {| diseases_csv := Parsed d; precautions_csv := Parsed p |} =
  match clean_data {| diseases_df := Some d; precautions_df := Some p;
                      model := None; symptoms_list := [];
                      diseases_list := [] |} with
  | inl e => if exn_eqb e FileNotFoundError
             then x <- train fit d ;;
                  ret {| diseases_df := Some d; precautions_df := Some p;
                         model := Some x; symptoms_list := [];
                         diseases_list := [] |}
             else inl e
  | inr a => x <- train fit d ;;
             ret {| diseases_df := Some d; precautions_df := Some p;
                    model := Some x; symptoms_list := symptoms_list a;
                    diseases_list := diseases_list a |}
  end.
Proof.
  unfold init, load_data, clean_data, handled, prepare_model. simpl.
  destruct (column d "Disease") as [e|i]; simpl.
  - destruct (exn_eqb e FileNotFoundError); simpl; [|reflexivity].
    destruct (train fit d); reflexivity.
  - destruct (all_columns d (symptom_positions 0 (columns d))) as [e|syms];
      simpl.
    + destruct (exn_eqb e FileNotFoundError); simpl; [|reflexivity].
      destruct (train fit d); reflexivity.
    + destruct (train fit d); reflexivity.
Qed.



(** The inline normalisation of [prepare_model] and [clean_data],
    [strip().replace('_', ' ')], is a different function from
    [clean_symptom_text] and is not idempotent: a leading underscore
    becomes a leading space, which a second pass strips. *)
Remark inline_normalisation_not_idempotent :
  replace_char "_" " " (strip "_fever") = " fever" /\
  replace_char "_" " " (strip " fever") = "fever".
Proof. split; reflexivity. Qed.



End AssistantFacts.

(** ** location_service.py: ranking by distance *)

Module RankingFacts.

Import Location SortedFacts.
Open Scope R_scope.

Lemma closer_true (a b : Facility) :
  closer a b = true -> distance a <= distance b.
Proof.
  unfold closer. destruct (Rle_dec (distance a) (distance b)); [auto|discriminate].
Qed.

Lemma closer_false (a b : Facility) :
  closer a b = false -> distance b <= distance a.
Proof.
  unfold closer. destruct (Rle_dec (distance a) (distance b)); [discriminate|].
  intros _. lra.
Qed.

Lemma insert_facility_ascending (x : Facility) (l : list Facility) :
  ascending l -> ascending (insert_facility x l).
Proof.
  unfold ascending. induction l as [|y r IH]; simpl; intros H.
  - repeat constructor.
  - destruct (closer x y) eqn:E; simpl.
    + constructor; [exact H|]. constructor. apply closer_true, E.
    + inversion H as [|? ? Hr Hhd]; subst.
      constructor; [apply IH, Hr|].
      apply closer_false in E.
      destruct r as [|z r]; simpl.
      * constructor. exact E.
      * destruct (closer x z); simpl.
        -- constructor. exact E.
        -- inversion Hhd; subst. constructor. assumption.
Qed.

Lemma sort_by_distance_ascending (l : list Facility) :
  ascending (sort_by_distance l).
Proof.
  unfold sort_by_distance. induction l as [|x l IH]; simpl.
  - constructor.
  - apply insert_facility_ascending, IH.
Qed.

Lemma insert_facility_perm (x : Facility) (l : list Facility) :
  Permutation (insert_facility x l) (x :: l).
Proof.
  induction l as [|y r IH]; simpl; [reflexivity|].
  destruct (closer x y); [reflexivity|].
  rewrite IH. apply perm_swap.
Qed.

Lemma sort_by_distance_perm (l : list Facility) :
  Permutation (sort_by_distance l) l.
Proof.
  unfold sort_by_distance. induction l as [|x l IH]; simpl; [reflexivity|].
  rewrite insert_facility_perm. constructor. exact IH.
Qed.

Lemma ascending_firstn (n : nat) (l : list Facility) :
  ascending l -> ascending (firstn n l).
Proof.
  unfold ascending. intros H.
  rewrite <- firstn_map. apply StronglySorted_Sorted.
  apply StronglySorted_firstn. apply Sorted_StronglySorted; [|exact H].
  intros a b c. apply Rle_trans.
Qed.

(** The list returned when the providers answer: sorted and truncated. *)
Lemma ranked_ascending (hospitals : list Facility) :
  ascending (firstn max_results (sort_by_distance hospitals)) /\
  (List.length (firstn max_results (sort_by_distance hospitals))
   <= max_results)%nat.
Proof.
  split.
  - apply ascending_firstn, sort_by_distance_ascending.
  - apply firstn_le_length.
Qed.

(** For every origin and every response of the providers, the list
    [find_nearby_hospitals_real] returns is either sorted ascending by
    distance and of length at most 15, or the fixed fallback list. *)
Lemma find_nearby_hospitals_real_cases (self : Providers)
  (lat lon radius_km : R) :
  let found := find_nearby_hospitals_real self lat lon radius_km in
  (ascending found /\ (List.length found <= max_results)%nat) \/
  found = _get_fallback_hospitals lat lon radius_km.
Proof.
  unfold find_nearby_hospitals_real, _search_osm_hospitals.
  destruct (gmaps_client self) as [g|].
  - destruct (google_places g lat lon radius_km); [right; reflexivity|].
    left. apply ranked_ascending.
  - destruct (_search_osm_hospitals_try self lat lon radius_km);
      [right; reflexivity|].
    left. apply ranked_ascending.
Qed.

(** The fallback list is not in ascending order of distance: 2.5 km comes
    before 1.8 km. *)
Lemma fallback_not_ascending (lat lon radius_km : R) :
  map distance (_get_fallback_hospitals lat lon radius_km) = [2.5; 1.8] /\
  ~ ascending (_get_fallback_hospitals lat lon radius_km).
Proof.
  split; [reflexivity|].
  unfold ascending. simpl. intros H.
  inversion H as [|? ? _ Hhd]; subst. inversion Hhd as [|? ? Hle]; subst.
  lra.
Qed.

(** C8, at the failing input.  With an API key configured and the Places
    API unreachable, [find_nearby_hospitals_real] at the origin
    [(40.0, -74.0)] returns the fallback list as written, with distances
    [2.5; 1.8]: the result is not sorted ascending by distance.  The same
    list is returned when the Overpass API is unreachable. *)
Theorem find_nearby_hospitals_real_fallback_unsorted :
  find_nearby_hospitals_real places_down 40 (-74) 10
    = _get_fallback_hospitals 40 (-74) 10 /\
  find_nearby_hospitals_real overpass_down 40 (-74) 10
    = _get_fallback_hospitals 40 (-74) 10 /\
  map distance (find_nearby_hospitals_real places_down 40 (-74) 10)
    = [2.5; 1.8] /\
  ~ ascending (find_nearby_hospitals_real places_down 40 (-74) 10).
Proof.
  assert (E : find_nearby_hospitals_real places_down 40 (-74) 10
              = _get_fallback_hospitals 40 (-74) 10) by reflexivity.
  split; [exact E|]. split; [reflexivity|]. rewrite E.
  apply fallback_not_ascending.
Qed.

End RankingFacts.

(** ** location_service.py: distance *)

Module DistanceFacts.

Import Location.
Open Scope string_scope.
Open Scope R_scope.

Lemma PI_bounds : 3.135 < PI < 3.1421.
Proof.
  pose proof (PI_2_3_7_ineq 0) as [Hlo _].
  pose proof (PI_2_3_7_ineq 1) as [_ Hhi].
  unfold sum_f_R0, tg_alt, PI_2_3_7_tg, Ratan_seq in Hlo, Hhi.
  simpl in Hlo, Hhi.
  split; lra.
Qed.

Lemma hav_sin (x : R) : hav x = sin (x / 2) ^ 2.
Proof.
  unfold hav. replace x with (2 * (x / 2)) at 1 by field.
  rewrite cos_2a_sin. simpl. field.
Qed.

Lemma calculate_distance_great_circle (lat1 lon1 lat2 lon2 : R) :
  _calculate_distance lat1 lon1 lat2 lon2 = great_circle 6371 lat1 lon1 lat2 lon2.
Proof.
  unfold _calculate_distance, great_circle, radians. rewrite !hav_sin.
  replace ((lat2 - lat1) * PI / 180 / 2) with ((lat2 * PI / 180 - lat1 * PI / 180) / 2) by field.
  replace ((lon2 - lon1) * PI / 180 / 2) with ((lon2 * PI / 180 - lon1 * PI / 180) / 2) by field.
  ring.
Qed.

Lemma round_half_even_near (y : R) (z : Z) :
  IZR z - 1 / 2 < y < IZR z + 1 / 2 -> round_half_even y = z.
Proof.
  intros [Hlo Hhi]. unfold round_half_even.
  pose proof (Zfloor_bound y) as [Hf1 Hf2].
  assert (Hcases : Zfloor y = (z - 1)%Z \/ Zfloor y = z).
  { assert (H1 : (z - 1 <= Zfloor y)%Z).
    { apply Zfloor_lub. rewrite minus_IZR. lra. }
    assert (H2 : (Zfloor y < z + 1)%Z).
    { apply lt_IZR. rewrite plus_IZR. lra. }
    lia. }
  destruct Hcases as [E|E]; rewrite E in *.
  - rewrite minus_IZR in *.
    destruct (Rlt_dec (y - (IZR z - 1)) (1 / 2)); [lra|].
    destruct (Rlt_dec (1 / 2) (y - (IZR z - 1))); [lia|lra].
  - destruct (Rlt_dec (y - IZR z) (1 / 2)); [reflexivity|lra].
Qed.

Lemma cos_40_bounds (a : R) : 0.69 <= a <= 0.7 -> 0.755 <= cos a <= 0.772.
Proof.
  intros [Hlo Hhi].
  pose proof PI_bounds as [HP1 HP2].
  assert (H1 : - PI / 2 <= a) by lra.
  assert (H2 : a <= PI / 2) by lra.
  pose proof (cos_bound a 0 H1 H2) as [Hl Hu].
  unfold cos_approx, cos_term, sum_f_R0 in Hl, Hu. simpl in Hl, Hu.
  assert (Hsq : 0.4761 <= a * a <= 0.49) by nra.
  remember (a * a) as s eqn:Es.
  replace (a * (a * (a * (a * 1)))) with (s * s) in Hu by (subst s; ring).
  replace (a * (a * 1)) with s in Hl, Hu by (subst s; ring).
  assert (Hs4 : s * s <= 0.2401) by nra.
  split; lra.
Qed.

Lemma asin_upper (y u : R) :
  -1 <= y <= 1 -> - (PI / 2) <= u <= PI / 2 -> y <= sin u -> asin y <= u.
Proof.
  intros Hy Hu Hsin. destruct (Rle_lt_dec (asin y) u) as [H|H]; [exact H|].
  exfalso. pose proof (asin_bound y) as [Hb1 Hb2].
  assert (Hlt : sin u < sin (asin y))
    by (apply sin_increasing_1; lra).
  rewrite (sin_asin y Hy) in Hlt. lra.
Qed.

Lemma asin_lower (y l : R) :
  -1 <= y <= 1 -> - (PI / 2) <= l <= PI / 2 -> sin l <= y -> l <= asin y.
Proof.
  intros Hy Hl Hsin. destruct (Rle_lt_dec l (asin y)) as [H|H]; [exact H|].
  exfalso. pose proof (asin_bound y) as [Hb1 Hb2].
  assert (Hlt : sin (asin y) < sin l)
    by (apply sin_increasing_1; lra).
  rewrite (sin_asin y Hy) in Hlt. lra.
Qed.

Lemma sqrt_between (a lo hi : R) :
  0 <= lo -> 0 <= hi -> lo * lo <= a <= hi * hi -> lo <= sqrt a <= hi.
Proof.
  intros Hlo Hhi [H1 H2]. split.
  - rewrite <- (sqrt_square lo Hlo). apply sqrt_le_1_alt, H1.
  - rewrite <- (sqrt_square hi Hhi). apply sqrt_le_1_alt, H2.
Qed.

Lemma sin_small (x : R) :
  0 < x <= 1 -> x - x * x * x / 6 <= sin x < x.
Proof.
  intros [H0 H1]. pose proof PI_bounds as [HP1 HP2]. split.
  - assert (Hx0 : 0 <= x) by lra. assert (HxPI : x <= PI) by lra.
    pose proof (sin_bound x 0 Hx0 HxPI) as [Hl _].
    unfold sin_approx, sin_term, sum_f_R0 in Hl. simpl in Hl. lra.
  - apply sin_lt_x, H0.
Qed.

Lemma reference_pair :
  1.38 < _calculate_distance 40 (-74) 40.01 (-74.01) < 1.41.
Proof.
  pose proof PI_bounds as [HP1 HP2].
  unfold _calculate_distance, radians.
  set (h := PI / 36000).
  replace ((40.01 * PI / 180 - 40 * PI / 180) / 2) with h
    by (unfold h; lra).
  replace ((-74.01 * PI / 180 - -74 * PI / 180) / 2) with (- h)
    by (unfold h; lra).
  rewrite sin_neg.
  assert (Hh : 0.00008708 <= h <= 0.0000872806) by (unfold h; lra).
  pose proof (sin_small h) as [Hs1 Hs2]; [lra|].
  assert (Hs : 0.000087 <= sin h <= 0.0000873).
  { split; [|lra].
    assert (h * h * h / 6 <= 0.00000001) by nra. lra. }
  pose proof (cos_40_bounds (40 * PI / 180)) as [Hc1 Hc1']; [lra|].
  pose proof (cos_40_bounds (40.01 * PI / 180)) as [Hc2 Hc2']; [lra|].
  set (s := sin h) in *. set (c1 := cos (40 * PI / 180)) in *.
  set (c2 := cos (40.01 * PI / 180)) in *.
  replace (s ^ 2 + c1 * c2 * (- s) ^ 2) with (s * s * (1 + c1 * c2)) by ring.
  assert (Hcc : 1.57 <= 1 + c1 * c2 <= 1.596) by nra.
  assert (Hss : 0.000087 * 0.000087 <= s * s <= 0.0000873 * 0.0000873) by nra.
  assert (Ha : 0.000109 * 0.000109 <= s * s * (1 + c1 * c2)
               <= 0.0001103 * 0.0001103) by nra.
  pose proof (sqrt_between _ 0.000109 0.0001103 ltac:(lra) ltac:(lra) Ha)
    as [Hy1 Hy2].
  set (y := sqrt (s * s * (1 + c1 * c2))) in *.
  assert (Hlow : 0.000109 <= asin y).
  { apply asin_lower; [lra|lra|].
    pose proof (sin_small 0.000109) as [_ H]; lra. }
  assert (Hupp : asin y <= 0.00011031).
  { apply asin_upper; [lra|lra|].
    pose proof (sin_small 0.00011031) as [H _]; lra. }
  split; lra.
Qed.

Lemma reference_pair_rounded :
  round1 (_calculate_distance 40 (-74) 40.01 (-74.01)) = 1.4.
Proof.
  pose proof reference_pair as [H1 H2]. unfold round1.
  rewrite (round_half_even_near _ 14); [lra|].
  split; lra.
Qed.

(** The record [_extract_place_info] builds carries the rounded distance
    from the user to the place. *)
Lemma extract_place_info_distance (client : option GoogleMaps) (place : json)
  (user_lat user_lon : R) (facility_type : string) (info : Facility) :
  _extract_place_info client place user_lat user_lon facility_type = Some info ->
  place_location place = inr (lat info, lon info) /\
  distance info =
    round1 (_calculate_distance user_lat user_lon (lat info) (lon info)).
Proof.
  unfold _extract_place_info, _extract_place_info_try. intros H.
  destruct (place_location place) as [e|[plat plon]]; simpl in H;
    [discriminate|].
  repeat match type of H with
         | context [bind ?c _] =>
             destruct c; simpl in H; [discriminate|]
         end.
  inversion H; subst. simpl. split; reflexivity.
Qed.

(** A place with numeric coordinates and an identifier is kept. *)
Lemma extract_place_info_total (user_lat user_lon plat plon : R)
  (facility_type : string) :
  exists info,
    _extract_place_info None (place_at plat plon) user_lat user_lon
      facility_type = Some info /\
    lat info = plat /\ lon info = plon /\ type info = facility_type.
Proof.
  unfold _extract_place_info, _extract_place_info_try. simpl.
  destruct (Req_dec_T 0 0) as [_|Hne]; [|contradiction].
  simpl. eexists. split; [reflexivity|]. simpl. auto.
Qed.

(** C7. For every pair of geographic points the distance attached to a
    facility record is the great-circle (haversine) distance on a sphere
    of radius 6371 km, rounded to one decimal place: [_calculate_distance]
    is the haversine formula, and [_extract_place_info] attaches its value
    rounded.  From (40.0, -74.0) to (40.01, -74.01) the distance lies
    between 1.38 and 1.41 km and the attached value is 1.4. *)
Theorem attached_distance_is_haversine :
  (forall lat1 lon1 lat2 lon2,
      _calculate_distance lat1 lon1 lat2 lon2
      = great_circle 6371 lat1 lon1 lat2 lon2) /\
  (forall client place user_lat user_lon facility_type info,
      _extract_place_info client place user_lat user_lon facility_type
      = Some info ->
      place_location place = inr (lat info, lon info) /\
      distance info =
        round1 (great_circle 6371 user_lat user_lon (lat info) (lon info))) /\
  (forall user_lat user_lon plat plon facility_type,
      exists info,
        _extract_place_info None (place_at plat plon) user_lat user_lon
          facility_type = Some info /\
        distance info =
          round1 (great_circle 6371 user_lat user_lon plat plon)) /\
  1.38 < great_circle 6371 40 (-74) 40.01 (-74.01) < 1.41 /\
  round1 (great_circle 6371 40 (-74) 40.01 (-74.01)) = 1.4.
Proof.
  split; [exact calculate_distance_great_circle|].
  split.
  { intros client place user_lat user_lon facility_type info H.
    apply extract_place_info_distance in H as [Hloc Hd].
    rewrite calculate_distance_great_circle in Hd. auto. }
  split.
  { intros user_lat user_lon plat plon facility_type.
    destruct (extract_place_info_total user_lat user_lon plat plon
                facility_type) as (info & Hinfo & Hlat & Hlon & _).
    exists info. split; [exact Hinfo|].
    apply extract_place_info_distance in Hinfo as [_ Hd].
    rewrite calculate_distance_great_circle, Hlat, Hlon in Hd. exact Hd. }
  rewrite <- calculate_distance_great_circle.
  split; [exact reference_pair|exact reference_pair_rounded].
Qed.

End DistanceFacts.

(** ** utils.py: the other helpers *)

Module HelpersFacts.

Import PyStr PyStrFacts Pandas Helpers.
Open Scope string_scope.

(** *** Stripping twice *)

Lemma lstrip_head (s : string) :
  match lstrip s with
  | EmptyString => True
  | String c _ => isspace c = false
  end.
Proof.
  induction s as [|c r IH]; simpl; [exact I|].
  destruct (isspace c) eqn:E; [exact IH|exact E].
Qed.

Lemma rstrip_idem (s : string) : rstrip (rstrip s) = rstrip s.
Proof.
  induction s as [|c r IH]; simpl; [reflexivity|].
  destruct (rstrip r) as [|c' r'] eqn:E.
  - destruct (isspace c) eqn:Hc; simpl; [reflexivity|].
    rewrite Hc. reflexivity.
  - simpl. simpl in IH. rewrite IH. reflexivity.
Qed.

Lemma lstrip_rstrip_head (c : ascii) (r : string) :
  isspace c = false -> lstrip (rstrip (String c r)) = rstrip (String c r).
Proof.
  intros Hc. simpl. destruct (rstrip r); rewrite ?Hc; simpl; rewrite Hc;
    reflexivity.
Qed.

Lemma strip_idem (s : string) : strip (strip s) = strip s.
Proof.
  unfold strip. pose proof (lstrip_head s) as H.
  destruct (lstrip s) as [|c r]; [reflexivity|].
  rewrite (lstrip_rstrip_head c r H). apply rstrip_idem.
Qed.

(** [format_disease_name] is idempotent: formatting a formatted name,
    expanded abbreviation or not, returns it unchanged. *)
Theorem format_disease_name_idempotent (x : cell) :
  format_disease_name (Str (format_disease_name x)) = format_disease_name x.
Proof.
  destruct x as [|s]; [reflexivity|]. unfold format_disease_name at 2 3.
  destruct (is_empty s); [reflexivity|].
  set (t := strip s). assert (Ht : strip t = t) by apply strip_idem.
  clearbody t. unfold abbreviations. cbn [dict_get].
  destruct (String.eqb_spec "GERD" t) as [<-|H1]; [reflexivity|].
  destruct (String.eqb_spec "AIDS" t) as [<-|H2]; [reflexivity|].
  destruct (String.eqb_spec "UTI" t) as [<-|H3]; [reflexivity|].
  unfold format_disease_name. destruct (is_empty t) eqn:He.
  - destruct t; [reflexivity|discriminate].
  - cbv zeta. rewrite Ht. unfold abbreviations. cbn [dict_get].
    apply String.eqb_neq in H1, H2, H3. rewrite H1, H2, H3. reflexivity.
Qed.

(** *** Jaccard score *)

Lemma mem_true_iff (x : string) (xs : list string) :
  mem x xs = true <-> In x xs.
Proof.
  unfold mem. destruct (in_dec string_dec x xs); split; auto; discriminate.
Qed.

Lemma intersection_le_union (us ds : list string) :
  (List.length (filter (fun s => mem s (pyset ds)) (pyset us))
   <= List.length (pyset (pyset us ++ pyset ds)))%nat.
Proof.
  apply NoDup_incl_length.
  - apply NoDup_filter, NoDup_nodup.
  - intros x Hx. apply filter_In in Hx as [Hx _].
    apply nodup_In, in_or_app. left. exact Hx.
Qed.

(** The match score is a number between 0 and 1. *)
Theorem calculate_symptom_match_score_bounds
  (user_symptoms disease_symptoms : list string) :
  (0 <= calculate_symptom_match_score user_symptoms disease_symptoms <= 1)%Q.
Proof.
  unfold calculate_symptom_match_score.
  destruct user_symptoms as [|u us]; [split; discriminate|].
  destruct disease_symptoms as [|d ds]; [split; discriminate|].
  set (U := map (fun s => strip (lower s)) (u :: us)).
  set (D := map (fun s => strip (lower s))
                (filter (fun s => negb (is_empty s)) (d :: ds))).
  pose proof (intersection_le_union U D) as Hle.
  set (i := List.length (filter (fun s => mem s (pyset D)) (pyset U))) in *.
  set (n := List.length (pyset (pyset U ++ pyset D))) in *.
  destruct (Nat.ltb_spec 0 n) as [Hn|Hn]; [|split; discriminate].
  assert (Hpos : (0 < inject_Z (Z.of_nat n))%Q).
  { change 0%Q with (inject_Z 0). rewrite <- Zlt_Qlt. lia. }
  split.
  - apply Qle_shift_div_l; [exact Hpos|]. rewrite Qmult_0_l.
    change 0%Q with (inject_Z 0). rewrite <- Zle_Qle. lia.
  - apply Qle_shift_div_r; [exact Hpos|]. rewrite Qmult_1_l.
    rewrite <- Zle_Qle. lia.
Qed.

(** Two non-empty symptom lists that name the same symptoms, whatever
    the order, the repetitions, the letter case and the surrounding
    whitespace, score 1. *)
Theorem calculate_symptom_match_score_same_set
  (user_symptoms disease_symptoms : list string) :
  user_symptoms <> [] -> disease_symptoms <> [] ->
  (forall s,
      In s (map (fun s => strip (lower s)) user_symptoms) <->
      In s (map (fun s => strip (lower s))
                (filter (fun s => negb (is_empty s)) disease_symptoms))) ->
  (calculate_symptom_match_score user_symptoms disease_symptoms == 1)%Q.
Proof.
  intros Hu Hd Hsame. unfold calculate_symptom_match_score.
  destruct user_symptoms as [|u us]; [contradiction|].
  destruct disease_symptoms as [|d ds]; [contradiction|].
  set (U := map (fun s => strip (lower s)) (u :: us)) in *.
  set (D := map (fun s => strip (lower s))
                (filter (fun s => negb (is_empty s)) (d :: ds))) in *.
  assert (Hfilter : filter (fun s => mem s (pyset D)) (pyset U) = pyset U).
  { apply forallb_filter_id. apply forallb_forall. intros x Hx.
    apply mem_true_iff, nodup_In, Hsame. apply nodup_In in Hx. exact Hx. }
  rewrite Hfilter.
  assert (Hlen : List.length (pyset (pyset U ++ pyset D))
                 = List.length (pyset U)).
  { apply Nat.le_antisymm; apply NoDup_incl_length;
      try apply NoDup_nodup.
    - intros x Hx. apply nodup_In in Hx. apply in_app_or in Hx as [Hx|Hx].
      + exact Hx.
      + apply nodup_In. apply nodup_In in Hx. apply Hsame, Hx.
    - intros x Hx. apply nodup_In, in_or_app. left. exact Hx. }
  rewrite Hlen.
  assert (Hpos : (0 < List.length (pyset U))%nat).
  { assert (Hin : In (strip (lower u)) (pyset U))
      by (apply nodup_In; left; reflexivity).
    destruct (pyset U); [contradiction|simpl; lia]. }
  destruct (Nat.ltb_spec 0 (List.length (pyset U))) as [_|Hn]; [|lia].
  apply Qmult_inv_r. intros H0.
  assert (Hq : (0 < inject_Z (Z.of_nat (List.length (pyset U))))%Q).
  { change 0%Q with (inject_Z 0). rewrite <- Zlt_Qlt. lia. }
  rewrite H0 in Hq. discriminate Hq.
Qed.

Lemma calculate_symptom_match_score_same_set_witness :
  (calculate_symptom_match_score ["Fever"; " cough "; "fever"]
                                 ["cough"; ""; "FEVER"] == 1)%Q.
Proof.
  apply calculate_symptom_match_score_same_set; try discriminate.
  intros s. simpl. tauto.
Defined.

(** *** Severity colours *)

(** A higher confidence never gets a less alarming colour. *)
Theorem get_severity_color_monotone (c1 c2 : Q) :
  (c1 <= c2)%Q ->
  severity (get_severity_color c1) <= severity (get_severity_color c2).
Proof.
  intros Hle. unfold get_severity_color.
  assert (Hmono : forall k, Qle_bool k c1 = true -> Qle_bool k c2 = true).
  { intros k Hk. apply Qle_bool_iff. apply Qle_bool_iff in Hk.
    apply Qle_trans with c1; assumption. }
  destruct (Qle_bool 70 c1) eqn:E70.
  { rewrite (Hmono _ E70). vm_compute. lia. }
  destruct (Qle_bool 50 c1) eqn:E50.
  { rewrite (Hmono _ E50). destruct (Qle_bool 70 c2); vm_compute; lia. }
  destruct (Qle_bool 30 c1) eqn:E30.
  { rewrite (Hmono _ E30).
    destruct (Qle_bool 70 c2), (Qle_bool 50 c2); vm_compute; lia. }
  destruct (Qle_bool 70 c2), (Qle_bool 50 c2), (Qle_bool 30 c2);
    vm_compute; lia.
Qed.

Lemma get_severity_color_monotone_witness :
  severity (get_severity_color 45) <= severity (get_severity_color (151 # 2)).
Proof.
  apply get_severity_color_monotone. discriminate.
Defined.

(** *** Emergency keywords *)

Lemma smap_app (f : ascii -> ascii) (a b : string) :
  smap f (a ++ b) = smap f a ++ smap f b.
Proof.
  induction a as [|c a IH]; simpl; [reflexivity|]. rewrite IH. reflexivity.
Qed.

Lemma prefix_app (k t b : string) :
  String.prefix k t = true -> String.prefix k (t ++ b) = true.
Proof.
  revert t. induction k as [|c k IH]; intros t H.
  - destruct (t ++ b); reflexivity.
  - destruct t as [|c' t]; [discriminate|]. simpl in *.
    destruct (ascii_dec c c'); [apply IH, H|discriminate].
Qed.

Lemma contains_app_r (k t b : string) :
  contains k t = true -> contains k (t ++ b) = true.
Proof.
  induction t as [|c t IH]; intros H.
  - simpl in H. rewrite orb_false_r in H. destruct k; [|discriminate].
    destruct b; reflexivity.
  - simpl in H. apply orb_true_iff in H as [H|H].
    + change (contains k (String c t ++ b))
        with (String.prefix k (String c t ++ b) || contains k (t ++ b)).
      rewrite (prefix_app k (String c t) b H). reflexivity.
    + change (contains k (String c t ++ b))
        with (String.prefix k (String c t ++ b) || contains k (t ++ b)).
      rewrite (IH H). apply orb_true_r.
Qed.

Lemma contains_app_l (k a t : string) :
  contains k t = true -> contains k (a ++ t) = true.
Proof.
  intros H. induction a as [|c a IH]; [exact H|].
  change (contains k (String c a ++ t))
    with (String.prefix k (String c a ++ t) || contains k (a ++ t)).
  rewrite IH. apply orb_true_r.
Qed.

(** A flagged text stays flagged inside any longer text. *)
Theorem check_emergency_symptoms_embedded (symptom_text before after : string) :
  check_emergency_symptoms symptom_text = true ->
  check_emergency_symptoms (before ++ symptom_text ++ after) = true.
Proof.
  unfold check_emergency_symptoms.
  destruct (is_empty symptom_text) eqn:He; [discriminate|].
  intros H.
  assert (Hne : is_empty (before ++ symptom_text ++ after) = false).
  { destruct before; [|reflexivity]. destruct symptom_text; [discriminate|].
    reflexivity. }
  rewrite Hne. apply existsb_exists in H as (k & Hk & Hc).
  apply existsb_exists. exists k. split; [exact Hk|].
  unfold lower. rewrite !smap_app. apply contains_app_l, contains_app_r, Hc.
Qed.

Lemma check_emergency_symptoms_embedded_witness :
  check_emergency_symptoms ("since noon: " ++ "Chest Pain" ++ " and nausea")
  = true.
Proof.
  apply (check_emergency_symptoms_embedded "Chest Pain"). reflexivity.
Defined.

(** *** Location input *)

Lemma location_char_not_digit (c : ascii) :
  location_char c = true -> isdigit c = false.
Proof. by_cases_on_char c. Qed.

(** An accepted location has at least three characters once stripped,
    consists of letters, whitespace, commas, full stops and hyphens, and
    so holds no digit: an address with a house number is rejected. *)
Theorem validate_location_input_accepts (location : string) :
  fst (validate_location_input location) = true ->
  3 <= String.length (strip location) /\
  sall location_char location = true /\
  sall (fun c => negb (isdigit c)) location = true.
Proof.
  unfold validate_location_input.
  destruct (is_empty location); [discriminate|]. simpl.
  destruct (Nat.ltb_spec (String.length (strip location)) 3) as [Hlt|Hge];
    [discriminate|].
  destruct (sall location_char location) eqn:Hall; [|discriminate].
  intros _. split; [exact Hge|]. split; [reflexivity|].
  revert Hall. apply sall_weaken. intros c Hc.
  rewrite (location_char_not_digit c Hc). reflexivity.
Qed.

Lemma validate_location_input_accepts_witness :
  3 <= String.length (strip "New York, NY") /\
  sall location_char "New York, NY" = true /\
  sall (fun c => negb (isdigit c)) "New York, NY" = true.
Proof.
  apply validate_location_input_accepts. reflexivity.
Defined.

End HelpersFacts.

(** ** app.py: the loaded tables *)

Module TablesFacts.

Import PyStr PyStrFacts Pandas Sklearn Assistant Samples.
Open Scope string_scope.

Lemma cell_eqb_eq (a b : cell) : cell_eqb a b = true <-> a = b.
Proof.
  destruct a as [|s], b as [|t]; simpl; split; try discriminate; auto.
  - intros H. apply String.eqb_eq in H. subst. reflexivity.
  - intros H. inversion H. apply String.eqb_refl.
Qed.

Lemma existsb_cell_eqb (c : cell) (seen : list cell) :
  existsb (cell_eqb c) seen = true <-> In c seen.
Proof.
  rewrite existsb_exists. split.
  - intros (x & Hx & E). apply cell_eqb_eq in E. subst. exact Hx.
  - intros H. exists c. split; [exact H|]. apply cell_eqb_eq. reflexivity.
Qed.

Lemma unique_In (l seen : list cell) (x : cell) :
  In x (unique seen l) <-> In x l /\ ~ In x seen.
Proof.
  revert seen. induction l as [|c r IH]; intros seen; simpl; [tauto|].
  destruct (existsb (cell_eqb c) seen) eqn:E.
  - apply existsb_cell_eqb in E. rewrite IH. split.
    + intros [H1 H2]. auto.
    + intros [[->|H1] H2]; [contradiction|auto].
  - assert (Hc : ~ In c seen).
    { intros H. apply existsb_cell_eqb in H. congruence. }
    simpl. rewrite IH. simpl. split.
    + intros [<-|[H1 H2]]; auto.
    + intros [[<-|H1] H2]; [auto|].
      destruct (cell_eqb c x) eqn:Ex.
      * apply cell_eqb_eq in Ex. auto.
      * right. split; [exact H1|]. intros [->|H]; [|contradiction].
        assert (cell_eqb x x = true) by (apply cell_eqb_eq; reflexivity).
        congruence.
Qed.

Lemma unique_NoDup (l seen : list cell) : NoDup (unique seen l).
Proof.
  revert seen. induction l as [|c r IH]; intros seen; simpl; [constructor|].
  destruct (existsb (cell_eqb c) seen); [apply IH|].
  constructor; [|apply IH].
  intros H. apply unique_In in H as [_ H]. apply H. left. reflexivity.
Qed.

(** After [clean_data], [diseases_list] names every disease of the
    Disease column exactly once. *)
Theorem clean_data_diseases_list (self a : HealthcareAssistant) :
  clean_data self = inr a ->
  exists df d,
    diseases_df self = Some df /\
    index_of "Disease" (columns df) = Some d /\
    NoDup (diseases_list a) /\
    forall c, In c (diseases_list a) <-> In c (map (cell_at d) (rows df)).
Proof.
  unfold clean_data, column. intros H.
  destruct (diseases_df self) as [df|]; [|discriminate].
  destruct (index_of "Disease" (columns df)) as [d|] eqn:Hd; [|discriminate].
  simpl in H.
  destruct (all_columns df (symptom_positions 0 (columns df))); simpl in H;
    [discriminate|].
  inversion H; subst; simpl. exists df, d.
  split; [reflexivity|]. split; [exact Hd|].
  split; [apply unique_NoDup|].
  intros c. rewrite unique_In. simpl. tauto.
Qed.

Lemma clean_data_diseases_list_witness :
  exists df d,
    diseases_df cold_flu_loaded = Some df /\
    index_of "Disease" (columns df) = Some d /\
    NoDup (diseases_list cold_flu_cleaned) /\
    forall c, In c (diseases_list cold_flu_cleaned)
              <-> In c (map (cell_at d) (rows df)).
Proof.
  apply (clean_data_diseases_list cold_flu_loaded cold_flu_cleaned).
  reflexivity.
Defined.

(** *** The sorted list of symptoms *)

Lemma str_lt_trans (x y z : string) : str_lt x y -> str_lt y z -> str_lt x z.
Proof.
  unfold str_lt. intros H1 H2.
  apply OrderedTypeEx.String_as_OT.cmp_lt.
  apply OrderedTypeEx.String_as_OT.cmp_lt in H1, H2.
  exact (OrderedTypeEx.String_as_OT.lt_trans _ _ _ H1 H2).
Qed.

Lemma str_lt_irrefl (x : string) : ~ str_lt x x.
Proof.
  unfold str_lt. intros H.
  apply OrderedTypeEx.String_as_OT.cmp_lt in H.
  exact (OrderedTypeEx.String_as_OT.lt_not_eq _ _ H eq_refl).
Qed.

Lemma insert_sorted_In (s x : string) (l : list string) :
  In x (insert_sorted s l) <-> x = s \/ In x l.
Proof.
  induction l as [|t r IH]; simpl; [intuition|].
  destruct (String.compare s t) eqn:E; simpl.
  - apply String.compare_eq_iff in E. subst. intuition.
  - intuition.
  - rewrite IH. intuition.
Qed.

Lemma insert_sorted_sorted (s : string) (l : list string) :
  Sorted str_lt l -> Sorted str_lt (insert_sorted s l).
Proof.
  induction l as [|t r IH]; simpl; intros H; [repeat constructor|].
  destruct (String.compare s t) eqn:E.
  - exact H.
  - constructor; [exact H|]. constructor. exact E.
  - inversion H as [|? ? Hr Hhd]; subst.
    assert (Hts : str_lt t s).
    { unfold str_lt. rewrite String.compare_antisym, E. reflexivity. }
    constructor; [apply IH, Hr|].
    destruct r as [|u r]; simpl; [constructor; exact Hts|].
    destruct (String.compare s u); [exact Hhd|constructor; exact Hts|].
    inversion Hhd; subst. constructor. assumption.
Qed.

Lemma sorted_set_sorted (l : list string) : Sorted str_lt (sorted_set l).
Proof.
  unfold sorted_set. induction l as [|s l IH]; simpl; [constructor|].
  apply insert_sorted_sorted, IH.
Qed.

Lemma sorted_set_In (l : list string) (x : string) :
  In x (sorted_set l) <-> In x l.
Proof.
  unfold sorted_set. induction l as [|s l IH]; simpl; [tauto|].
  rewrite insert_sorted_In, IH. intuition.
Qed.

Lemma strict_sorted_NoDup (l : list string) :
  StronglySorted str_lt l -> NoDup l.
Proof.
  induction 1 as [|x l Hl IH Hx]; constructor; [|exact IH].
  intros Hin. rewrite Forall_forall in Hx.
  exact (str_lt_irrefl x (Hx x Hin)).
Qed.

Lemma replace_char_nonempty (s : string) :
  is_empty s = false -> is_empty (replace_char "_" " " s) = false.
Proof. destruct s; [discriminate|reflexivity]. Qed.

(** After [clean_data], [symptoms_list] is in strictly ascending order,
    so it holds no symptom twice, and none of its members is empty or
    contains an underscore. *)
Theorem clean_data_symptoms_list (self a : HealthcareAssistant) :
  clean_data self = inr a ->
  StronglySorted str_lt (symptoms_list a) /\
  NoDup (symptoms_list a) /\
  Forall (fun s => is_empty s = false /\ sall not_underscore s = true)
         (symptoms_list a).
Proof.
  unfold clean_data. intros H.
  destruct (diseases_df self) as [df|]; [|discriminate].
  destruct (column df "Disease") as [e|d]; simpl in H; [discriminate|].
  destruct (all_columns df (symptom_positions 0 (columns df)))
    as [e|all_symptoms]; simpl in H; [discriminate|].
  inversion H; subst; simpl. clear H.
  assert (Hs : StronglySorted str_lt
                 (sorted_set
                    (map (fun s => replace_char "_" " " (strip s))
                       (filter (fun s => negb (is_empty s)
                                         && negb (is_empty (strip s)))
                               all_symptoms)))).
  { apply Sorted_StronglySorted; [|apply sorted_set_sorted].
    intros x y z. apply str_lt_trans. }
  split; [exact Hs|]. split; [apply strict_sorted_NoDup, Hs|].
  apply Forall_forall. intros s Hin.
  apply (proj1 (sorted_set_In _ _)) in Hin.
  apply in_map_iff in Hin as (raw & <- & Hraw).
  apply filter_In in Hraw as [_ Hraw]. apply andb_prop in Hraw as [_ Hraw].
  apply negb_true_iff in Hraw. split.
  - apply replace_char_nonempty, Hraw.
  - apply not_underscore_replace_char.
Qed.

Lemma clean_data_symptoms_list_witness :
  StronglySorted str_lt (symptoms_list cold_flu_cleaned) /\
  NoDup (symptoms_list cold_flu_cleaned) /\
  Forall (fun s => is_empty s = false /\ sall not_underscore s = true)
         (symptoms_list cold_flu_cleaned).
Proof.
  apply (clean_data_symptoms_list cold_flu_loaded cold_flu_cleaned).
  reflexivity.
Defined.

End TablesFacts.

(** ** app.py: training data and start-up invariants *)

Module StartupFacts.

Import PyStr PyStrFacts Pandas Sklearn Assistant Helpers Validation Samples.
Open Scope string_scope.

Lemma row_symptoms_nonempty (df : DataFrame) (row : list cell) :
  Forall (fun s => is_empty s = false) (row_symptoms df row).
Proof.
  unfold row_symptoms. apply Forall_forall. intros s Hs.
  apply in_flat_map in Hs as (i & _ & Hs).
  destruct (cell_at i row) as [|raw]; [destruct Hs|].
  destruct (is_empty (replace_char "_" " " (strip raw))) eqn:E;
    [destruct Hs|].
  destruct Hs as [<-|[]]. exact E.
Qed.

Lemma join_nonempty (s : string) (ss : list string) :
  is_empty s = false -> is_empty (join " " (s :: ss)) = false.
Proof.
  intros H. destruct s; [discriminate|]. destruct ss; reflexivity.
Qed.

(** The training set [prepare_model] builds: one document per row that
    has at least one symptom, in row order, each paired with the Disease
    cell of its row (repeated diseases are kept); no document is empty. *)
Theorem training_data_aligned (df : DataFrame) (rs : list (list cell))
  (X_train : list string) (y_train : list cell) :
  training_data df rs = inr (X_train, y_train) ->
  X_train = map (fun row => join " " (row_symptoms df row))
                (filter (usable df) rs) /\
  Forall2 (fun row label =>
             exists d, index_of "Disease" (columns df) = Some d /\
                       label = cell_at d row)
          (filter (usable df) rs) y_train /\
  List.length X_train = List.length y_train /\
  (List.length X_train <= List.length rs)%nat /\
  Forall (fun doc => is_empty doc = false) X_train.
Proof.
  revert X_train y_train.
  induction rs as [|row rest IH]; intros X y H; simpl in H.
  - inversion H; subst. simpl. repeat split; constructor.
  - unfold column in H.
    destruct (index_of "Disease" (columns df)) as [d|] eqn:Hd;
      simpl in H; [|discriminate].
    destruct (training_data df rest) as [e|[X' y']]; simpl in H;
      [discriminate|].
    destruct (IH X' y' eq_refl) as (HX & Hy & Hlen & Hle & Hne).
    pose proof (row_symptoms_nonempty df row) as Hrow.
    assert (Hu : usable df row = match row_symptoms df row with
                                 | [] => false
                                 | _ :: _ => true
                                 end) by reflexivity.
    simpl filter.
    destruct (row_symptoms df row) as [|s ss] eqn:Es; rewrite Hu;
      inversion H; subst X y; clear H.
    + split; [exact HX|]. split; [exact Hy|]. split; [exact Hlen|].
      split; [simpl; lia|exact Hne].
    + simpl. split; [rewrite Es, HX; reflexivity|].
      split; [constructor; [exists d; auto|exact Hy]|].
      split; [rewrite Hlen; reflexivity|]. split; [lia|].
      constructor; [|exact Hne]. apply join_nonempty.
      inversion Hrow; assumption.
Qed.

Lemma training_data_aligned_witness :
  ["cough sneezing"; "fever cough"]
  = map (fun row => join " " (row_symptoms cold_flu_table row))
        (filter (usable cold_flu_table) (rows cold_flu_table)) /\
  Forall2 (fun row label =>
             exists d, index_of "Disease" (columns cold_flu_table) = Some d /\
                       label = cell_at d row)
          (filter (usable cold_flu_table) (rows cold_flu_table))
          [Str "Cold"; Str "Flu"] /\
  List.length ["cough sneezing"; "fever cough"]
  = List.length [Str "Cold"; Str "Flu"] /\
  (List.length ["cough sneezing"; "fever cough"]
   <= List.length (rows cold_flu_table))%nat /\
  Forall (fun doc => is_empty doc = false) ["cough sneezing"; "fever cough"].
Proof.
  apply (training_data_aligned cold_flu_table (rows cold_flu_table)).
  reflexivity.
Defined.

(** *** State after the constructor *)

Lemma handled_cases (e : exn) (self s : HealthcareAssistant) :
  handled e self = inr s -> s = self.
Proof.
  unfold handled. destruct (exn_eqb e FileNotFoundError); intros H;
    inversion H; reflexivity.
Qed.

Lemma clean_data_keeps (self a : HealthcareAssistant) :
  clean_data self = inr a ->
  diseases_df a = diseases_df self /\ precautions_df a = precautions_df self /\
  model a = model self.
Proof.
  unfold clean_data. intros H.
  destruct (diseases_df self) as [df|] eqn:Hdf; [|discriminate].
  destruct (column df "Disease"); simpl in H; [discriminate|].
  destruct (all_columns df (symptom_positions 0 (columns df)));
    simpl in H; [discriminate|].
  inversion H; subst; simpl. auto.
Qed.

Lemma load_data_cases (fs : Files) (s : HealthcareAssistant) :
  load_data fs blank = inr s ->
  s = blank \/
  (exists d, diseases_csv fs = Parsed d /\ diseases_df s = Some d /\
             model s = None /\
             (precautions_df s = None \/
              exists p, precautions_csv fs = Parsed p /\
                        precautions_df s = Some p)).
Proof.
  unfold load_data. intros H.
  destruct (diseases_csv fs) as [|e|d]; simpl in H.
  - left. apply handled_cases in H. exact H.
  - left. apply handled_cases in H. exact H.
  - right. exists d. split; [reflexivity|].
    destruct (precautions_csv fs) as [|e|p]; simpl in H.
    + apply handled_cases in H. subst s. simpl. auto.
    + apply handled_cases in H. subst s. simpl. auto.
    + match type of H with
      | match clean_data ?x with _ => _ end = _ =>
          destruct (clean_data x) as [e|a] eqn:Hc
      end.
      * apply handled_cases in H. subst s. simpl.
        repeat split; auto. right. exists p. auto.
      * inversion H; subst a. apply clean_data_keeps in Hc as (H1 & H2 & H3).
        simpl in *. repeat split; auto. right. exists p. auto.
Qed.

(** Whenever the constructor returns, the assistant has a pipeline
    exactly when it has the disease table: without the table it is the
    blank assistant, and with it the pipeline is the one [prepare_model]
    trains on that table. *)
Theorem init_model_iff_table
  (fit : list string -> list cell -> result Fitted) (fs : Files)
  (a : HealthcareAssistant) :
  init fit fs = inr a ->
  (diseases_df a = None /\ a = blank) \/
  (exists d m, diseases_csv fs = Parsed d /\ diseases_df a = Some d /\
               train fit d = inr m /\ model a = Some m).
Proof.
  unfold init. intros H.
  destruct (load_data fs blank) as [e|s] eqn:Hload; simpl in H; [discriminate|].
  apply load_data_cases in Hload as [->|(d & Hfile & Hdf & Hm & _)].
  - left. inversion H. split; reflexivity.
  - right. unfold prepare_model in H. rewrite Hdf in H.
    destruct (train fit d) as [e|m] eqn:Ht; simpl in H; [discriminate|].
    inversion H; subst a. exists d, m. simpl. repeat split; auto.
Qed.

Lemma init_model_iff_table_witness :
  (diseases_df blank = None /\ blank = blank) \/
  (exists d m,
      diseases_csv {| diseases_csv := Missing; precautions_csv := Missing |}
      = Parsed d /\ diseases_df blank = Some d /\
      train sample_fit d = inr m /\ model blank = Some m).
Proof.
  apply (init_model_iff_table sample_fit
           {| diseases_csv := Missing; precautions_csv := Missing |} blank).
  reflexivity.
Defined.

(** *** Validation and start-up *)

Lemma training_data_lengths (df : DataFrame) (rs : list (list cell))
  (xy : list string * list cell) :
  training_data df rs = inr xy ->
  List.length (fst xy) = List.length (filter (usable df) rs) /\
  List.length (snd xy) = List.length (filter (usable df) rs).
Proof.
  revert xy. induction rs as [|row rest IH]; intros xy H; simpl in H.
  - inversion H. split; reflexivity.
  - destruct (column df "Disease") as [e|d]; simpl in H; [discriminate|].
    destruct (training_data df rest) as [e|xy'] eqn:E; simpl in H;
      [discriminate|].
    destruct (IH xy' eq_refl) as [HX Hy].
    simpl filter.
    assert (Hu : usable df row = match row_symptoms df row with
                                 | [] => false
                                 | _ :: _ => true
                                 end) by reflexivity.
    rewrite Hu. clear Hu.
    destruct (row_symptoms df row); inversion H; subst; simpl;
      rewrite HX, Hy; split; reflexivity.
Qed.

(** The pipeline [prepare_model] builds is unfitted exactly when no row
    of the table has a symptom. *)
Lemma train_unfitted (fit : list string -> list cell -> result Fitted)
  (df : DataFrame) (m : Pipeline) :
  train fit df = inr m ->
  (m = Unfitted <-> filter (usable df) (rows df) = []).
Proof.
  unfold train. intros H.
  destruct (training_data df (rows df)) as [e|xy] eqn:E; simpl in H;
    [discriminate|].
  destruct (training_data_lengths df (rows df) xy E) as [HX Hy].
  destruct (fst xy) as [|x X], (snd xy) as [|y Y]; simpl in *;
    try (destruct (filter (usable df) (rows df)); discriminate).
  - inversion H. split; [intros _|reflexivity].
    destruct (filter (usable df) (rows df)); [reflexivity|discriminate].
  - destruct (fit (x :: X) (y :: Y)) as [e|f]; simpl in H; [discriminate|].
    inversion H. split; [discriminate|].
    destruct (filter (usable df) (rows df)); discriminate.
Qed.

(** When [validate_data_files] accepts the files, both parse to tables
    with at least one row and one column, and every start-up that
    returns has both tables and the pipeline [prepare_model] builds from
    the disease table.  That pipeline is unfitted exactly when no row of
    the disease table has a symptom: validation does not exclude this
    mode. *)
Theorem validate_data_files_accepts (fs : Files) :
  validate_data_files fs = true ->
  exists d p,
    diseases_csv fs = Parsed d /\ precautions_csv fs = Parsed p /\
    df_empty d = false /\ df_empty p = false /\
    forall fit a, init fit fs = inr a ->
      diseases_df a = Some d /\ precautions_df a = Some p /\
      exists m, model a = Some m /\ train fit d = inr m /\
                (m = Unfitted <-> filter (usable d) (rows d) = []).
Proof.
  unfold validate_data_files. destruct fs as [df pf]. simpl.
  destruct df as [|e|d]; simpl.
  - destruct pf as [|e|p]; simpl; try discriminate.
    + destruct (exn_eqb e FileNotFoundError); discriminate.
    + destruct (df_empty p); discriminate.
  - destruct (exn_eqb e FileNotFoundError); [|discriminate].
    destruct pf as [|e'|p]; simpl; try discriminate.
    + destruct (exn_eqb e' FileNotFoundError); discriminate.
    + destruct (df_empty p); discriminate.
  - destruct (df_empty d) eqn:Hd; [discriminate|].
    destruct pf as [|e|p]; simpl; try discriminate.
    + destruct (exn_eqb e FileNotFoundError); discriminate.
    + destruct (df_empty p) eqn:Hp; [discriminate|]. intros _.
      exists d, p. split; [reflexivity|]. split; [reflexivity|].
      split; [exact Hd|]. split; [exact Hp|]. intros fit a Hinit.
      rewrite AssistantFacts.init_parsed in Hinit.
      destruct (clean_data _) as [e|c];
        [destruct (exn_eqb e FileNotFoundError); [|discriminate]|];
        destruct (train fit d) as [e'|m] eqn:Ht; simpl in Hinit;
        try discriminate; inversion Hinit; subst a; simpl;
        (split; [reflexivity|]); (split; [reflexivity|]);
        exists m; (split; [reflexivity|]); (split; [reflexivity|]);
        apply (train_unfitted fit d m Ht).
Qed.

Lemma validate_data_files_accepts_witness :
  exists d p,
    diseases_csv both_files = Parsed d /\
    precautions_csv both_files = Parsed p /\
    df_empty d = false /\ df_empty p = false /\
    forall fit a, init fit both_files = inr a ->
      diseases_df a = Some d /\ precautions_df a = Some p /\
      exists m, model a = Some m /\ train fit d = inr m /\
                (m = Unfitted <-> filter (usable d) (rows d) = []).
Proof.
  apply validate_data_files_accepts. reflexivity.
Defined.

End StartupFacts.

(** ** app.py: more on the ranking *)

Module RankingMore.

Import Sklearn Predict SortedFacts PredictFacts SklearnFacts Sample.
Open Scope Q_scope.

Lemma StronglySorted_app_inv {A : Type} (R : A -> A -> Prop) (l1 l2 : list A) :
  StronglySorted R (l1 ++ l2) ->
  forall a b, In a l1 -> In b l2 -> R a b.
Proof.
  induction l1 as [|x l1 IH]; simpl; intros H a b Ha Hb; [destruct Ha|].
  inversion H as [|? ? Hl Hx]; subst. destruct Ha as [<-|Ha].
  - rewrite Forall_forall in Hx. apply Hx, in_or_app. right. exact Hb.
  - apply IH; assumption.
Qed.

Section Ranking.

Context {np : Argsort}.

Lemma collect_labels (cls : list string) (v : list Q) (idxs : list nat)
  (r : list string * list Q) :
  collect cls v idxs = inr r ->
  Forall2 (fun d i => nth_error cls i = Some d)
          (fst r) (filter (shown v) idxs).
Proof.
  revert r. induction idxs as [|i rest IH]; simpl; intros r H.
  - inversion H. constructor.
  - destruct (shown v i); [|apply IH, H].
    destruct (nth_error cls i) as [c|] eqn:Hi; [|discriminate].
    destruct (collect cls v rest) as [e|r'] eqn:E; simpl in H; [discriminate|].
    inversion H; subst. simpl. constructor; [exact Hi|].
    apply IH. reflexivity.
Qed.

Lemma top_indices_NoDup (v : list Q) : NoDup (top_indices v).
Proof.
  unfold top_indices, last_n. apply NoDup_rev.
  assert (H : NoDup (argsort v)).
  { apply (Permutation_NoDup (Permutation_sym (argsort_perm v))).
    apply seq_NoDup. }
  rewrite <- (firstn_skipn (List.length (argsort v) - top_k) (argsort v)) in H.
  apply NoDup_app_remove_l in H. exact H.
Qed.

Lemma labels_NoDup (cls labels : list string) (idxs : list nat) :
  NoDup cls -> NoDup idxs ->
  Forall2 (fun d i => nth_error cls i = Some d) labels idxs ->
  NoDup labels.
Proof.
  intros Hcls Hidx H. induction H as [|d i labels idxs Hd Htail IH];
    [constructor|].
  inversion Hidx as [|? ? Hi Hrest]; subst.
  constructor; [|apply IH, Hrest].
  intros Hin. apply Hi. clear IH Hi Hrest Hidx.
  induction Htail as [|d' j labels idxs Hd' _ IH']; [destruct Hin|].
  destruct Hin as [->|Hin]; [|right; apply IH', Hin].
  left. symmetry. apply (proj1 (NoDup_nth_error cls) Hcls).
  - apply nth_error_Some. rewrite Hd. discriminate.
  - rewrite Hd, Hd'. reflexivity.
Qed.

(** No disease is listed twice: when the class labels of the fitted
    pipeline are distinct, so are the labels [predict_disease] returns. *)
Theorem predict_disease_distinct (model : option Pipeline) (text : string) :
  (forall f, model = Some (FittedPipeline f) -> NoDup (classes_ f)) ->
  NoDup (fst (predict_disease model text)).
Proof.
  intros Hcls.
  destruct (predict_disease_cases model text)
    as [->|(f & probs & r & Hm & Hp & Hc & ->)]; [constructor|].
  apply (labels_NoDup (classes_ f) (fst r)
           (filter (shown probs) (top_indices probs))).
  - apply Hcls, Hm.
  - apply NoDup_filter, top_indices_NoDup.
  - apply collect_labels, Hc.
Qed.

(** The first disease returned has the largest posterior of all classes:
    no class has a probability whose percentage exceeds the first
    confidence. *)
Theorem predict_disease_first_is_largest (f : Fitted) (text : string)
  (probs : list Q) (d : string) (c : Q) (ds : list string) (cs : list Q) :
  predict_proba (FittedPipeline f) text = inr probs ->
  predict_disease (Some (FittedPipeline f)) text = (d :: ds, c :: cs) ->
  Forall (fun p => p * 100 <= c) probs.
Proof.
  intros Hp Hr. simpl in Hp, Hr. unfold predict_disease_try in Hr.
  simpl in Hr. rewrite Hp in Hr. simpl in Hr. unfold rank in Hr.
  destruct (collect (classes_ f) probs (top_indices probs)) as [e|r] eqn:Hc;
    [discriminate|].
  subst r. apply collect_confidences in Hc. simpl in Hc.
  destruct probs as [|p0 probs']; [constructor|].
  destruct (top_indices_head (p0 :: probs')) as (i & rest & Htop & Hmax);
    [discriminate|].
  rewrite Htop in Hc. simpl in Hc.
  assert (Hrest : forall j, In j rest ->
                    at_index (p0 :: probs') j <= at_index (p0 :: probs') i).
  { intros j Hj. apply Hmax. apply top_indices_in_range.
    rewrite Htop. right. exact Hj. }
  destruct (shown (p0 :: probs') i) eqn:Hi.
  - inversion Hc; subst c. apply Forall_forall. intros p Hin.
    apply (In_nth _ _ 0) in Hin as (j & Hj & <-).
    apply Qmult_le_compat_r; [|discriminate]. apply Hmax, Hj.
  - exfalso. assert (Hnone : filter (shown (p0 :: probs')) rest = []).
    { apply PrecautionsFacts.filter_none_in. intros j Hj.
      destruct (shown (p0 :: probs') j) eqn:Hs; [|reflexivity].
      apply shown_iff in Hs.
      assert (Hi' : shown (p0 :: probs') i = true).
      { apply shown_iff. apply Qlt_le_trans with (1 := Hs). apply Hrest, Hj. }
      congruence. }
    rewrite Hnone in Hc. discriminate.
Qed.

Lemma Forall2_In_r {A B : Type} (R : A -> B -> Prop) (la : list A)
  (lb : list B) (b : B) :
  Forall2 R la lb -> In b lb -> exists a, In a la /\ R a b.
Proof.
  induction 1 as [|x y la lb Hxy _ IH]; intros Hin; [destruct Hin|].
  destruct Hin as [<-|Hin].
  - exists x. split; [left; reflexivity|exact Hxy].
  - destruct (IH Hin) as (a & Ha & HR). exists a. split; [right|]; assumption.
Qed.

(** A class whose posterior exceeds the threshold is left out only when
    five diseases are returned, each with a confidence at least as high
    as that class would have. *)
Theorem predict_disease_complete (f : Fitted) (text : string)
  (probs : list Q) (j : nat) :
  predict_proba (FittedPipeline f) text = inr probs ->
  List.length (classes_ f) = List.length probs ->
  (j < List.length probs)%nat ->
  min_confidence < at_index probs j ->
  (exists d, nth_error (classes_ f) j = Some d /\
             In d (fst (predict_disease (Some (FittedPipeline f)) text))) \/
  (List.length (fst (predict_disease (Some (FittedPipeline f)) text)) = top_k /\
   Forall (fun c => at_index probs j * 100 <= c)
          (snd (predict_disease (Some (FittedPipeline f)) text))).
Proof.
  intros Hp Hlen Hj Hshown. simpl in Hp. simpl predict_disease.
  unfold predict_disease_try. simpl. rewrite Hp. simpl. unfold rank.
  destruct (collect_total (classes_ f) probs (top_indices probs)) as [r Hc].
  { apply Forall_forall. intros i Hi. rewrite Hlen.
    apply top_indices_in_range, Hi. }
  rewrite Hc. pose proof (collect_labels _ _ _ _ Hc) as Hlabels.
  pose proof (collect_confidences _ _ _ _ Hc) as Hconfs.
  apply shown_iff in Hshown.
  assert (Hin : In j (argsort probs)).
  { apply (Permutation_in _ (Permutation_sym (argsort_perm probs))).
    apply in_seq. lia. }
  pose proof (argsort_ascending probs) as Hsorted.
  unfold top_indices, last_n in *.
  set (k := (List.length (argsort probs) - top_k)%nat) in *.
  rewrite <- (firstn_skipn k (argsort probs)) in Hin, Hsorted.
  apply in_app_or in Hin as [Hfirst|Hlast].
  - right.
    assert (Hall : forall b, In b (rev (skipn k (argsort probs))) ->
                     at_index probs j <= at_index probs b).
    { intros b Hb. apply in_rev in Hb.
      exact (StronglySorted_app_inv _ _ _ Hsorted j b Hfirst Hb). }
    assert (Hkeep : filter (shown probs) (rev (skipn k (argsort probs)))
                    = rev (skipn k (argsort probs))).
    { apply forallb_filter_id, forallb_forall. intros b Hb.
      apply shown_iff. apply shown_iff in Hshown.
      apply Qlt_le_trans with (1 := Hshown). apply Hall, Hb. }
    rewrite Hkeep in Hlabels, Hconfs. split.
    + rewrite (Forall2_length Hlabels), length_rev, length_skipn.
      assert (Hk : (0 < k)%nat).
      { destruct k; [destruct Hfirst|lia]. }
      unfold k in *. unfold top_k in *. lia.
    + rewrite Hconfs. apply Forall_map, Forall_forall. intros b Hb.
      apply Qmult_le_compat_r; [|discriminate]. apply Hall, Hb.
  - left.
    assert (Hjin : In j (filter (shown probs) (rev (skipn k (argsort probs))))).
    { apply filter_In. split; [|exact Hshown].
      apply (proj1 (in_rev _ _)), Hlast. }
    destruct (Forall2_In_r _ _ _ _ Hlabels Hjin) as (d & Hd & Hnth).
    exists d. auto.
Qed.

End Ranking.

(** *** On the sample pipeline *)

Lemma predict_disease_distinct_witness :
  NoDup (fst (predict_disease (Some (FittedPipeline cold_flu)) "fever cough")).
Proof.
  apply predict_disease_distinct. intros f Hf. inversion Hf.
  simpl. repeat constructor; simpl; intuition discriminate.
Defined.

Lemma predict_disease_first_is_largest_witness :
  Forall (fun p => p * 100 <= 200 # 3) [1 # 3; 2 # 3].
Proof.
  apply (predict_disease_first_is_largest cold_flu "fever cough"
           [1 # 3; 2 # 3] "Flu"%string (200 # 3) ["Cold"%string] [100 # 3]);
    reflexivity.
Defined.

Lemma predict_disease_complete_witness :
  (exists d, nth_error (classes_ cold_flu) 0 = Some d /\
             In d (fst (predict_disease (Some (FittedPipeline cold_flu))
                          "fever cough"))) \/
  (List.length (fst (predict_disease (Some (FittedPipeline cold_flu))
                       "fever cough")) = top_k /\
   Forall (fun c => at_index [1 # 3; 2 # 3] 0 * 100 <= c)
          (snd (predict_disease (Some (FittedPipeline cold_flu))
                  "fever cough"))).
Proof.
  apply (predict_disease_complete cold_flu "fever cough" [1 # 3; 2 # 3] 0);
    try reflexivity.
  simpl. lia.
Defined.

End RankingMore.

(** ** location_service.py: more on distances *)

Module DistanceMore.

Import Location LocationNotions DistanceFacts.
Open Scope string_scope.
Open Scope R_scope.

Lemma sin_half_sq (x : R) : sin (x / 2) ^ 2 = (1 - cos x) / 2.
Proof. rewrite <- hav_sin. reflexivity. Qed.

Lemma hav_arg_range (lat1 lon1 lat2 lon2 : R) :
  0 <= hav_arg lat1 lon1 lat2 lon2 <= 1.
Proof.
  unfold hav_arg. rewrite !sin_half_sq.
  set (p1 := radians lat1). set (p2 := radians lat2).
  set (dl := radians lon2 - radians lon1).
  rewrite cos_minus.
  pose proof (sin2_cos2 p1) as H1. pose proof (sin2_cos2 p2) as H2.
  pose proof (COS_bound dl) as [Hc1 Hc2].
  unfold Rsqr in H1, H2.
  set (x1 := sin p1) in *. set (y1 := cos p1) in *.
  set (x2 := sin p2) in *. set (y2 := cos p2) in *.
  set (c := cos dl) in *.
  assert (Hs : (1 - (y2 * y1 + x2 * x1)) / 2 + y1 * y2 * ((1 - c) / 2)
               = (1 - (x1 * x2 + y1 * y2 * c)) / 2) by field.
  rewrite Hs.
  assert (Hcc : 0 <= 1 - c * c).
  { replace (1 - c * c) with ((1 - c) * (1 + c)) by ring.
    apply Rmult_le_pos; lra. }
  assert (Hy : y2 * c * (y2 * c) <= y2 * y2).
  { pose proof (Rmult_le_pos _ _ (Rle_0_sqr y2) Hcc) as H.
    unfold Rsqr in H. lra. }
  assert (Hup : x1 * x2 + y1 * y2 * c <= 1).
  { pose proof (Rle_0_sqr (x1 - x2)) as A.
    pose proof (Rle_0_sqr (y1 - y2 * c)) as B.
    unfold Rsqr in A, B. lra. }
  assert (Hlo : -1 <= x1 * x2 + y1 * y2 * c).
  { pose proof (Rle_0_sqr (x1 + x2)) as A.
    pose proof (Rle_0_sqr (y1 + y2 * c)) as B.
    unfold Rsqr in A, B. lra. }
  split; lra.
Qed.

Lemma asin_nonneg (y : R) : 0 <= y <= 1 -> 0 <= asin y.
Proof.
  intros Hy. pose proof PI_bounds as [HP _].
  apply asin_lower; [lra|lra|]. rewrite sin_0. lra.
Qed.

Lemma calculate_distance_range (lat1 lon1 lat2 lon2 : R) :
  0 <= _calculate_distance lat1 lon1 lat2 lon2 <= 6371 * PI.
Proof.
  unfold _calculate_distance.
  pose proof (hav_arg_range lat1 lon1 lat2 lon2) as [Ha0 Ha1].
  unfold hav_arg in Ha0, Ha1.
  set (a := sin ((radians lat2 - radians lat1) / 2) ^ 2
            + cos (radians lat1) * cos (radians lat2)
              * sin ((radians lon2 - radians lon1) / 2) ^ 2) in *.
  assert (Hs : 0 <= sqrt a <= 1).
  { split; [apply sqrt_pos|]. rewrite <- sqrt_1. apply sqrt_le_1_alt, Ha1. }
  pose proof (asin_nonneg _ Hs) as H0.
  pose proof (asin_bound (sqrt a)) as [_ H1]. split; lra.
Qed.

Lemma calculate_distance_sym (lat1 lon1 lat2 lon2 : R) :
  _calculate_distance lat1 lon1 lat2 lon2
  = _calculate_distance lat2 lon2 lat1 lon1.
Proof.
  unfold _calculate_distance. do 3 f_equal. f_equal.
  rewrite !sin_half_sq.
  replace (radians lat1 - radians lat2) with (- (radians lat2 - radians lat1))
    by ring.
  replace (radians lon1 - radians lon2) with (- (radians lon2 - radians lon1))
    by ring.
  rewrite !cos_neg. ring.
Qed.

Lemma calculate_distance_same (lat lon : R) :
  _calculate_distance lat lon lat lon = 0.
Proof.
  unfold _calculate_distance.
  replace ((radians lat - radians lat) / 2) with 0 by field.
  replace ((radians lon - radians lon) / 2) with 0 by field.
  rewrite sin_0.
  replace (0 ^ 2 + cos (radians lat) * cos (radians lat) * 0 ^ 2) with 0
    by (simpl; ring).
  rewrite sqrt_0, asin_0. ring.
Qed.

Lemma round_half_even_nonneg (y : R) : 0 <= y -> (0 <= round_half_even y)%Z.
Proof.
  intros Hy. unfold round_half_even.
  assert (H : (0 <= Zfloor y)%Z) by (apply Zfloor_lub; simpl; lra).
  destruct (Rlt_dec (y - IZR (Zfloor y)) (1 / 2)); [exact H|].
  destruct (Rlt_dec (1 / 2) (y - IZR (Zfloor y))); [lia|].
  destruct (Z.even (Zfloor y)); lia.
Qed.

Lemma round1_close (x : R) : -0.05 <= round1 x - x <= 0.05.
Proof.
  unfold round1, round_half_even.
  pose proof (Zfloor_bound (x * 10)) as [H1 H2].
  destruct (Rlt_dec (x * 10 - IZR (Zfloor (x * 10))) (1 / 2)); [lra|].
  destruct (Rlt_dec (1 / 2) (x * 10 - IZR (Zfloor (x * 10)))).
  - rewrite plus_IZR. lra.
  - destruct (Z.even (Zfloor (x * 10))); [lra|]. rewrite plus_IZR. lra.
Qed.

(** The quantity under the square root lies between 0 and 1 for all
    coordinates, so the square root and the arc sine are taken inside
    their domains; the distance lies between 0 and half the circumference
    of the sphere, [6371 * PI] km. *)
Theorem calculate_distance_in_range (lat1 lon1 lat2 lon2 : R) :
  _calculate_distance lat1 lon1 lat2 lon2
  = 6371 * (2 * asin (sqrt (hav_arg lat1 lon1 lat2 lon2))) /\
  0 <= hav_arg lat1 lon1 lat2 lon2 <= 1 /\
  0 <= _calculate_distance lat1 lon1 lat2 lon2 <= 6371 * PI.
Proof.
  split; [reflexivity|]. split.
  - apply hav_arg_range.
  - apply calculate_distance_range.
Qed.

(** The distance does not depend on the direction, and a point is at
    distance 0 from itself. *)
Theorem calculate_distance_symmetric (lat1 lon1 lat2 lon2 : R) :
  _calculate_distance lat1 lon1 lat2 lon2
  = _calculate_distance lat2 lon2 lat1 lon1 /\
  _calculate_distance lat1 lon1 lat1 lon1 = 0.
Proof.
  split; [apply calculate_distance_sym|apply calculate_distance_same].
Qed.

End DistanceMore.

(** ** location_service.py: the records returned *)

Module LocationFacts.

Import PyStr Location LocationNotions Doctors SortedFacts RankingFacts
  DistanceFacts DistanceMore.
Open Scope string_scope.
Open Scope R_scope.

(** One step through a block of the error monad that has returned. *)
Ltac returned H :=
  repeat first
    [ match type of H with
      | context [bind ?c _] => destruct c; simpl in H; [discriminate|]
      end
    | match type of H with
      | context [if ?b then _ else _] => destruct b; simpl in H
      end
    | match type of H with
      | context [match ?c with Some _ => _ | None => _ end] =>
          destruct c as [[? ?]|]; simpl in H
      end ].

Lemma extract_place_info_type (client : option GoogleMaps) (place : json)
  (user_lat user_lon : R) (facility_type : string) (info : Facility) :
  _extract_place_info client place user_lat user_lon facility_type = Some info ->
  type info = facility_type.
Proof.
  unfold _extract_place_info, _extract_place_info_try. intros H.
  destruct (place_location place) as [e|[plat plon]]; simpl in H;
    [discriminate|].
  repeat match type of H with
         | context [bind ?c _] =>
             destruct c; simpl in H; [discriminate|]
         end.
  inversion H; subst. reflexivity.
Qed.

Lemma osm_element_record (lat0 lon0 : R) (element : json) (info : Facility) :
  osm_element lat0 lon0 element = inr (Some info) ->
  hospital_or_clinic info /\
  distance info = round1 (_calculate_distance lat0 lon0 (lat info) (lon info)).
Proof.
  unfold osm_element, hospital_or_clinic. intros H.
  returned H; try discriminate;
    inversion H; subst; simpl; split; auto;
    match goal with
    | |- context [if ?b then _ else _] => destruct b; auto
    end.
Qed.

Lemma osm_elements_Forall (P : Facility -> Prop) (lat0 lon0 : R)
  (elements : list json) :
  (forall element info,
      osm_element lat0 lon0 element = inr (Some info) -> P info) ->
  forall hospitals,
    osm_elements lat0 lon0 elements = inr hospitals -> Forall P hospitals.
Proof.
  intros HP. induction elements as [|element r IH]; simpl; intros hospitals H.
  - inversion H. constructor.
  - destruct (osm_element lat0 lon0 element) as [e|here] eqn:Here; simpl in H;
      [discriminate|].
    destruct (osm_elements lat0 lon0 r) as [e|rest]; simpl in H;
      [discriminate|].
    inversion H; subst.
    destruct here as [info|]; [|apply IH; reflexivity].
    constructor; [apply (HP element), Here|apply IH; reflexivity].
Qed.

Lemma extract_all_Forall (P : Facility -> Prop) (client : option GoogleMaps)
  (places : list json) (lat0 lon0 : R) (facility_type : string) :
  (forall place info,
      _extract_place_info client place lat0 lon0 facility_type = Some info ->
      P info) ->
  Forall P (extract_all client places lat0 lon0 facility_type).
Proof.
  intros HP. unfold extract_all.
  induction places as [|place r IH]; simpl; [constructor|].
  destruct (_extract_place_info client place lat0 lon0 facility_type)
    as [info|] eqn:E; simpl; [|exact IH].
  constructor; [apply (HP place), E|exact IH].
Qed.

Lemma google_places_Forall (P : Facility -> Prop) (g : GoogleMaps)
  (lat0 lon0 radius_km : R) (hospitals : list Facility) :
  (forall place facility_type info,
      facility_type = "Hospital" \/ facility_type = "Clinic" ->
      _extract_place_info (Some g) place lat0 lon0 facility_type = Some info ->
      P info) ->
  google_places g lat0 lon0 radius_km = inr hospitals -> Forall P hospitals.
Proof.
  intros HP H. unfold google_places in H.
  repeat match type of H with
         | context [bind ?c _] =>
             destruct c; simpl in H; [discriminate|]
         end.
  inversion H; subst. apply Forall_app. split.
  - apply extract_all_Forall. intros place info. apply HP. left. reflexivity.
  - apply extract_all_Forall. intros place info. apply HP. right. reflexivity.
Qed.

Lemma sort_by_distance_Forall (P : Facility -> Prop) (l : list Facility) :
  Forall P l -> Forall P (sort_by_distance l).
Proof.
  unfold sort_by_distance. induction 1 as [|x l Hx Hl IH]; simpl;
    [constructor|].
  apply (Permutation_Forall (Permutation_sym (insert_facility_perm x _))).
  constructor; assumption.
Qed.

Lemma ranked_Forall (P : Facility -> Prop) (l : list Facility) :
  Forall P l -> Forall P (firstn max_results (sort_by_distance l)).
Proof.
  intros H. apply sort_by_distance_Forall in H.
  rewrite <- (firstn_skipn max_results (sort_by_distance l)) in H.
  apply Forall_app in H. apply H.
Qed.

(** What holds of every record the providers yield holds of every record
    returned, unless the fallback list is returned. *)
Lemma found_Forall (P : Facility -> Prop) (self : Providers)
  (lat0 lon0 radius_km : R) :
  (forall client place facility_type info,
      facility_type = "Hospital" \/ facility_type = "Clinic" ->
      _extract_place_info client place lat0 lon0 facility_type = Some info ->
      P info) ->
  (forall element info,
      osm_element lat0 lon0 element = inr (Some info) -> P info) ->
  find_nearby_hospitals_real self lat0 lon0 radius_km
    = _get_fallback_hospitals lat0 lon0 radius_km \/
  Forall P (find_nearby_hospitals_real self lat0 lon0 radius_km).
Proof.
  intros Hg Ho. unfold find_nearby_hospitals_real, _search_osm_hospitals.
  destruct (gmaps_client self) as [g|].
  - destruct (google_places g lat0 lon0 radius_km) as [e|hospitals] eqn:E;
      [left; reflexivity|].
    right. apply ranked_Forall.
    apply (google_places_Forall P g lat0 lon0 radius_km); [|exact E].
    intros place facility_type info. apply Hg.
  - destruct (_search_osm_hospitals_try self lat0 lon0 radius_km)
      as [e|hospitals] eqn:E; [left; reflexivity|].
    right. apply ranked_Forall.
    unfold _search_osm_hospitals_try in E.
    destruct (overpass self lat0 lon0 (radius_km * 1000))
      as [e|status_code body]; [discriminate|].
    destruct (Nat.eqb status_code 200).
    + destruct body as [e|data]; simpl in E; [discriminate|].
      destruct (get data "elements" (JList [])) as [e|v]; simpl in E;
        [discriminate|].
      destruct (iterate v) as [e|elements]; simpl in E; [discriminate|].
      apply (osm_elements_Forall P lat0 lon0 elements Ho), E.
    + inversion E. constructor.
Qed.

Lemma round1_in_tenths (x : R) :
  0 <= x -> exists z : Z, (0 <= z)%Z /\ round1 x = IZR z / 10.
Proof.
  intros Hx. exists (round_half_even (x * 10)). split; [|reflexivity].
  apply round_half_even_nonneg. lra.
Qed.

Lemma fallback_records (lat0 lon0 radius_km : R) :
  Forall (fun f => hospital_or_clinic f /\ in_tenths f)
         (_get_fallback_hospitals lat0 lon0 radius_km).
Proof.
  unfold _get_fallback_hospitals, hospital_or_clinic, in_tenths.
  constructor; [|constructor; [|constructor]]; simpl; split.
  - left. reflexivity.
  - exists 25%Z. split; [lia|lra].
  - right. reflexivity.
  - exists 18%Z. split; [lia|lra].
Qed.

Lemma records_well_formed (self : Providers) (lat0 lon0 radius_km : R) :
  Forall (fun f => hospital_or_clinic f /\ in_tenths f)
         (find_nearby_hospitals_real self lat0 lon0 radius_km).
Proof.
  destruct (found_Forall (fun f => hospital_or_clinic f /\ in_tenths f)
              self lat0 lon0 radius_km) as [E|H].
  - intros client place facility_type info Hty Hinfo. split.
    + unfold hospital_or_clinic.
      rewrite (extract_place_info_type _ _ _ _ _ _ Hinfo). exact Hty.
    + apply extract_place_info_distance in Hinfo as [_ Hd].
      unfold in_tenths. rewrite Hd. apply round1_in_tenths.
      apply calculate_distance_range.
  - intros element info Hinfo.
    apply osm_element_record in Hinfo as [Hty Hd]. split; [exact Hty|].
    unfold in_tenths. rewrite Hd. apply round1_in_tenths.
    apply calculate_distance_range.
  - rewrite E. apply fallback_records.
  - exact H.
Qed.

(** Whatever the providers answer, every record
    [find_nearby_hospitals_real] returns has the type ["Hospital"] or
    ["Clinic"] and a distance that is a non-negative whole number of
    tenths of a kilometre. *)
Theorem find_nearby_hospitals_real_records (self : Providers)
  (lat0 lon0 radius_km : R) :
  Forall (fun f => hospital_or_clinic f /\ in_tenths f)
         (find_nearby_hospitals_real self lat0 lon0 radius_km).
Proof. apply records_well_formed. Qed.

(** Unless the fallback list is returned, every record returned carries
    the distance from the origin of the search to the record's own
    coordinates, rounded to one decimal place, hence within 0.05 km of
    it. *)
Theorem find_nearby_hospitals_real_distances (self : Providers)
  (lat0 lon0 radius_km : R) :
  find_nearby_hospitals_real self lat0 lon0 radius_km
    = _get_fallback_hospitals lat0 lon0 radius_km \/
  Forall (fun f =>
            distance f
              = round1 (_calculate_distance lat0 lon0 (lat f) (lon f)) /\
            -0.05 <= distance f - _calculate_distance lat0 lon0 (lat f) (lon f)
              <= 0.05)
         (find_nearby_hospitals_real self lat0 lon0 radius_km).
Proof.
  apply found_Forall.
  - intros client place facility_type info _ Hinfo.
    apply extract_place_info_distance in Hinfo as [_ Hd].
    split; [exact Hd|]. rewrite Hd. apply round1_close.
  - intros element info Hinfo.
    apply osm_element_record in Hinfo as [_ Hd].
    split; [exact Hd|]. rewrite Hd. apply round1_close.
Qed.

(** A place without usable coordinates or without identifier gives no
    record: [_extract_place_info] returns [None] and the loop over the
    places passes it by. *)
Theorem extract_place_info_skips (client : option GoogleMaps) (place : json)
  (places : list json) (user_lat user_lon : R) (facility_type : string)
  (e : exn) :
  place_location place = inl e \/ getitem place "place_id" = inl e ->
  _extract_place_info client place user_lat user_lon facility_type = None /\
  extract_all client (place :: places) user_lat user_lon facility_type
  = extract_all client places user_lat user_lon facility_type.
Proof.
  intros H.
  assert (E : _extract_place_info client place user_lat user_lon facility_type
              = None).
  { unfold _extract_place_info, _extract_place_info_try.
    destruct (place_location place) as [e'|[plat plon]]; simpl;
      [reflexivity|].
    destruct H as [H|H]; [discriminate|]. rewrite H. reflexivity. }
  split; [exact E|]. unfold extract_all. simpl. rewrite E. reflexivity.
Qed.

Lemma extract_place_info_skips_witness :
  (place_location (JObj [("name", JStr "City Clinic")]) = inl KeyError \/
   getitem (JObj [("name", JStr "City Clinic")]) "place_id" = inl KeyError) /\
  _extract_place_info None (JObj [("name", JStr "City Clinic")]) 40 (-74)
    "Hospital" = None /\
  extract_all None [JObj [("name", JStr "City Clinic")]] 40 (-74) "Hospital"
  = extract_all None [] 40 (-74) "Hospital".
Proof.
  split; [left; reflexivity|].
  apply (extract_place_info_skips None (JObj [("name", JStr "City Clinic")])
           [] 40 (-74) "Hospital" KeyError).
  left. reflexivity.
Defined.

(** Without API key, an Overpass response whose status is not 200 gives
    the empty list, not the fallback list. *)
Theorem search_osm_hospitals_status (self : Providers)
  (lat0 lon0 radius_km : R) (status_code : nat) (body : result json) :
  gmaps_client self = None ->
  overpass self lat0 lon0 (radius_km * 1000) = Response status_code body ->
  status_code <> 200%nat ->
  find_nearby_hospitals_real self lat0 lon0 radius_km = [] /\
  _search_osm_hospitals self lat0 lon0 radius_km = [].
Proof.
  intros Hg Ho Hs.
  assert (E : _search_osm_hospitals self lat0 lon0 radius_km = []).
  { unfold _search_osm_hospitals, _search_osm_hospitals_try. rewrite Ho.
    apply Nat.eqb_neq in Hs. rewrite Hs. reflexivity. }
  split; [|exact E].
  unfold find_nearby_hospitals_real. rewrite Hg. exact E.
Qed.

Lemma search_osm_hospitals_status_witness :
  find_nearby_hospitals_real (overpass_status 503) 40 (-74) 10 = [] /\
  _search_osm_hospitals (overpass_status 503) 40 (-74) 10 = [].
Proof.
  apply (search_osm_hospitals_status (overpass_status 503) 40 (-74) 10 503
           (ret (JObj []))).
  - reflexivity.
  - reflexivity.
  - lia.
Defined.

(** *** The sort is stable *)

Lemma at_distance_true (d : R) (f : Facility) :
  at_distance d f = true -> distance f = d.
Proof.
  unfold at_distance. destruct (Req_dec_T (distance f) d);
    [auto|discriminate].
Qed.

Lemma insert_facility_filter (d : R) (x : Facility) (l : list Facility) :
  filter (at_distance d) (insert_facility x l)
  = filter (at_distance d) (x :: l).
Proof.
  induction l as [|y r IH]; [reflexivity|].
  cbn [insert_facility]. destruct (closer x y) eqn:E; [reflexivity|].
  cbn [filter] in *. rewrite IH.
  destruct (at_distance d x) eqn:Hx; [|reflexivity].
  destruct (at_distance d y) eqn:Hy; [|reflexivity].
  apply at_distance_true in Hx, Hy.
  unfold closer in E.
  destruct (Rle_dec (distance x) (distance y)) as [|Hn]; [discriminate|].
  exfalso. apply Hn. rewrite Hx, Hy. apply Rle_refl.
Qed.

(** Sorting by distance keeps records at the same distance in the order
    in which they were found. *)
Theorem sort_by_distance_stable (d : R) (l : list Facility) :
  filter (at_distance d) (sort_by_distance l) = filter (at_distance d) l.
Proof.
  unfold sort_by_distance. induction l as [|x l IH]; [reflexivity|].
  cbn [fold_right]. rewrite insert_facility_filter.
  cbn [filter]. rewrite IH. reflexivity.
Qed.

(** *** app.py: [find_nearby_doctors] *)


End LocationFacts.

